(** * Health-metrics API: handlers over a Redis store, session tokens

    A shallow embedding of the Go handlers of the repository
    (health_handler.go, models.go, the auth handlers, the JWT middleware)
    and the properties of the specification that are settled on them.

    Conventions of the embedding.
    - [float64] is Rocq's primitive binary64 [float]; Go's [int] and [int64]
      are [Z] with the 64-bit wrap-around written out where the code can
      overflow.
    - An instant ([time.Time]) is a [Z], in whole seconds since the Unix
      epoch, which is the resolution of a token's [exp] claim.
    - Redis is a finite map from keys to entries, threaded through every
      handler; each command first consults a fault schedule, so an
      unreachable store is an input like any other.  An entry keeps the
      time-to-live it was given; keys expire between requests, not within
      one, and no handler here is stepped across an expiry.
    - A JSON document held by Redis is kept as the Go value it was
      marshalled from; what [json.Unmarshal] does with it, also into a
      struct of another kind, is written out field by field. *)

From Stdlib Require Import Floats ZArith Ascii String.
From stdpp Require Import gmap strings list pretty.

Open Scope string_scope.
Open Scope Z_scope.

(** ** Time *)

Definition Time := Z.

(** [time.Time{}], January 1 of year 1, in Unix seconds. *)
Definition zeroTime : Time := -62135596800.
Definition Hour : Z := 3600.

(** [t.After(u)] and [t.Before(u)]. *)
Definition After (t u : Time) : bool := u <? t.
Definition Before (t u : Time) : bool := t <? u.

(** ** Data model (models.go) *)

Module User.
Record t := mk {
  ID : string;
  Email : string;
  Password : string;
  FullName : string;
  Active : bool;
  CreatedAt : Time;
  UpdatedAt : Time
}.
Definition zero : t := mk "" "" "" "" false zeroTime zeroTime.
End User.

Module RegisterRequest.
Record t := mk { Email : string; Password : string; FullName : string }.
End RegisterRequest.

Module LoginRequest.
Record t := mk { Email : string; Password : string }.
End LoginRequest.

Module AuthResponse.
Record t := mk { Token : string; ExpiresIn : Z; User : User.t }.
End AuthResponse.

Module HealthRecord.
Record t := mk {
  ID : string;
  UserID : string;
  Type_ : string;
  Value : float;
  Unit : string;
  Notes : string;
  RecordedAt : Time;
  CreatedAt : Time
}.
Definition zero : t := mk "" "" "" 0%float "" "" zeroTime zeroTime.
End HealthRecord.

Module HealthRecordRequest.
Record t := mk {
  Type_ : string;
  Value : float;
  Unit : string;
  Notes : string;
  RecordedAt : string
}.
End HealthRecordRequest.

Module HealthStats.
Record t := mk {
  UserID : string;
  Type_ : string;
  Average : float;
  Min : float;
  Max : float;
  Count : Z;
  LastRecord : Time
}.
(** [var stats HealthStats]: every field at its zero value. *)
Definition zero : t := mk "" "" 0%float 0%float 0%float 0 zeroTime.
End HealthStats.

Module HealthRecordInput.
Record t := mk { Type_ : string; Value : float; Unit : string }.
End HealthRecordInput.

(** ** JSON documents

    [json.Marshal] of one of the three structs the handlers store, or bytes
    that are no JSON object at all. *)

Inductive doc :=
  | DUser (u : User.t)
  | DRecord (r : HealthRecord.t)
  | DStats (s : HealthStats.t)
  | DRaw (bytes : string).

(** The password carries the tag [json:"-"]: it is left out of the
    document. *)
Definition marshalUser (u : User.t) : doc :=
  DUser (User.mk (User.ID u) (User.Email u) "" (User.FullName u)
                 (User.Active u) (User.CreatedAt u) (User.UpdatedAt u)).
Definition marshalRecord (r : HealthRecord.t) : doc := DRecord r.
Definition marshalStats (s : HealthStats.t) : doc := DStats s.

(** [json.Unmarshal] fills the fields whose keys the document has and leaves
    the others at zero; keys it does not know are skipped.  A record and a
    stats object share [user_id] and [type]; a user and a record share [id]
    and [created_at]; a user and a stats object share nothing.  The
    password, tagged [json:"-"], is filled from no document. *)
Definition unmarshalUser (d : doc) : option User.t :=
  match d with
  | DUser u =>
      Some (User.mk (User.ID u) (User.Email u) "" (User.FullName u)
                    (User.Active u) (User.CreatedAt u) (User.UpdatedAt u))
  | DRecord r =>
      Some (User.mk (HealthRecord.ID r) "" "" "" false
                    (HealthRecord.CreatedAt r) zeroTime)
  | DStats _ => Some User.zero
  | DRaw _ => None
  end.

Definition unmarshalRecord (d : doc) : option HealthRecord.t :=
  match d with
  | DRecord r => Some r
  | DStats s =>
      Some (HealthRecord.mk "" (HealthStats.UserID s) (HealthStats.Type_ s)
                            0%float "" "" zeroTime zeroTime)
  | DUser u =>
      Some (HealthRecord.mk (User.ID u) "" "" 0%float "" "" zeroTime
                            (User.CreatedAt u))
  | DRaw _ => None
  end.

Definition unmarshalStats (d : doc) : option HealthStats.t :=
  match d with
  | DStats s => Some s
  | DRecord r =>
      Some (HealthStats.mk (HealthRecord.UserID r) (HealthRecord.Type_ r)
                           0%float 0%float 0%float 0 zeroTime)
  | DUser _ => Some HealthStats.zero
  | DRaw _ => None
  end.

(** ** Redis *)

Inductive rvalue :=
  | RString (d : doc)
  | RList (items : list string).

(** An entry and the time-to-live it was last given, in seconds ([None]: the
    key does not expire). *)
Record entry := Entry { val : rvalue; ttl : option Z }.

(** The head of [faults] decides the next command: [Some detail] makes it
    fail with that error text and leave the data alone.  An empty schedule
    is a store that answers every command. *)
Record Redis := mkRedis {
  data : gmap string entry;
  faults : list (option string)
}.

Inductive redis_error :=
  | RedisNil
  | WrongType
  | Unavailable (detail : string).

Inductive result (A : Type) :=
  | Ok (a : A)
  | Err (e : redis_error).
Arguments Ok {A} a.
Arguments Err {A} e.

(** Handlers are state transformers over the store. *)
Definition M (A : Type) : Type := Redis -> A * Redis.

Definition ret {A} (a : A) : M A := fun st => (a, st).
Definition bind {A B} (m : M A) (k : A -> M B) : M B :=
  fun st => let (a, st') := m st in k a st'.

Notation "'let!' x ':=' c1 'in' c2" := (bind c1 (fun x => c2))
  (at level 10, x name, c1 at level 100, c2 at level 200, only parsing).
Notation "'do!' c1 'in' c2" := (bind c1 (fun _ => c2))
  (at level 10, c1 at level 100, c2 at level 200, only parsing).

(** One command against the store. *)
Definition command {A} (run : gmap string entry -> result A * gmap string entry)
  : M (result A) :=
  fun st =>
    match faults st with
    | Some detail :: rest => (Err (Unavailable detail), mkRedis (data st) rest)
    | None :: rest => let (r, d) := run (data st) in (r, mkRedis d rest)
    | [] => let (r, d) := run (data st) in (r, mkRedis d [])
    end.

(** GET *)
Definition Get (key : string) : M (result doc) :=
  command (fun d =>
    match d !! key with
    | None => (Err RedisNil, d)
    | Some (Entry (RString v) _) => (Ok v, d)
    | Some (Entry (RList _) _) => (Err WrongType, d)
    end).

(** SET key value EX ttl *)
Definition Set_ (key : string) (v : doc) (expiry : Z) : M (result unit) :=
  command (fun d => (Ok tt, <[key := Entry (RString v) (Some expiry)]> d)).

(** DEL *)
Definition Del (key : string) : M (result unit) :=
  command (fun d => (Ok tt, delete key d)).

(** LPUSH: the new item goes to the head; a fresh list has no expiry. *)
Definition LPush (key item : string) : M (result unit) :=
  command (fun d =>
    match d !! key with
    | None => (Ok tt, <[key := Entry (RList [item]) None]> d)
    | Some (Entry (RList l) e) => (Ok tt, <[key := Entry (RList (item :: l)) e]> d)
    | Some (Entry (RString _) _) => (Err WrongType, d)
    end).

(** EXPIRE *)
Definition Expire (key : string) (expiry : Z) : M (result unit) :=
  command (fun d =>
    match d !! key with
    | None => (Ok tt, d)
    | Some (Entry v _) => (Ok tt, <[key := Entry v (Some expiry)]> d)
    end).

(** The elements of LRANGE: negative indexes count from the tail, an index
    past the end is the last one. *)
Definition lrange (l : list string) (start stop : Z) : list string :=
  let n := Z.of_nat (length l) in
  let s := if start <? 0 then Z.max 0 (n + start) else start in
  let e := if stop <? 0 then n + stop else stop in
  if (e <? s) || (n <=? s) then []
  else
    let e := if n <=? e then n - 1 else e in
    take (Z.to_nat (e - s + 1)) (drop (Z.to_nat s) l).

(** LRANGE: a key that is not there is an empty list. *)
Definition LRange (key : string) (start stop : Z) : M (result (list string)) :=
  command (fun d =>
    match d !! key with
    | None => (Ok [], d)
    | Some (Entry (RList l) _) => (Ok (lrange l start stop), d)
    | Some (Entry (RString _) _) => (Err WrongType, d)
    end).

Fixpoint remove_first (x : string) (l : list string) : list string :=
  match l with
  | [] => []
  | y :: l' => if String.eqb x y then l' else y :: remove_first x l'
  end.

(** LREM key 1 item: the first occurrence goes; a list left empty is
    removed with its key. *)
Definition LRem1 (key item : string) : M (result unit) :=
  command (fun d =>
    match d !! key with
    | None => (Ok tt, d)
    | Some (Entry (RList l) e) =>
        match remove_first item l with
        | [] => (Ok tt, delete key d)
        | l' => (Ok tt, <[key := Entry (RList l') e]> d)
        end
    | Some (Entry (RString _) _) => (Err WrongType, d)
    end).

(** ** HTTP *)

Inductive Body :=
  | JError (msg : string)
  | JMessage (msg : string)
  | JRecord (r : HealthRecord.t)
  | JRecords (rs : list HealthRecord.t)
  | JStats (s : HealthStats.t)
  | JAuth (a : AuthResponse.t)
  | Text (s : string).

Record Response := mkResponse {
  Status : Z;
  Header : list (string * string);
  Payload : Body
}.

Definition StatusOK : Z := 200.
Definition StatusCreated : Z := 201.
Definition StatusBadRequest : Z := 400.
Definition StatusUnauthorized : Z := 401.
Definition StatusForbidden : Z := 403.
Definition StatusConflict : Z := 409.
Definition StatusMethodNotAllowed : Z := 405.
Definition StatusRequestEntityTooLarge : Z := 413.
Definition StatusInternalServerError : Z := 500.

(** [http.Error(w, msg, code)]: the message as a line of plain text. *)
Definition httpError (msg : string) (code : Z) : Response :=
  mkResponse code
    [("Content-Type", "text/plain; charset=utf-8");
     ("X-Content-Type-Options", "nosniff")]
    (Text msg).

(** [w.WriteHeader(code)] followed by the encoding of
    [map[string]string{"error": msg}]: no header is set. *)
Definition jsonError (code : Z) (msg : string) : Response :=
  mkResponse code [] (JError msg).

(** What a handler reads of the request: the method, the declared length of
    the body, the identity the middleware left in the context under
    ["user"], and the query string through [r.URL.Query().Get]. *)
Record Request := mkRequest {
  Method : string;
  ContentLength : Z;
  ctxUser : option string;
  Query : string -> string
}.

(** [securityConfig.MaxRequestBodySize] *)
Definition MaxRequestBodySize : Z := 10 * 1024 * 1024.

(** What the handler draws from outside while it runs: the fresh UUID and
    the two readings of the clock, in program order. *)
Record Env := mkEnv {
  uuid_New : string;
  time_Now : Time;
  time_Now' : Time
}.

(** ** Keys *)

Definition recordKey (userID id : string) : string :=
  "health:" +:+ userID +:+ ":" +:+ id.
Definition listKey (userID : string) : string :=
  "health:" +:+ userID +:+ ":list".
Definition statsKey (userID type : string) : string :=
  "health:" +:+ userID +:+ ":stats:" +:+ type.
Definition userKey (email : string) : string := "user:" +:+ email.

(** ** Validation (the struct tags of models.go, as validator/v10 reads
    them) *)

Record FieldError := mkFieldError {
  Namespace : string;
  Field : string;
  Tag : string
}.

(** [FieldError.Error()] *)
Definition fieldErrorText (fe : FieldError) : string :=
  "Key: '" +:+ Namespace fe +:+ "' Error:Field validation for '" +:+ Field fe
  +:+ "' failed on the '" +:+ Tag fe +:+ "' tag".

(** [ValidationErrors.Error()]: one line per field. *)
Fixpoint validationErrorsText (fes : list FieldError) : string :=
  match fes with
  | [] => ""
  | [fe] => fieldErrorText fe
  | fe :: rest => fieldErrorText fe +:+ "
" +:+ validationErrorsText rest
  end.

(** The first tag of a field that fails, if any. *)
Fixpoint firstFailing (checks : list (string * bool)) : option string :=
  match checks with
  | [] => None
  | (tag, ok) :: rest => if ok then firstFailing rest else Some tag
  end.

Definition checkField (ns field : string) (checks : list (string * bool))
  : list FieldError :=
  match firstFailing checks with
  | None => []
  | Some tag => [mkFieldError ns field tag]
  end.

(** [required]: the field is not the zero value of its type. *)
Definition requiredString (s : string) : bool := negb (String.eqb s "").
Definition requiredFloat (v : float) : bool := negb (PrimFloat.eqb v 0).

Definition healthTypes : list string :=
  ["blood_pressure"; "heart_rate"; "weight"; "temperature"; "glucose"].

(** [oneof=...] *)
Definition oneof (options : list string) (s : string) : bool :=
  existsb (String.eqb s) options.

(** [min=p] and [max=p] on a float field. *)
Definition minFloat (p v : float) : bool := PrimFloat.leb p v.
Definition maxFloat (p v : float) : bool := PrimFloat.leb v p.

(** [validate.Struct(input)] for a [HealthRecordInput]: the field errors, in
    field order; none means [err == nil]. *)
Definition validateHealthRecordInput (input : HealthRecordInput.t)
  : list FieldError :=
  checkField "HealthRecordInput.Type" "Type"
    [("required", requiredString (HealthRecordInput.Type_ input));
     ("oneof", oneof healthTypes (HealthRecordInput.Type_ input))]
  ++ checkField "HealthRecordInput.Value" "Value"
    [("required", requiredFloat (HealthRecordInput.Value input));
     ("min", minFloat 0 (HealthRecordInput.Value input));
     ("max", maxFloat 500 (HealthRecordInput.Value input))]
  ++ checkField "HealthRecordInput.Unit" "Unit"
    [("required", requiredString (HealthRecordInput.Unit input))].

(** ** Statistics helpers (health_handler.go) *)

Definition float64_of_len {A} (l : list A) : float :=
  PrimFloat.of_uint63 (Uint63.of_Z (Z.of_nat (length l))).

Definition calculateAverage (values : list float) : float :=
  match values with
  | [] => 0%float
  | _ =>
      let sum := fold_left PrimFloat.add values 0%float in
      PrimFloat.div sum (float64_of_len values)
  end.

Definition calculateMin (values : list float) : float :=
  match values with
  | [] => 0%float
  | v0 :: _ =>
      fold_left (fun min v => if PrimFloat.ltb v min then v else min) values v0
  end.

Definition calculateMax (values : list float) : float :=
  match values with
  | [] => 0%float
  | v0 :: _ =>
      fold_left (fun max v => if PrimFloat.ltb max v then v else max) values v0
  end.

(** ** The [limit] query parameter

    [fmt.Sscanf(l, "%d", &limit)]: leading spaces are skipped (a newline
    among them is an error), then an optional sign and a run of decimal
    digits are read and handed to [strconv.ParseInt(tok, 10, 64)]; what
    follows the digits is left unread.  [None] is the error return, on
    which [limit] keeps the value it had. *)

Definition byte_of (c : ascii) : nat := nat_of_ascii c.

Definition isDigit (c : ascii) : bool :=
  let n := byte_of c in (48 <=? n)%nat && (n <=? 57)%nat.

Definition digitValue (c : ascii) : Z := Z.of_nat (byte_of c) - 48.

(** [SkipSpace]: the rest of the input after the spaces, the UTF-8 forms of
    the Unicode spaces included. *)
Fixpoint skipSpace (s : string) : option string :=
  match s with
  | "" => Some ""
  | String c rest =>
      let n := byte_of c in
      if (n =? 10)%nat then None
      else if ((9 <=? n)%nat && (n <=? 13)%nat) || (n =? 32)%nat
      then skipSpace rest
      else
        match rest with
        | String d rest1 =>
            let m := byte_of d in
            if (n =? 194)%nat && ((m =? 133)%nat || (m =? 160)%nat)
            then skipSpace rest1
            else
              match rest1 with
              | String e rest2 =>
                  let k := byte_of e in
                  if ((n =? 225)%nat && (m =? 154)%nat && (k =? 128)%nat)
                     || ((n =? 226)%nat && (m =? 128)%nat
                         && (((128 <=? k)%nat && (k <=? 138)%nat)
                             || (k =? 168)%nat || (k =? 169)%nat
                             || (k =? 175)%nat))
                     || ((n =? 226)%nat && (m =? 129)%nat && (k =? 159)%nat)
                     || ((n =? 227)%nat && (m =? 128)%nat && (k =? 128)%nat)
                  then skipSpace rest2
                  else Some s
              | "" => Some s
              end
        | "" => Some s
        end
  end.

Fixpoint scanDigits (acc : Z) (s : string) : Z :=
  match s with
  | String c rest =>
      if isDigit c then scanDigits (10 * acc + digitValue c) rest else acc
  | "" => acc
  end.

Definition minInt64 : Z := - 2 ^ 63.
Definition maxInt64 : Z := 2 ^ 63 - 1.

Definition Sscanf_d (s : string) : option Z :=
  match skipSpace s with
  | None => None
  | Some s1 =>
      let '(neg, s2) :=
        match s1 with
        | String c r =>
            if (byte_of c =? 45)%nat then (true, r)
            else if (byte_of c =? 43)%nat then (false, r)
            else (false, s1)
        | "" => (false, "")
        end in
      match s2 with
      | String c _ =>
          if isDigit c then
            let m := scanDigits 0 s2 in
            let v := if neg then - m else m in
            if (minInt64 <=? v) && (v <=? maxInt64) then Some v else None
          else None
      | "" => None
      end
  end.

(** [limit-1] in 64-bit two's complement. *)
Definition wrap64 (z : Z) : Z := (z + 2 ^ 63) mod 2 ^ 64 - 2 ^ 63.

(** Lines 127-133 of health_handler.go: 20 unless the parameter is there;
    what is scanned, capped from above at 100. *)
Definition pageLimit (l : string) : Z :=
  if String.eqb l "" then 20
  else
    let limit := match Sscanf_d l with Some n => n | None => 20 end in
    if 100 <? limit then 100 else limit.

(** ** Health data handlers (health_handler.go) *)

Definition jsonHeader : string * string := ("Content-Type", "application/json").

Definition recordTTL : Z := 30 * 24 * Hour.

Section Health.

(** [time.Parse(time.RFC3339, s)]; [None] is a parse error. *)
Variable time_Parse_RFC3339 : string -> option Time.

Definition createHealthRecordHandler (env : Env) (r : Request)
    (body : option HealthRecordRequest.t) : M Response :=
  if negb (String.eqb (Method r) "POST")
  then ret (httpError "Method not allowed" StatusMethodNotAllowed)
  else if MaxRequestBodySize <? ContentLength r
  then ret (httpError "Request body too large" StatusRequestEntityTooLarge)
  else
    match ctxUser r with
    | None => ret (jsonError StatusUnauthorized "Unauthorized")
    | Some userID =>
      match body with
      | None => ret (jsonError StatusBadRequest "Invalid request body")
      | Some req =>
        let input :=
          HealthRecordInput.mk (HealthRecordRequest.Type_ req)
            (HealthRecordRequest.Value req) (HealthRecordRequest.Unit req) in
        match validateHealthRecordInput input with
        | (_ :: _) as errs =>
            ret (jsonError StatusBadRequest (validationErrorsText errs))
        | [] =>
          let recordedAt :=
            if String.eqb (HealthRecordRequest.RecordedAt req) ""
            then time_Now env
            else
              match time_Parse_RFC3339 (HealthRecordRequest.RecordedAt req) with
              | Some t => t
              | None => time_Now env
              end in
          let record :=
            HealthRecord.mk (uuid_New env) userID
              (HealthRecordRequest.Type_ req) (HealthRecordRequest.Value req)
              (HealthRecordRequest.Unit req) (HealthRecordRequest.Notes req)
              recordedAt (time_Now' env) in
          let key := recordKey userID (HealthRecord.ID record) in
          let! stored := Set_ key (marshalRecord record) recordTTL in
          match stored with
          | Err _ =>
              ret (jsonError StatusInternalServerError "Failed to create record")
          | Ok _ =>
              do! LPush (listKey userID) (HealthRecord.ID record) in
              do! Expire (listKey userID) recordTTL in
              do! Del (statsKey userID (HealthRecordRequest.Type_ req)) in
              ret (mkResponse StatusCreated [jsonHeader] (JRecord record))
          end
        end
      end
    end.

(** The loop of the list handler: a record that is missing or does not
    decode is skipped. *)
Fixpoint fetchRecords (userID : string) (ids : list string)
    (records : list HealthRecord.t) : M (list HealthRecord.t) :=
  match ids with
  | [] => ret records
  | id :: rest =>
      let! got := Get (recordKey userID id) in
      match got with
      | Ok d =>
          match unmarshalRecord d with
          | Some record => fetchRecords userID rest (records ++ [record])
          | None => fetchRecords userID rest records
          end
      | Err _ => fetchRecords userID rest records
      end
  end.

Definition getHealthRecordsHandler (r : Request) : M Response :=
  if negb (String.eqb (Method r) "GET")
  then ret (httpError "Method not allowed" StatusMethodNotAllowed)
  else
    match ctxUser r with
    | None => ret (jsonError StatusUnauthorized "Unauthorized")
    | Some userID =>
        let limit := pageLimit (Query r "limit") in
        let! ranged := LRange (listKey userID) 0 (wrap64 (limit - 1)) in
        match ranged with
        | Err _ => ret (mkResponse StatusOK [jsonHeader] (JRecords []))
        | Ok recordIDs =>
            let! records := fetchRecords userID recordIDs [] in
            ret (mkResponse StatusOK
                   [jsonHeader;
                    ("X-Total-Count", pretty (Z.of_nat (length records)))]
                   (JRecords records))
        end
    end.

(** The loop of the stats handler: the values of the records of the asked
    type, in index order, and the latest [RecordedAt] among them. *)
Fixpoint scanRecords (userID recordType : string) (ids : list string)
    (values : list float) (lastRecord : Time) : M (list float * Time) :=
  match ids with
  | [] => ret (values, lastRecord)
  | id :: rest =>
      let! got := Get (recordKey userID id) in
      match got with
      | Ok d =>
          match unmarshalRecord d with
          | Some record =>
              if String.eqb (HealthRecord.Type_ record) recordType
              then
                scanRecords userID recordType rest
                  (values ++ [HealthRecord.Value record])
                  (if After (HealthRecord.RecordedAt record) lastRecord
                   then HealthRecord.RecordedAt record else lastRecord)
              else scanRecords userID recordType rest values lastRecord
          | None => scanRecords userID recordType rest values lastRecord
          end
      | Err _ => scanRecords userID recordType rest values lastRecord
      end
  end.

Definition computeStats (userID recordType : string) (values : list float)
    (lastRecord : Time) : HealthStats.t :=
  HealthStats.mk userID recordType (calculateAverage values)
    (calculateMin values) (calculateMax values)
    (Z.of_nat (length values)) lastRecord.

Definition statsResponse (cache : string) (stats : HealthStats.t) : Response :=
  mkResponse StatusOK [jsonHeader; ("X-Cache", cache)] (JStats stats).

Definition getHealthStatsHandler (r : Request) : M Response :=
  if negb (String.eqb (Method r) "GET")
  then ret (httpError "Method not allowed" StatusMethodNotAllowed)
  else
    match ctxUser r with
    | None => ret (jsonError StatusUnauthorized "Unauthorized")
    | Some userID =>
        let recordType := Query r "type" in
        if String.eqb recordType ""
        then ret (jsonError StatusBadRequest "Missing 'type' parameter")
        else
          let key := statsKey userID recordType in
          let! cached := Get key in
          let hit :=
            match cached with
            | Ok d => unmarshalStats d
            | Err _ => None
            end in
          match hit with
          | Some stats => ret (statsResponse "HIT" stats)
          | None =>
              let! ranged := LRange (listKey userID) 0 (-1) in
              let recordIDs :=
                match ranged with Ok ids => ids | Err _ => [] end in
              let! scanned :=
                scanRecords userID recordType recordIDs [] zeroTime in
              let '(values, lastRecord) := scanned in
              match values with
              | _ :: _ =>
                  let stats :=
                    computeStats userID recordType values lastRecord in
                  do! Set_ key (marshalStats stats) (1 * Hour) in
                  ret (statsResponse "MISS" stats)
              | [] => ret (statsResponse "MISS" HealthStats.zero)
              end
          end
    end.

Definition deleteHealthRecordHandler (r : Request) : M Response :=
  if negb (String.eqb (Method r) "DELETE")
  then ret (httpError "Method not allowed" StatusMethodNotAllowed)
  else
    match ctxUser r with
    | None => ret (jsonError StatusUnauthorized "Unauthorized")
    | Some userID =>
        let recordID := Query r "id" in
        if String.eqb recordID ""
        then ret (jsonError StatusBadRequest "Missing 'id' parameter")
        else
          let! deleted := Del (recordKey userID recordID) in
          match deleted with
          | Err _ =>
              ret (jsonError StatusInternalServerError "Failed to delete record")
          | Ok _ =>
              do! LRem1 (listKey userID) recordID in
              ret (mkResponse StatusOK [jsonHeader]
                     (JMessage "Record deleted successfully"))
          end
    end.

End Health.

(** ** Session tokens (golang-jwt/v4, as the middleware and [generateJWT]
    use it) *)

Inductive SigningMethod :=
  | HS256
  | HS384
  | HS512
  | OtherMethod (alg : string).

Module RegisteredClaims.
Record t := mk {
  Issuer : string;
  Subject : string;
  Audience : list string;
  ExpiresAt : option Time;
  NotBefore : option Time;
  IssuedAt : option Time;
  ID : string
}.
End RegisteredClaims.

(** A token as [ParseUnverified] leaves it: the method named by the header,
    the decoded claims, the first two segments as they were received, and
    the third segment. *)
Record Token := mkToken {
  TokenMethod : SigningMethod;
  Claims : RegisteredClaims.t;
  SigningInput : string;
  Signature : string
}.

(** [strings.HasPrefix] and [strings.TrimPrefix]. *)
Fixpoint stripPrefix (p s : string) : option string :=
  match p with
  | "" => Some s
  | String a p' =>
      match s with
      | String b s' => if Ascii.eqb a b then stripPrefix p' s' else None
      | "" => None
      end
  end.

Definition HasPrefix (s p : string) : bool :=
  match stripPrefix p s with Some _ => true | None => false end.
Definition TrimPrefix (s p : string) : string :=
  match stripPrefix p s with Some rest => rest | None => s end.

Inductive Passed :=
  | Next (user : string)
  | Reject (resp : Response).

Section Auth.

(** The process-wide secret, [GetJWTSecret()]. *)
Variable JWTSecret : string.

(** The library's wire format and MAC: [Token.SigningString] (the encoded
    header and claims joined by a dot), the HMAC of a method under a key,
    base64url of a segment both ways, and the splitting and decoding of a
    received token string. *)
Variable signingString : SigningMethod -> RegisteredClaims.t -> string.
Variable hmac : SigningMethod -> string -> string -> string.
Variable EncodeSegment : string -> string.
Variable DecodeSegment : string -> option string.
Variable ParseUnverified : string -> option Token.

(** The [email] tag of the validator and the rune count behind its [min]
    on strings; [bcrypt] through password.go ([HashPassword] may fail). *)
Variable isEmail : string -> bool.
Variable RuneCountInString : string -> Z.
Variable HashPassword : string -> option string.
Variable VerifyPassword : string -> string -> bool.

(** [token.SignedString(key)] for an HMAC method. *)
Definition SignedString (method : SigningMethod) (claims : RegisteredClaims.t)
    (key : string) : option string :=
  let sstr := signingString method claims in
  let sig := EncodeSegment (hmac method key sstr) in
  Some (sstr +:+ "." +:+ sig).

Definition generateJWT (now : Time) (userID : string) : option string :=
  let claims :=
    RegisteredClaims.mk "" userID [] (Some (now + 1 * Hour)) None None "" in
  SignedString HS256 claims JWTSecret.

(** [RegisteredClaims.Valid()]: a claim that is absent passes. *)
Definition claimsValid (now : Time) (c : RegisteredClaims.t) : bool :=
  match RegisteredClaims.ExpiresAt c with
  | Some exp => Before now exp
  | None => true
  end
  && match RegisteredClaims.IssuedAt c with
     | Some iat => After now iat || (now =? iat)
     | None => true
     end
  && match RegisteredClaims.NotBefore c with
     | Some nbf => After now nbf || (now =? nbf)
     | None => true
     end.

(** [SigningMethodHMAC.Verify]; a method of another family does not take
    a byte-slice key. *)
Definition methodVerify (method : SigningMethod) (sstr signature key : string)
    : bool :=
  match method with
  | OtherMethod _ => false
  | _ =>
      match DecodeSegment signature with
      | Some sig => String.eqb sig (hmac method key sstr)
      | None => false
      end
  end.

(** [jwt.ParseWithClaims] with the middleware's key function; [Some] is
    [err == nil && token.Valid]. *)
Definition ParseWithClaims (now : Time) (tokenStr : string)
    : option RegisteredClaims.t :=
  match ParseUnverified tokenStr with
  | None => None
  | Some token =>
      if claimsValid now (Claims token)
         && methodVerify (TokenMethod token) (SigningInput token)
              (Signature token) JWTSecret
      then Some (Claims token)
      else None
  end.

Definition jwtMiddleware (now : Time) (authHeader : string) : Passed :=
  if negb (HasPrefix authHeader "Bearer ")
  then Reject (httpError "Unauthorized" StatusUnauthorized)
  else
    let tokenStr := TrimPrefix authHeader "Bearer " in
    match ParseWithClaims now tokenStr with
    | None => Reject (httpError "Unauthorized" StatusUnauthorized)
    | Some claims => Next (RegisteredClaims.Subject claims)
    end.

(** *** Login and registration (auth handlers) *)

Definition validateLoginRequest (req : LoginRequest.t) : list FieldError :=
  checkField "LoginRequest.Email" "Email"
    [("required", requiredString (LoginRequest.Email req));
     ("email", isEmail (LoginRequest.Email req))]
  ++ checkField "LoginRequest.Password" "Password"
    [("required", requiredString (LoginRequest.Password req))].

Definition validateRegisterRequest (req : RegisterRequest.t)
  : list FieldError :=
  checkField "RegisterRequest.Email" "Email"
    [("required", requiredString (RegisterRequest.Email req));
     ("email", isEmail (RegisterRequest.Email req))]
  ++ checkField "RegisterRequest.Password" "Password"
    [("required", requiredString (RegisterRequest.Password req));
     ("min", 8 <=? RuneCountInString (RegisterRequest.Password req))]
  ++ checkField "RegisterRequest.FullName" "FullName"
    [("required", requiredString (RegisterRequest.FullName req));
     ("min", 3 <=? RuneCountInString (RegisterRequest.FullName req))].

Definition publicUser (user : User.t) : User.t :=
  User.mk (User.ID user) (User.Email user) "" (User.FullName user)
    (User.Active user) zeroTime zeroTime.

Definition loginHandler (now : Time) (r : Request)
    (body : option LoginRequest.t) : M Response :=
  if negb (String.eqb (Method r) "POST")
  then ret (httpError "Method not allowed" StatusMethodNotAllowed)
  else if MaxRequestBodySize <? ContentLength r
  then ret (httpError "Request body too large" StatusRequestEntityTooLarge)
  else
    match body with
    | None => ret (jsonError StatusBadRequest "Invalid request body")
    | Some req =>
      match validateLoginRequest req with
      | (_ :: _) as errs =>
          ret (jsonError StatusBadRequest (validationErrorsText errs))
      | [] =>
        let! found := Get (userKey (LoginRequest.Email req)) in
        match found with
        | Err _ =>
            ret (jsonError StatusUnauthorized "Invalid email or password")
        | Ok userJSON =>
          match unmarshalUser userJSON with
          | None =>
              ret (jsonError StatusInternalServerError "Failed to process login")
          | Some user =>
            if negb (VerifyPassword (User.Password user)
                       (LoginRequest.Password req))
            then ret (jsonError StatusUnauthorized "Invalid email or password")
            else if negb (User.Active user)
            then ret (jsonError StatusForbidden "User account is inactive")
            else
              match generateJWT now (User.ID user) with
              | None =>
                  ret (jsonError StatusInternalServerError
                         "Failed to generate token")
              | Some token =>
                  ret (mkResponse StatusOK [jsonHeader]
                         (JAuth (AuthResponse.mk token 3600 (publicUser user))))
              end
          end
        end
      end
    end.

(** The clock is read for [CreatedAt], for [UpdatedAt] and, in
    [generateJWT], for the expiry. *)
Definition registerHandler (env : Env) (tokenNow : Time) (r : Request)
    (body : option RegisterRequest.t) : M Response :=
  if negb (String.eqb (Method r) "POST")
  then ret (httpError "Method not allowed" StatusMethodNotAllowed)
  else if MaxRequestBodySize <? ContentLength r
  then ret (httpError "Request body too large" StatusRequestEntityTooLarge)
  else
    match body with
    | None => ret (jsonError StatusBadRequest "Invalid request body")
    | Some req =>
      match validateRegisterRequest req with
      | (_ :: _) as errs =>
          ret (jsonError StatusBadRequest (validationErrorsText errs))
      | [] =>
        let key := userKey (RegisterRequest.Email req) in
        let! found := Get key in
        match found with
        | Ok _ => ret (jsonError StatusConflict "Email already registered")
        | Err _ =>
          match HashPassword (RegisterRequest.Password req) with
          | None =>
              ret (jsonError StatusInternalServerError
                     "Failed to process registration")
          | Some hashedPassword =>
            let user :=
              User.mk (uuid_New env) (RegisterRequest.Email req)
                hashedPassword (RegisterRequest.FullName req) true
                (time_Now env) (time_Now' env) in
            let! stored := Set_ key (marshalUser user) (24 * Hour) in
            match stored with
            | Err _ =>
                ret (jsonError StatusInternalServerError
                       "Failed to register user")
            | Ok _ =>
              match generateJWT tokenNow (User.ID user) with
              | None =>
                  ret (jsonError StatusInternalServerError
                         "Failed to generate token")
              | Some token =>
                  ret (mkResponse StatusCreated [jsonHeader]
                         (JAuth (AuthResponse.mk token 3600 (publicUser user))))
              end
            end
          end
        end
      end
    end.

End Auth.

(** ** What the store holds for a user, read without commands *)

Definition docAt (d : gmap string entry) (key : string) : option doc :=
  match d !! key with
  | Some (Entry (RString v) _) => Some v
  | _ => None
  end.

(** The stats object a cache lookup would decode. *)
Definition cachedStats (d : gmap string entry) (userID type : string)
  : option HealthStats.t :=
  match docAt d (statsKey userID type) with
  | Some v => unmarshalStats v
  | None => None
  end.

Definition recordAt (d : gmap string entry) (userID id : string)
  : option HealthRecord.t :=
  match docAt d (recordKey userID id) with
  | Some v => unmarshalRecord v
  | None => None
  end.

(** The index of a user, newest first. *)
Definition indexOf (d : gmap string entry) (userID : string) : list string :=
  match d !! listKey userID with
  | Some (Entry (RList l) _) => l
  | _ => []
  end.

Definition hasType (type : string) (r : HealthRecord.t) : bool :=
  String.eqb (HealthRecord.Type_ r) type.

(** The records of a type behind a list of identifiers, in the order of the
    identifiers. *)
Definition recordsOf (d : gmap string entry) (userID type : string)
    (ids : list string) : list HealthRecord.t :=
  List.filter (hasType type) (omap (recordAt d userID) ids).

Definition matchingRecords (d : gmap string entry) (userID type : string)
  : list HealthRecord.t :=
  recordsOf d userID type (indexOf d userID).

Definition later (last : Time) (r : HealthRecord.t) : Time :=
  if After (HealthRecord.RecordedAt r) last
  then HealthRecord.RecordedAt r else last.

Definition latest (rs : list HealthRecord.t) : Time :=
  fold_left later rs zeroTime.

(** The stats object the handler builds from the matching records. *)
Definition statsOf (userID type : string) (rs : list HealthRecord.t)
  : HealthStats.t :=
  computeStats userID type (map HealthRecord.Value rs) (latest rs).

Definition cacheEntry (stats : HealthStats.t) : entry :=
  Entry (RString (marshalStats stats)) (Some (1 * Hour)).

(** What the stats handler answers when it computes over the data [d] with
    the store answering, and the store it leaves. *)
Definition recomputed (d : gmap string entry) (userID type : string)
  : Response * Redis :=
  match matchingRecords d userID type with
  | [] => (statsResponse "MISS" HealthStats.zero, mkRedis d [])
  | rs =>
      (statsResponse "MISS" (statsOf userID type rs),
       mkRedis (<[statsKey userID type := cacheEntry (statsOf userID type rs)]> d)
               [])
  end.

(** The number of records in a list response. *)
Definition recordCount (resp : Response) : nat :=
  match Payload resp with
  | JRecords rs => length rs
  | _ => 0%nat
  end.

(** The input the create handler validates, and the record it builds from a
    request that passed. *)
Definition inputOf (req : HealthRecordRequest.t) : HealthRecordInput.t :=
  HealthRecordInput.mk (HealthRecordRequest.Type_ req)
    (HealthRecordRequest.Value req) (HealthRecordRequest.Unit req).

Definition newRecord (time_Parse_RFC3339 : string -> option Time) (env : Env)
    (userID : string) (req : HealthRecordRequest.t) : HealthRecord.t :=
  HealthRecord.mk (uuid_New env) userID
    (HealthRecordRequest.Type_ req) (HealthRecordRequest.Value req)
    (HealthRecordRequest.Unit req) (HealthRecordRequest.Notes req)
    (if String.eqb (HealthRecordRequest.RecordedAt req) ""
     then time_Now env
     else
       match time_Parse_RFC3339 (HealthRecordRequest.RecordedAt req) with
       | Some t => t
       | None => time_Now env
       end)
    (time_Now' env).

(** The data after a create that went through, on a store that answers and
    whose index key holds no document. *)
Definition afterCreate (d : gmap string entry) (userID : string)
    (record : HealthRecord.t) : gmap string entry :=
  delete (statsKey userID (HealthRecord.Type_ record))
    (<[listKey userID :=
         Entry (RList (HealthRecord.ID record :: indexOf d userID))
               (Some recordTTL)]>
       (<[recordKey userID (HealthRecord.ID record) :=
            Entry (RString (marshalRecord record)) (Some recordTTL)]> d)).

(** The text of the validation error of the [Value] field on a tag. *)
Definition valueError (tag : string) : string :=
  fieldErrorText (mkFieldError "HealthRecordInput.Value" "Value" tag).

(** The one answer of the login handler to credentials it does not
    accept. *)
Definition invalidCredentials : Response :=
  jsonError StatusUnauthorized "Invalid email or password".

(** ** Identifiers

    [uuid.New().String()]: 36 characters, lower-case hexadecimal digits in
    groups of 8, 4, 4, 4 and 12 joined by dashes. *)

Definition isHex (c : ascii) : bool :=
  let n := byte_of c in
  ((48 <=? n)%nat && (n <=? 57)%nat) || ((97 <=? n)%nat && (n <=? 102)%nat).

Fixpoint matchesShape (shape s : string) : bool :=
  match shape, s with
  | "", "" => true
  | String p shape', String c s' =>
      (if Ascii.eqb p "-" then Ascii.eqb c "-" else isHex c)
      && matchesShape shape' s'
  | _, _ => false
  end.

Definition is_uuid (s : string) : bool :=
  matchesShape "xxxxxxxx-xxxx-xxxx-xxxx-xxxxxxxxxxxx" s.

(** ** The shape of a store the handlers have written

    Identities come from the session token; the ones the registration
    issues are UUIDs, and what is asked of them here is only that they hold
    no colon, the separator of the key segments. *)

Fixpoint noColon (s : string) : bool :=
  match s with
  | "" => true
  | String c s' => negb (Ascii.eqb c ":") && noColon s'
  end.

Definition validType (type : string) : bool := oneof healthTypes type.

(** Every key under ["health:"] is the owner, a colon, and a rest. *)
Definition healthKey (userID rest : string) : string :=
  "health:" +:+ userID +:+ ":" +:+ rest.

(** A record sits under its own key, with a generated identifier and a type
    that passed validation; a stats object sits under the key of its user
    and type; a user sits under the key of its email; a list is the index
    of some user and holds generated identifiers. *)
Definition entry_ok (key : string) (e : entry) : Prop :=
  match val e with
  | RString (DRecord r) =>
      key = recordKey (HealthRecord.UserID r) (HealthRecord.ID r)
      /\ noColon (HealthRecord.UserID r) = true
      /\ is_uuid (HealthRecord.ID r) = true
      /\ validType (HealthRecord.Type_ r) = true
  | RString (DStats s) =>
      key = statsKey (HealthStats.UserID s) (HealthStats.Type_ s)
      /\ noColon (HealthStats.UserID s) = true
      /\ validType (HealthStats.Type_ s) = true
  | RString (DUser u) => key = userKey (User.Email u)
  | RString (DRaw _) => False
  | RList ids =>
      (exists u, key = listKey u /\ noColon u = true)
      /\ Forall (fun id => is_uuid id = true) ids
  end.

Definition store_wf (d : gmap string entry) : Prop := map_Forall entry_ok d.

(** ** Concrete inputs *)

Definition statsRequest (userID type : string) : Request :=
  mkRequest "GET" 0 (Some userID)
    (fun k => if String.eqb k "type" then type else "").

Definition listRequest (userID limit : string) : Request :=
  mkRequest "GET" 0 (Some userID)
    (fun k => if String.eqb k "limit" then limit else "").

Definition deleteRequest (userID id : string) : Request :=
  mkRequest "DELETE" 0 (Some userID)
    (fun k => if String.eqb k "id" then id else "").

Definition postRequest (userID : string) : Request :=
  mkRequest "POST" 64 (Some userID) (fun _ => "").

Definition loginPost : Request := mkRequest "POST" 64 None (fun _ => "").

Definition heartRate (v : float) : HealthRecordRequest.t :=
  HealthRecordRequest.mk "heart_rate" v "bpm" "" "".

Definition decimalDigit (n : nat) : ascii := ascii_of_nat (48 + n mod 10).

(** A well-formed identifier for each number below 1000. *)
Definition uuidOfNat (n : nat) : string :=
  "00000000-0000-4000-8000-000000000"
  +:+ String (decimalDigit (n / 100))
        (String (decimalDigit (n / 10)) (String (decimalDigit n) "")).

(** A stand-in for [time.Parse] that knows one timestamp. *)
Definition exampleParse (s : string) : option Time :=
  if String.eqb s "2025-10-23T10:00:00Z" then Some 1761213600 else None.

Definition emptyStore : Redis := mkRedis ∅ [].

(** The store after user ["alice"] has posted [n] heart-rate records of
    value [v], with identifiers [uuidOfNat 0 .. uuidOfNat (n-1)]. *)
Fixpoint postMany (n : nat) (v : float) (st : Redis) : Redis :=
  match n with
  | O => st
  | S n' =>
      let st' := postMany n' v st in
      snd (createHealthRecordHandler exampleParse
             (mkEnv (uuidOfNat n') (1761213600 + Z.of_nat n')
                    (1761213600 + Z.of_nat n'))
             (postRequest "alice") (Some (heartRate v)) st')
  end.

(** The store after ["alice"] has posted heart rates 60, 72 and 85.5. *)
Definition threeHeartRates : Redis :=
  let post n v st :=
    snd (createHealthRecordHandler exampleParse
           (mkEnv (uuidOfNat n) (1761213600 + Z.of_nat n)
                  (1761213601 + Z.of_nat n))
           (postRequest "alice") (Some (heartRate v)) st) in
  post 2%nat 85.5%float (post 1%nat 72%float (post 0%nat 60%float emptyStore)).

(** The same store after the heart-rate stats were read once, and so
    cached. *)
Definition cachedHeartRates : Redis :=
  snd (getHealthStatsHandler (statsRequest "alice" "heart_rate") threeHeartRates).

(** What a fourth create draws: identifier and clock. *)
Definition fourthEnv : Env := mkEnv (uuidOfNat 3) 1761213700 1761213701.

(** The error text of a store that cannot be reached, and the three heart
    rates behind a store whose next command fails with it. *)
Definition connectionRefused : string :=
  "dial tcp 127.0.0.1:6379: connect: connection refused".

Definition unreachableStore : Redis :=
  mkRedis (data threeHeartRates) [Some connectionRefused].

(** The store after ["alice"] posted a fourth heart rate of 100, read the
    heart-rate stats, and deleted the fourth record again; and the three
    heart rates behind a store that fails on two commands in a row. *)
Definition fourHeartRates : Redis :=
  snd (createHealthRecordHandler exampleParse fourthEnv (postRequest "alice")
         (Some (heartRate 100)) threeHeartRates).

Definition fourCached : Redis :=
  snd (getHealthStatsHandler (statsRequest "alice" "heart_rate")
         fourHeartRates).

Definition threeAfterDelete : Redis :=
  snd (deleteHealthRecordHandler (deleteRequest "alice" (uuidOfNat 3))
         fourCached).

Definition stillUnreachable : Redis :=
  mkRedis (data threeHeartRates)
    [Some connectionRefused; Some connectionRefused].

(** *** A toy instance of the libraries, for concrete runs

    The signing string spells the subject and the expiry out, the MAC is
    the key in front of the message, a segment is its own encoding, and the
    parser knows the one token that is issued below. *)

Definition toySigningString (method : SigningMethod)
    (c : RegisteredClaims.t) : string :=
  "hs256." +:+ RegisteredClaims.Subject c +:+ "@"
  +:+ match RegisteredClaims.ExpiresAt c with
      | Some exp => pretty exp
      | None => ""
      end.

Definition toyHmac (method : SigningMethod) (key msg : string) : string :=
  key +:+ "/" +:+ msg.

Definition toyEncode (s : string) : string := s.
Definition toyDecode (s : string) : option string := Some s.

(** The token of ["alice"], issued at second 1000 under the secret
    ["secret"]. *)
Definition aliceClaims : RegisteredClaims.t :=
  RegisteredClaims.mk "" "alice" [] (Some 4600) None None "".

Definition aliceToken : string := "hs256.alice@4600.secret/hs256.alice@4600".

Definition toyParse (s : string) : option Token :=
  if String.eqb s aliceToken
  then Some (mkToken HS256 aliceClaims "hs256.alice@4600"
               "secret/hs256.alice@4600")
  else None.

(** Stand-ins for the [email] tag, the rune count and bcrypt. *)
Definition toyIsEmail (s : string) : bool :=
  existsb (Ascii.eqb "@") (list_ascii_of_string s).

Definition toyRuneCount (s : string) : Z := Z.of_nat (String.length s).

Definition toyHashPassword (password : string) : option string :=
  Some ("bcrypt:" +:+ password).

Definition toyVerifyPassword (hash password : string) : bool :=
  String.eqb hash ("bcrypt:" +:+ password).

(** The store after ["alice@example.com"] has registered. *)
Definition registeredStore : Redis :=
  snd (registerHandler "secret" toySigningString toyHmac toyEncode toyIsEmail
         toyRuneCount toyHashPassword
         (mkEnv (uuidOfNat 7) 1761213600 1761213600) 1761213600 loginPost
         (Some (RegisterRequest.mk "alice@example.com" "correct horse" "Alice"))
         emptyStore).

(** ** CSRF tokens (security.go)

    The token store is the process-wide map from a token to the instant it
    expires; both functions take it and hand it back. *)

Definition Minute : Z := 60.

(** [securityConfig.CSRFTokenExpiry] *)
Definition CSRFTokenExpiry : Z := 15 * Minute.

Section CSRF.

(** [base64.StdEncoding.EncodeToString] *)
Variable EncodeToString : string -> string.

(** [random] is what [rand.Read] filled the 32 bytes with, [None] its
    error; the result [None] is the error return. *)
Definition GenerateCSRFToken (random : option string) (now : Time)
    (csrfTokenStore : gmap string Time) : option string * gmap string Time :=
  match random with
  | None => (None, csrfTokenStore)
  | Some bytes =>
      let token := EncodeToString bytes in
      let expiresAt := now + CSRFTokenExpiry in
      (Some token, <[token := expiresAt]> csrfTokenStore)
  end.

End CSRF.

Definition ValidateCSRFToken (token : string) (now : Time)
    (csrfTokenStore : gmap string Time) : bool * gmap string Time :=
  match csrfTokenStore !! token with
  | Some expiry =>
      if Before now expiry
      then (true, delete token csrfTokenStore)
      else (false, delete token csrfTokenStore)
  | None => (false, csrfTokenStore)
  end.

(** ** The legacy login (handlers.go)

    The handlers of handlers.go answer with [http.Error] or with the
    encoding of a [map[string]string], whose keys the encoder sorts. *)

Inductive Document :=
  | PlainText (s : string)
  | JObject (fields : list (string * string)).

Record Reply := mkReply {
  ReplyStatus : Z;
  ReplyHeader : list (string * string);
  ReplyBody : Document
}.

(** [http.Error(w, msg, code)] *)
Definition replyError (msg : string) (code : Z) : Reply :=
  mkReply code
    [("Content-Type", "text/plain; charset=utf-8");
     ("X-Content-Type-Options", "nosniff")]
    (PlainText msg).

Definition quote : string := String (ascii_of_nat 34) "".

(** The text [invalid body (expect {"user":"..."})]. *)
Definition invalidBody : string :=
  "invalid body (expect {" +:+ quote +:+ "user" +:+ quote +:+ ":" +:+ quote
  +:+ "..." +:+ quote +:+ "})".

Section Legacy.

Variable JWTSecret : string.
Variable signingString : SigningMethod -> RegisteredClaims.t -> string.
Variable hmac : SigningMethod -> string -> string -> string.
Variable EncodeSegment : string -> string.

(** [body] is the [user] field of the decoded payload, [None] when the
    body does not decode; a payload without the field decodes to the empty
    string.  The status of the answer that is only encoded is the 200 the
    first write implies. *)
Definition legacyLoginHandler (now : Time) (body : option string) : Reply :=
  match body with
  | None => replyError invalidBody StatusBadRequest
  | Some user =>
      if String.eqb user ""
      then replyError invalidBody StatusBadRequest
      else
        match generateJWT JWTSecret signingString hmac EncodeSegment now user
        with
        | None => replyError "failed create token" StatusInternalServerError
        | Some token => mkReply StatusOK [] (JObject [("token", token)])
        end
  end.

End Legacy.

(** ** More concrete inputs *)

(** The three heart rates behind a store whose second command fails, and
    behind one whose fourth command fails. *)
Definition secondCommandFails : Redis :=
  mkRedis (data threeHeartRates) [None; Some connectionRefused].

Definition fourthCommandFails : Redis :=
  mkRedis (data cachedHeartRates) [None; None; None; Some connectionRefused].

(** A parser that knows the token the registration of [registeredStore]
    issued. *)
Definition registeredClaims : RegisteredClaims.t :=
  RegisteredClaims.mk "" (uuidOfNat 7) [] (Some (1761213600 + 1 * Hour))
    None None "".

Definition registeredSigningString : string :=
  toySigningString HS256 registeredClaims.

Definition registeredToken : string :=
  registeredSigningString +:+ "."
  +:+ toyEncode (toyHmac HS256 "secret" registeredSigningString).

Definition registeredParse (s : string) : option Token :=
  if String.eqb s registeredToken
  then Some (mkToken HS256 registeredClaims registeredSigningString
               (toyEncode (toyHmac HS256 "secret" registeredSigningString)))
  else None.

(** ** Isolation of users

    Two stores are the same for a user when they hold the same under every
    key of that user and will fail on the same commands; a computation
    keeps a key when it leaves what the key holds, and two computations run
    alike for a user when on stores that are the same for the user they
    give the same result and stores that are again the same. *)

Definition agreeFor (u : string) (d1 d2 : gmap string entry) : Prop :=
  forall x, d1 !! healthKey u x = d2 !! healthKey u x.

Definition sameFor (u : string) (st1 st2 : Redis) : Prop :=
  faults st1 = faults st2 /\ agreeFor u (data st1) (data st2).

Definition keeps {A} (k : string) (m : M A) : Prop :=
  forall st, data (snd (m st)) !! k = data st !! k.

Definition runAlike {A} (u : string) (m1 m2 : M A) : Prop :=
  forall st1 st2,
    sameFor u st1 st2 ->
    fst (m1 st1) = fst (m2 st2) /\ sameFor u (snd (m1 st1)) (snd (m2 st2)).

(** The three heart rates of ["alice"] beside an account. *)
Definition besideAnAccount : Redis :=
  mkRedis
    (<[userKey "bob@example.com" :=
         Entry (RString (marshalUser
                  (User.mk (uuidOfNat 8) "bob@example.com" "" "Bob" true
                     1761213600 1761213600)))
               (Some (24 * Hour))]> (data threeHeartRates))
    [].

Definition registerEnv : Env := mkEnv (uuidOfNat 7) 1761213600 1761213600.

Definition aliceRegistration : RegisterRequest.t :=
  RegisterRequest.mk "alice@example.com" "correct horse" "Alice".

(** ** A handler behind the middleware (the protected group of the router)

    [rg.Use(jwtMiddleware)]: the request reaches the handler only when the
    middleware lets it through, and then with the subject of the token in
    its context under ["user"]. *)

Definition withUser (user : string) (r : Request) : Request :=
  mkRequest (Method r) (ContentLength r) (Some user) (Query r).

Section Protected.

Variable JWTSecret : string.
Variable hmac : SigningMethod -> string -> string -> string.
Variable DecodeSegment : string -> option string.
Variable ParseUnverified : string -> option Token.

Definition protectedRoute (handler : Request -> M Response) (now : Time)
    (authHeader : string) (r : Request) : M Response :=
  match jwtMiddleware JWTSecret hmac DecodeSegment ParseUnverified now
          authHeader with
  | Reject resp => ret resp
  | Next user => handler (withUser user r)
  end.

End Protected.

(** * Properties *)

(** The size check of [ValidateRequestSize] on a request within the limit. *)
Ltac within_size :=
  match goal with
  | H : ContentLength ?r <= MaxRequestBodySize
    |- context [MaxRequestBodySize <? ContentLength ?r] =>
      let E := fresh "E" in
      destruct (MaxRequestBodySize <? ContentLength r) eqn:E;
      [apply Z.ltb_lt in E; lia|]
  end.

(** A type parameter that is there. *)
Ltac type_given type :=
  let E := fresh "E" in
  destruct (String.eqb_spec type "") as [E|E]; [contradiction|clear E].

(** ** Lemmas on the store commands *)

Lemma lrange_all (l : list string) : lrange l 0 (-1) = l.
Proof.
  unfold lrange. cbn [Z.ltb Z.compare].
  destruct l as [|x l]; [reflexivity|].
  set (n := Z.of_nat (length (x :: l))).
  assert (Hn : 0 < n) by (subst n; cbn [length]; lia).
  replace (Z.max 0 (n + 0)) with n by lia.
  cbn match.
  destruct (n + -1 <? 0) eqn:E1; [apply Z.ltb_lt in E1; lia|].
  destruct (n <=? 0) eqn:E2; [apply Z.leb_le in E2; lia|].
  cbn [orb].
  destruct (n <=? n + -1) eqn:E3; [apply Z.leb_le in E3; lia|].
  replace (Z.to_nat (n + -1 - 0 + 1)) with (length (x :: l)) by (subst n; lia).
  change (Z.to_nat 0) with 0%nat. rewrite drop_0. apply firstn_all.
Qed.

Lemma Get_reachable (d : gmap string entry) (key : string) :
  Get key (mkRedis d []) =
  (match d !! key with
   | None => Err RedisNil
   | Some (Entry (RString v) _) => Ok v
   | Some (Entry (RList _) _) => Err WrongType
   end, mkRedis d []).
Proof.
  unfold Get, command; cbn.
  destruct (d !! key) as [[[v|l] t]|]; reflexivity.
Qed.

Lemma LRange_all_reachable (d : gmap string entry) (userID : string) :
  exists r, LRange (listKey userID) 0 (-1) (mkRedis d []) = (r, mkRedis d [])
    /\ match r with Ok ids => ids | Err _ => [] end = indexOf d userID.
Proof.
  unfold LRange, command, indexOf; cbn.
  destruct (d !! listKey userID) as [[[v|l] t]|]; eexists; split;
    try reflexivity.
  cbn. apply lrange_all.
Qed.

(** ** The stats handler on a store that answers *)

Lemma recordsOf_cons (d : gmap string entry) (u T id : string)
    (ids : list string) :
  recordsOf d u T (id :: ids) =
  match recordAt d u id with
  | Some r =>
      if hasType T r then r :: recordsOf d u T ids else recordsOf d u T ids
  | None => recordsOf d u T ids
  end.
Proof.
  unfold recordsOf. simpl omap.
  destruct (recordAt d u id) as [r|]; [|reflexivity].
  simpl List.filter. reflexivity.
Qed.

(** The stats loop against a store that answers: it reads the records of
    the type in index order and leaves the store as it was. *)
Lemma scanRecords_reachable (d : gmap string entry) (u T : string) :
  forall (ids : list string) (values : list float) (last : Time),
    scanRecords u T ids values last (mkRedis d []) =
    (((values ++ map HealthRecord.Value (recordsOf d u T ids))%list,
      fold_left later (recordsOf d u T ids) last), mkRedis d []).
Proof.
  induction ids as [|id ids IH]; intros values last.
  - cbn. rewrite app_nil_r. reflexivity.
  - cbn [scanRecords]. unfold bind at 1. rewrite Get_reachable.
    rewrite recordsOf_cons. unfold recordAt, docAt.
    destruct (d !! recordKey u id) as [[[v|l] t]|]; try apply IH.
    destruct (unmarshalRecord v) as [r|]; try apply IH.
    unfold hasType.
    destruct (String.eqb (HealthRecord.Type_ r) T); try apply IH.
    rewrite IH. cbn [map fold_left]. rewrite <- app_assoc. reflexivity.
Qed.

(** The miss path of the stats handler against a store that answers. *)
Lemma stats_miss_reachable (r : Request) (d : gmap string entry)
    (u T : string) :
  Method r = "GET" -> ctxUser r = Some u -> Query r "type" = T ->
  T <> "" ->
  cachedStats d u T = None ->
  getHealthStatsHandler r (mkRedis d []) = recomputed d u T.
Proof.
  intros Hmethod Huser Htype HT Hmiss.
  unfold getHealthStatsHandler. rewrite Hmethod, Huser, Htype. cbn.
  type_given T.
  unfold bind at 1. rewrite Get_reachable.
  unfold cachedStats, docAt in Hmiss.
  assert (Hhit :
    match (match d !! statsKey u T with
           | None => Err RedisNil
           | Some (Entry (RString v) _) => Ok v
           | Some (Entry (RList _) _) => Err WrongType
           end) with
    | Ok v => unmarshalStats v
    | Err _ => None
    end = None).
  { destruct (d !! statsKey u T) as [[[v|l] t]|]; auto. }
  rewrite Hhit. clear Hhit.
  unfold bind at 1.
  destruct (LRange_all_reachable d u) as (ranged & -> & Hids).
  rewrite Hids. unfold bind at 1.
  rewrite scanRecords_reachable. cbn [app].
  fold (matchingRecords d u T). unfold recomputed.
  destruct (matchingRecords d u T) as [|r0 rs] eqn:Em.
  - reflexivity.
  - cbn [map]. unfold bind, Set_, command, ret. cbn.
    reflexivity.
Qed.

Lemma stats_hit_reachable (r : Request) (d : gmap string entry)
    (u T : string) (s : HealthStats.t) :
  Method r = "GET" -> ctxUser r = Some u -> Query r "type" = T ->
  T <> "" ->
  cachedStats d u T = Some s ->
  getHealthStatsHandler r (mkRedis d []) = (statsResponse "HIT" s, mkRedis d []).
Proof.
  intros Hmethod Huser Htype HT Hhit.
  unfold getHealthStatsHandler. rewrite Hmethod, Huser, Htype. cbn.
  type_given T.
  unfold bind at 1. rewrite Get_reachable.
  unfold cachedStats, docAt in Hhit.
  destruct (d !! statsKey u T) as [[[v|l] t]|]; try discriminate.
  rewrite Hhit. reflexivity.
Qed.

Lemma cachedStats_insert (d : gmap string entry) (u T : string)
    (s : HealthStats.t) :
  cachedStats (<[statsKey u T := cacheEntry s]> d) u T = Some s.
Proof. unfold cachedStats, docAt. rewrite lookup_insert_eq. reflexivity. Qed.

(** What the aggregates are made of. *)

Lemma fold_left_choice {A} (f : A -> A -> A) :
  (forall a v, f a v = a \/ f a v = v) ->
  forall (l : list A) (a : A), fold_left f l a = a \/ fold_left f l a ∈ l.
Proof.
  intros Hf. induction l as [|v l IH]; intros a; [left; reflexivity|].
  cbn [fold_left]. destruct (IH (f a v)) as [H|H].
  - rewrite H. destruct (Hf a v) as [E|E]; rewrite E;
      [left; reflexivity | right; left].
  - right. right. exact H.
Qed.

Lemma calculateMin_member (values : list float) :
  values <> [] -> calculateMin values ∈ values.
Proof.
  destruct values as [|v0 values]; [congruence|]. intros _.
  unfold calculateMin.
  destruct (fold_left_choice
              (fun min v => if PrimFloat.ltb v min then v else min)
              (fun a v => match PrimFloat.ltb v a as b
                                return ((if b then v else a) = a
                                        \/ (if b then v else a) = v)
                          with true => or_intror eq_refl
                             | false => or_introl eq_refl end)
              (v0 :: values) v0) as [H|H].
  - rewrite H. left.
  - exact H.
Qed.

Lemma calculateMax_member (values : list float) :
  values <> [] -> calculateMax values ∈ values.
Proof.
  destruct values as [|v0 values]; [congruence|]. intros _.
  unfold calculateMax.
  destruct (fold_left_choice
              (fun max v => if PrimFloat.ltb max v then v else max)
              (fun a v => match PrimFloat.ltb a v as b
                                return ((if b then v else a) = a
                                        \/ (if b then v else a) = v)
                          with true => or_intror eq_refl
                             | false => or_introl eq_refl end)
              (v0 :: values) v0) as [H|H].
  - rewrite H. left.
  - exact H.
Qed.

Lemma later_le (last : Time) (r : HealthRecord.t) :
  last <= later last r /\ HealthRecord.RecordedAt r <= later last r.
Proof.
  unfold later, After.
  destruct (last <? HealthRecord.RecordedAt r) eqn:E;
    [apply Z.ltb_lt in E | apply Z.ltb_ge in E]; lia.
Qed.

Lemma fold_later_bounds (rs : list HealthRecord.t) :
  forall last,
    last <= fold_left later rs last
    /\ Forall (fun r => HealthRecord.RecordedAt r <= fold_left later rs last)
         rs.
Proof.
  induction rs as [|r rs IH]; intros last; cbn [fold_left].
  - split; [lia | constructor].
  - destruct (IH (later last r)) as [Hle Hall].
    pose proof (later_le last r) as [H1 H2].
    split; [lia|]. constructor; [lia | exact Hall].
Qed.

Lemma fold_later_member (rs : list HealthRecord.t) :
  forall last,
    fold_left later rs last = last
    \/ fold_left later rs last ∈ map HealthRecord.RecordedAt rs.
Proof.
  induction rs as [|r rs IH]; intros last; cbn [fold_left];
    [left; reflexivity|].
  destruct (IH (later last r)) as [H|H].
  - rewrite H. unfold later.
    destruct (After (HealthRecord.RecordedAt r) last);
      [right; left | left; reflexivity].
  - right. right. exact H.
Qed.

(** C7: on a miss of the stats cache, against a store that answers, the
    handler returns the zero stats object (count 0) and leaves the store
    untouched, the cache still empty, when no record of the asked type is
    indexed; when some are, it returns their stats after having written
    them under the stats key with a time-to-live of one hour: the entry
    reads back as the stats that were returned, and the next request is
    answered from it. *)
Theorem stats_miss_caches_only_matches (r : Request) (st : Redis)
    (u T : string) :
  Method r = "GET" -> ctxUser r = Some u -> Query r "type" = T ->
  T <> "" ->
  faults st = [] ->
  cachedStats (data st) u T = None ->
  (matchingRecords (data st) u T = [] ->
     getHealthStatsHandler r st = (statsResponse "MISS" HealthStats.zero, st)
     /\ HealthStats.Count HealthStats.zero = 0
     /\ cachedStats (data (snd (getHealthStatsHandler r st))) u T = None)
  /\ (matchingRecords (data st) u T <> [] ->
      let stats := statsOf u T (matchingRecords (data st) u T) in
      let st' :=
        mkRedis (<[statsKey u T :=
                     Entry (RString (marshalStats stats)) (Some (1 * Hour))]>
                   (data st)) [] in
      getHealthStatsHandler r st = (statsResponse "MISS" stats, st')
      /\ HealthStats.Count stats
         = Z.of_nat (length (matchingRecords (data st) u T))
      /\ 0 < HealthStats.Count stats
      /\ cachedStats (data st') u T = Some stats
      /\ (exists e, data st' !! statsKey u T = Some e /\ ttl e = Some 3600)
      /\ (forall k, k <> statsKey u T -> data st' !! k = data st !! k)
      /\ getHealthStatsHandler r st' = (statsResponse "HIT" stats, st')).
Proof.
  destruct st as [d f].
  change (data (mkRedis d f)) with d. change (faults (mkRedis d f)) with f.
  intros Hmethod Huser Htype HT -> Hmiss.
  pose proof (stats_miss_reachable r d u T Hmethod Huser Htype HT Hmiss)
    as Hrun.
  unfold recomputed in Hrun. split.
  - intros E. rewrite E in Hrun. rewrite Hrun. cbn [snd data].
    repeat split. exact Hmiss.
  - intros Hne stats st'.
    assert (Hcached : cachedStats (data st') u T = Some stats)
      by apply cachedStats_insert.
    split.
    { rewrite Hrun. subst st' stats.
      destruct (matchingRecords d u T) as [|r0 rs]; [contradiction|].
      reflexivity. }
    destruct (matchingRecords d u T) as [|r0 rs] eqn:Em; [contradiction|].
    split; [unfold stats, statsOf, computeStats; cbn [HealthStats.Count];
            rewrite length_map; reflexivity|].
    split; [unfold stats, statsOf, computeStats; cbn [HealthStats.Count];
            rewrite length_map; cbn [length]; lia|].
    split; [exact Hcached|].
    split; [eexists; split; [apply lookup_insert_eq | reflexivity]|].
    split; [intros k Hk; apply lookup_insert_ne; congruence|].
    apply (stats_hit_reachable r _ u T); assumption.
Qed.

Lemma stats_miss_caches_only_matches_witness :
  let stats :=
    statsOf "alice" "heart_rate"
      (matchingRecords (data threeHeartRates) "alice" "heart_rate") in
  let st' :=
    mkRedis (<[statsKey "alice" "heart_rate" :=
                 Entry (RString (marshalStats stats)) (Some (1 * Hour))]>
               (data threeHeartRates)) [] in
  (getHealthStatsHandler (statsRequest "alice" "heart_rate") threeHeartRates
   = (statsResponse "MISS" stats, st')
   /\ HealthStats.Count stats
      = Z.of_nat (length (matchingRecords (data threeHeartRates) "alice"
                            "heart_rate"))
   /\ 0 < HealthStats.Count stats
   /\ cachedStats (data st') "alice" "heart_rate" = Some stats
   /\ (exists e, data st' !! statsKey "alice" "heart_rate" = Some e
                 /\ ttl e = Some 3600)
   /\ (forall k, k <> statsKey "alice" "heart_rate" ->
                 data st' !! k = data threeHeartRates !! k)
   /\ getHealthStatsHandler (statsRequest "alice" "heart_rate") st'
      = (statsResponse "HIT" stats, st'))
  /\ (getHealthStatsHandler (statsRequest "alice" "weight") threeHeartRates
      = (statsResponse "MISS" HealthStats.zero, threeHeartRates)
      /\ HealthStats.Count HealthStats.zero = 0
      /\ cachedStats
           (data (snd (getHealthStatsHandler (statsRequest "alice" "weight")
                         threeHeartRates))) "alice" "weight" = None).
Proof.
  split.
  - apply (stats_miss_caches_only_matches (statsRequest "alice" "heart_rate")
             threeHeartRates "alice" "heart_rate");
      try reflexivity; [discriminate | vm_compute; discriminate].
  - apply (stats_miss_caches_only_matches (statsRequest "alice" "weight")
             threeHeartRates "alice" "weight");
      try reflexivity; discriminate.
Defined.

(** The six orders of three values. *)
Lemma three_values_orders (a b c : float) (vs : list float) :
  vs ≡ₚ [a; b; c] ->
  vs = [a; b; c] \/ vs = [a; c; b] \/ vs = [b; a; c]
  \/ vs = [b; c; a] \/ vs = [c; a; b] \/ vs = [c; b; a].
Proof.
  intros Hp. symmetry in Hp. apply permutations_Permutation in Hp.
  cbn in Hp.
  repeat (apply elem_of_cons in Hp as [-> | Hp]; [tauto|]).
  inversion Hp.
Qed.

(** With nothing cached for the type: when the heart-rate records a user
    has indexed carry the values 60, 72 and 85.5, in whatever order, the
    first read of the stats (a miss) returns count 3, minimum 60, maximum
    85.5 and average (60+72+85.5)/3, and the next read, served from the
    cache, returns the same object. *)
Lemma stats_of_three_heart_rates (r : Request) (st : Redis) (u : string) :
  Method r = "GET" -> ctxUser r = Some u -> Query r "type" = "heart_rate" ->
  faults st = [] ->
  cachedStats (data st) u "heart_rate" = None ->
  map HealthRecord.Value (matchingRecords (data st) u "heart_rate")
    ≡ₚ [60; 72; 85.5]%float ->
  exists (stats : HealthStats.t) (st1 : Redis),
    getHealthStatsHandler r st = (statsResponse "MISS" stats, st1)
    /\ HealthStats.Count stats = 3
    /\ HealthStats.Min stats = 60%float
    /\ HealthStats.Max stats = 85.5%float
    /\ HealthStats.Average stats = ((60 + 72 + 85.5) / 3)%float
    /\ getHealthStatsHandler r st1 = (statsResponse "HIT" stats, st1).
Proof.
  destruct st as [d f]. cbn [data faults].
  intros Hmethod Huser Htype -> Hmiss Hvalues.
  assert (HT : "heart_rate" <> "") by discriminate.
  rewrite (stats_miss_reachable r d u "heart_rate") by assumption.
  unfold recomputed.
  destruct (matchingRecords d u "heart_rate") as [|r0 rs] eqn:Em.
  { apply Permutation_nil_l in Hvalues. discriminate. }
  rewrite <- Em in *. clear Em r0 rs.
  set (rs := matchingRecords d u "heart_rate") in *.
  eexists; eexists; split; [reflexivity|].
  unfold statsOf, computeStats; cbn [HealthStats.Count HealthStats.Min
    HealthStats.Max HealthStats.Average].
  assert (Hlen : Z.of_nat (length (map HealthRecord.Value rs)) = 3).
  { rewrite (Permutation_length Hvalues). reflexivity. }
  apply three_values_orders in Hvalues.
  repeat split.
  - exact Hlen.
  - destruct Hvalues as [-> | [-> | [-> | [-> | [-> | ->]]]]]; reflexivity.
  - destruct Hvalues as [-> | [-> | [-> | [-> | [-> | ->]]]]]; reflexivity.
  - destruct Hvalues as [-> | [-> | [-> | [-> | [-> | ->]]]]];
      vm_compute; reflexivity.
  - apply (stats_hit_reachable r _ u "heart_rate"); try assumption.
    apply cachedStats_insert.
Qed.

Lemma stats_of_three_heart_rates_witness :
  exists (stats : HealthStats.t) (st1 : Redis),
    getHealthStatsHandler (statsRequest "alice" "heart_rate") threeHeartRates
    = (statsResponse "MISS" stats, st1)
    /\ HealthStats.Count stats = 3
    /\ HealthStats.Min stats = 60%float
    /\ HealthStats.Max stats = 85.5%float
    /\ HealthStats.Average stats = ((60 + 72 + 85.5) / 3)%float
    /\ getHealthStatsHandler (statsRequest "alice" "heart_rate") st1
       = (statsResponse "HIT" stats, st1).
Proof.
  apply (stats_of_three_heart_rates (statsRequest "alice" "heart_rate")
           threeHeartRates "alice"); try reflexivity.
  vm_compute map. symmetry.
  exact (Permutation_rev [60; 72; 85.5]%float).
Defined.

(** C1: the stats of a user whose records are three heart rates of 60, 72
    and 85.5 and nothing else are not always those of the three.  After a
    fourth heart rate of 100 was posted, the stats read and the fourth
    record deleted, on a store that answered every command, the records of
    the user are the three, and the stats handler answers from the cache
    the delete never drops: count 4, minimum 60, maximum 100, average
    79.375. *)
Theorem stats_of_three_heart_rates_are_stale_after_a_delete :
  faults threeAfterDelete = []
  /\ map (fun rec => (HealthRecord.Type_ rec, HealthRecord.Value rec))
       (omap (recordAt (data threeAfterDelete) "alice")
          (indexOf (data threeAfterDelete) "alice"))
     = [("heart_rate", 85.5%float); ("heart_rate", 72%float);
        ("heart_rate", 60%float)]
  /\ map HealthRecord.Value
       (matchingRecords (data threeAfterDelete) "alice" "heart_rate")
     ≡ₚ [60; 72; 85.5]%float
  /\ exists stats,
       getHealthStatsHandler (statsRequest "alice" "heart_rate")
         threeAfterDelete
       = (statsResponse "HIT" stats, threeAfterDelete)
       /\ HealthStats.Count stats = 4
       /\ HealthStats.Min stats = 60%float
       /\ HealthStats.Max stats = 100%float
       /\ HealthStats.Average stats = 79.375%float.
Proof.
  split; [reflexivity|]. split; [vm_compute; reflexivity|].
  split.
  { vm_compute map. symmetry. exact (Permutation_rev [60; 72; 85.5]%float). }
  eexists. split; [vm_compute; reflexivity|].
  repeat split.
Qed.

(** ** Validation of the value *)

Lemma valueError_text :
  valueError "required" =
  "Key: 'HealthRecordInput.Value' Error:Field validation for 'Value' failed on the 'required' tag".
Proof. reflexivity. Qed.

Section CreateValidation.

Variable time_Parse_RFC3339 : string -> option Time.

(** A request whose type and unit are fine is refused on its value alone
    when the value fails a tag. *)
Lemma create_value_refused (env : Env) (r : Request)
    (req : HealthRecordRequest.t) (st : Redis) (u tag : string) :
  Method r = "POST" -> ContentLength r <= MaxRequestBodySize ->
  ctxUser r = Some u ->
  oneof healthTypes (HealthRecordRequest.Type_ req) = true ->
  HealthRecordRequest.Unit req <> "" ->
  firstFailing
    [("required", requiredFloat (HealthRecordRequest.Value req));
     ("min", minFloat 0 (HealthRecordRequest.Value req));
     ("max", maxFloat 500 (HealthRecordRequest.Value req))] = Some tag ->
  createHealthRecordHandler time_Parse_RFC3339 env r (Some req) st =
  (jsonError StatusBadRequest (valueError tag), st).
Proof.
  intros Hmethod Hsize Huser Htype Hunit Htag.
  unfold createHealthRecordHandler. rewrite Hmethod, Huser. cbn.
  within_size.
  unfold validateHealthRecordInput, checkField.
  cbn [HealthRecordInput.Type_ HealthRecordInput.Value HealthRecordInput.Unit].
  rewrite Htag.
  assert (Hreq : requiredString (HealthRecordRequest.Type_ req) = true).
  { unfold requiredString.
    destruct (String.eqb_spec (HealthRecordRequest.Type_ req) "") as [E0|];
      [|reflexivity].
    rewrite E0 in Htype. discriminate. }
  assert (Hu : requiredString (HealthRecordRequest.Unit req) = true).
  { unfold requiredString.
    destruct (String.eqb_spec (HealthRecordRequest.Unit req) "");
      [contradiction|reflexivity]. }
  cbn [firstFailing]. rewrite Hreq, Htype, Hu. reflexivity.
Qed.

(** The value 0 is the zero value of its type: [required] refuses it
    before [min=0] is looked at. *)
Lemma create_zero_refused (env : Env) (r : Request)
    (req : HealthRecordRequest.t) (st : Redis) (u : string) :
  Method r = "POST" -> ContentLength r <= MaxRequestBodySize ->
  ctxUser r = Some u ->
  oneof healthTypes (HealthRecordRequest.Type_ req) = true ->
  HealthRecordRequest.Unit req <> "" ->
  HealthRecordRequest.Value req = 0%float ->
  createHealthRecordHandler time_Parse_RFC3339 env r (Some req) st =
  (jsonError StatusBadRequest (valueError "required"), st).
Proof.
  intros Hmethod Hsize Huser Htype Hunit Hv.
  apply create_value_refused with (u := u); try assumption.
  rewrite Hv. reflexivity.
Qed.

(** The value -1 passes [required] and fails [min=0]. *)
Lemma create_minus_one_refused (env : Env) (r : Request)
    (req : HealthRecordRequest.t) (st : Redis) (u : string) :
  Method r = "POST" -> ContentLength r <= MaxRequestBodySize ->
  ctxUser r = Some u ->
  oneof healthTypes (HealthRecordRequest.Type_ req) = true ->
  HealthRecordRequest.Unit req <> "" ->
  HealthRecordRequest.Value req = (-1)%float ->
  createHealthRecordHandler time_Parse_RFC3339 env r (Some req) st =
  (jsonError StatusBadRequest (valueError "min"), st).
Proof.
  intros Hmethod Hsize Huser Htype Hunit Hv.
  apply create_value_refused with (u := u); try assumption.
  rewrite Hv. reflexivity.
Qed.

End CreateValidation.

(** C2: a create request with value 0, every other field valid, is answered
    400 on the [required] tag and nothing is stored. *)
Theorem create_with_value_zero_is_refused :
  createHealthRecordHandler exampleParse
    (mkEnv (uuidOfNat 0) 1761213600 1761213600)
    (postRequest "alice") (Some (heartRate 0)) emptyStore
  = (jsonError 400 (valueError "required"), emptyStore).
Proof.
  apply create_zero_refused with (u := "alice"); try reflexivity;
    discriminate.
Qed.

(** ** The page size of the record list *)

Lemma pageLimit_le_100 (l : string) : pageLimit l <= 100.
Proof.
  unfold pageLimit. destruct (String.eqb l ""); [lia|].
  destruct (Sscanf_d l) as [n|].
  - destruct (100 <? n) eqn:E; [lia | apply Z.ltb_ge in E; lia].
  - cbn. lia.
Qed.

Lemma wrap64_small (z : Z) : minInt64 <= z <= maxInt64 -> wrap64 z = z.
Proof.
  unfold wrap64, minInt64, maxInt64. intros H.
  rewrite Z.mod_small by lia. lia.
Qed.

Lemma lrange_length (l : list string) (stop : Z) :
  0 <= stop -> Z.of_nat (length (lrange l 0 stop)) <= stop + 1.
Proof.
  intros Hstop. unfold lrange. cbn [Z.ltb Z.compare].
  destruct (stop <? 0) eqn:E; [apply Z.ltb_lt in E; lia|].
  destruct ((stop <? 0) || (Z.of_nat (length l) <=? 0)); [cbn; lia|].
  rewrite length_take, length_drop.
  destruct (Z.of_nat (length l) <=? stop) eqn:E2.
  - apply Z.leb_le in E2. lia.
  - apply Z.leb_gt in E2. lia.
Qed.

(** The list loop adds at most one record per identifier, whatever the
    store does. *)
Lemma fetchRecords_length (u : string) :
  forall (ids : list string) (acc : list HealthRecord.t) (st : Redis),
    (length (fst (fetchRecords u ids acc st)) <= length acc + length ids)%nat.
Proof.
  induction ids as [|id ids IH]; intros acc st.
  - cbn. lia.
  - cbn [fetchRecords]. unfold bind at 1.
    destruct (Get (recordKey u id) st) as [got st'].
    destruct got as [v|e].
    + destruct (unmarshalRecord v) as [rec|].
      * specialize (IH (acc ++ [rec])%list st'). rewrite length_app in IH.
        cbn [length] in *. lia.
      * specialize (IH acc st'). cbn [length]. lia.
    + specialize (IH acc st'). cbn [length]. lia.
Qed.

(** With a limit of at least 1 the list response carries at most 100
    records, on every store and every fault schedule. *)
Lemma positive_limit_at_most_100 (r : Request) (st : Redis) :
  1 <= pageLimit (Query r "limit") ->
  (recordCount (fst (getHealthRecordsHandler r st)) <= 100)%nat.
Proof.
  intros Hpos. unfold getHealthRecordsHandler.
  destruct (negb (String.eqb (Method r) "GET")); [cbn; lia|].
  destruct (ctxUser r) as [u|]; [|cbn; lia].
  pose proof (pageLimit_le_100 (Query r "limit")) as Hle.
  set (limit := pageLimit (Query r "limit")) in *.
  rewrite wrap64_small by (unfold minInt64, maxInt64; lia).
  unfold bind at 1.
  destruct (LRange (listKey u) 0 (limit - 1) st) as [ranged st'] eqn:ER.
  destruct ranged as [ids|e]; [|cbn; lia].
  assert (Hids : (length ids <= 100)%nat).
  { unfold LRange, command in ER.
    assert (Hl : forall l, (length (lrange l 0 (limit - 1)) <= 100)%nat).
    { intros l. pose proof (lrange_length l (limit - 1)). lia. }
    destruct (faults st) as [|[detail|] rest];
      destruct (data st !! listKey u) as [[[v|l] t]|];
      inversion ER; subst; cbn; try lia; apply Hl. }
  unfold bind.
  pose proof (fetchRecords_length u ids [] st') as Hlen.
  destruct (fetchRecords u ids [] st') as [records st''].
  cbn in *. lia.
Qed.

(** [limit=1000] is cut down to 100. *)
Lemma limit_1000_at_most_100 (r : Request) (st : Redis) :
  Query r "limit" = "1000" ->
  (recordCount (fst (getHealthRecordsHandler r st)) <= 100)%nat.
Proof.
  intros H. apply positive_limit_at_most_100. rewrite H. vm_compute.
  discriminate.
Qed.

(** The list loop against a store that answers. *)
Lemma fetchRecords_reachable (d : gmap string entry) (u : string) :
  forall (ids : list string) (acc : list HealthRecord.t),
    fetchRecords u ids acc (mkRedis d [])
    = ((acc ++ omap (recordAt d u) ids)%list, mkRedis d []).
Proof.
  induction ids as [|id ids IH]; intros acc.
  - cbn. rewrite app_nil_r. reflexivity.
  - cbn [fetchRecords]. unfold bind at 1. rewrite Get_reachable.
    simpl omap. unfold recordAt at 1, docAt.
    destruct (d !! recordKey u id) as [[[v|l] t]|]; try apply IH.
    destruct (unmarshalRecord v) as [rec|]; try apply IH.
    rewrite IH, <- app_assoc. reflexivity.
Qed.

(** With [limit=0], or any limit that scans to 0, the list handler reads
    the whole index. *)
Lemma limit_zero_reads_whole_index (r : Request) (d : gmap string entry)
    (u : string) :
  Method r = "GET" -> ctxUser r = Some u -> pageLimit (Query r "limit") = 0 ->
  Payload (fst (getHealthRecordsHandler r (mkRedis d [])))
  = JRecords (omap (recordAt d u) (indexOf d u)).
Proof.
  intros Hmethod Huser Hlimit. unfold getHealthRecordsHandler.
  rewrite Hmethod, Huser, Hlimit.
  cbn [String.eqb Ascii.eqb Bool.eqb negb].
  change (wrap64 (0 - 1)) with (-1).
  unfold bind at 1.
  destruct (LRange_all_reachable d u) as (ranged & -> & Hids).
  destruct ranged as [ids|e]; cbn in Hids.
  - unfold bind. rewrite fetchRecords_reachable. subst ids. reflexivity.
  - rewrite <- Hids. reflexivity.
Qed.

(** What the handler makes of some values of the parameter. *)
Example pageLimit_examples :
  map pageLimit ["1000"; "100"; "7"; " +7 records"; "0"; "-5"; "seven"; ""]
  = [100; 100; 7; 7; 0; -5; 20; 20].
Proof. reflexivity. Qed.

(** The smallest [int64] slips under the cap and its predecessor wraps to
    the largest. *)
Example pageLimit_wraps :
  wrap64 (pageLimit "-9223372036854775808" - 1) = maxInt64.
Proof. reflexivity. Qed.

(** C3: [limit=0] asks Redis for the range 0..-1, which is the whole
    index; with 101 records posted the response carries all 101. *)
Theorem limit_zero_returns_the_whole_index :
  recordCount
    (fst (getHealthRecordsHandler (listRequest "alice" "0")
            (postMany 101 72 emptyStore))) = 101%nat.
Proof. vm_compute. reflexivity. Qed.

(** ** Session tokens *)

Lemma stripPrefix_app (p s : string) : stripPrefix p (p +:+ s) = Some s.
Proof.
  induction p as [|a p IH]; [reflexivity|].
  cbn [stripPrefix]. change (String a p +:+ s) with (String a (p +:+ s)).
  cbv beta iota. rewrite Ascii.eqb_refl. exact IH.
Qed.

Section TokenRoundTrip.

Variable JWTSecret : string.
Variable signingString : SigningMethod -> RegisteredClaims.t -> string.
Variable hmac : SigningMethod -> string -> string -> string.
Variable EncodeSegment : string -> string.
Variable DecodeSegment : string -> option string.
Variable ParseUnverified : string -> option Token.

(** C5: a token issued for a user at [now] carries the subject and the
    expiry [now] + 1 hour and no other claim, and the middleware, at any
    instant from [now] up to the expiry, lets the request through under
    that user; the library's encoding is assumed to read back the token
    it wrote. *)
Theorem verify_after_issue (userID : string) (now t : Time) :
  let claims :=
    RegisteredClaims.mk "" userID [] (Some (now + 1 * Hour)) None None "" in
  let sstr := signingString HS256 claims in
  let mac := hmac HS256 JWTSecret sstr in
  let tok := sstr +:+ "." +:+ EncodeSegment mac in
  DecodeSegment (EncodeSegment mac) = Some mac ->
  ParseUnverified tok = Some (mkToken HS256 claims sstr (EncodeSegment mac)) ->
  now <= t < now + 1 * Hour ->
  generateJWT JWTSecret signingString hmac EncodeSegment now userID = Some tok
  /\ ParseWithClaims JWTSecret hmac DecodeSegment ParseUnverified t tok
     = Some claims
  /\ jwtMiddleware JWTSecret hmac DecodeSegment ParseUnverified t
       ("Bearer " +:+ tok) = Next userID.
Proof.
  intros claims sstr mac tok Hdec Hparse Ht.
  assert (Hverify :
    ParseWithClaims JWTSecret hmac DecodeSegment ParseUnverified t tok
    = Some claims).
  { unfold ParseWithClaims. rewrite Hparse.
    cbn [Claims TokenMethod SigningInput Signature].
    unfold claimsValid, methodVerify. subst claims. cbn.
    rewrite Hdec. fold sstr. fold mac. rewrite String.eqb_refl.
    unfold Before. destruct (t <? now + 1 * Hour) eqn:E; [reflexivity|].
    apply Z.ltb_ge in E. lia. }
  split; [reflexivity|]. split; [exact Hverify|].
  unfold jwtMiddleware, HasPrefix, TrimPrefix.
  rewrite (stripPrefix_app "Bearer " tok). cbn [negb].
  rewrite Hverify. reflexivity.
Qed.

End TokenRoundTrip.

Lemma verify_after_issue_witness :
  generateJWT "secret" toySigningString toyHmac toyEncode 1000 "alice"
  = Some aliceToken
  /\ ParseWithClaims "secret" toyHmac toyDecode toyParse 1000 aliceToken
     = Some aliceClaims
  /\ jwtMiddleware "secret" toyHmac toyDecode toyParse 1000
       ("Bearer " +:+ aliceToken) = Next "alice".
Proof.
  apply (verify_after_issue "secret" toySigningString toyHmac toyEncode
           toyDecode toyParse "alice" 1000 1000).
  - reflexivity.
  - reflexivity.
  - unfold Hour. lia.
Defined.

Section TokenExpiry.

Variable JWTSecret : string.
Variable hmac : SigningMethod -> string -> string -> string.
Variable DecodeSegment : string -> option string.
Variable ParseUnverified : string -> option Token.

(** From the expiry on, the token is refused, whatever its signature. *)
Lemma refused_from_expiry (tok : string) (token : Token) (exp t : Time) :
  ParseUnverified tok = Some token ->
  RegisteredClaims.ExpiresAt (Claims token) = Some exp ->
  exp <= t ->
  jwtMiddleware JWTSecret hmac DecodeSegment ParseUnverified t
    ("Bearer " +:+ tok)
  = Reject (httpError "Unauthorized" StatusUnauthorized).
Proof.
  intros Hparse Hexp Ht. unfold jwtMiddleware, HasPrefix, TrimPrefix.
  rewrite (stripPrefix_app "Bearer " tok). cbn [negb].
  unfold ParseWithClaims. rewrite Hparse. unfold claimsValid. rewrite Hexp.
  unfold Before. destruct (t <? exp) eqn:E; [apply Z.ltb_lt in E; lia|].
  reflexivity.
Qed.

End TokenExpiry.

(** ** Login *)

Section Login.

Variable JWTSecret : string.
Variable signingString : SigningMethod -> RegisteredClaims.t -> string.
Variable hmac : SigningMethod -> string -> string -> string.
Variable EncodeSegment : string -> string.
Variable isEmail : string -> bool.
Variable VerifyPassword : string -> string -> bool.

(** An email nobody registered: whatever the store answers, also when it
    does not answer at all. *)
Lemma login_unknown_email (now : Time) (r : Request) (req : LoginRequest.t)
    (st : Redis) :
  Method r = "POST" -> ContentLength r <= MaxRequestBodySize ->
  validateLoginRequest isEmail req = [] ->
  data st !! userKey (LoginRequest.Email req) = None ->
  fst (loginHandler JWTSecret signingString hmac EncodeSegment isEmail
         VerifyPassword now r (Some req) st) = invalidCredentials.
Proof.
  intros Hmethod Hsize Hvalid Habsent.
  unfold loginHandler. rewrite Hmethod. cbn [String.eqb negb].
  cbn.
  within_size.
  rewrite Hvalid. unfold bind, Get, command.
  destruct (faults st) as [|[detail|] rest]; cbn; try reflexivity;
    rewrite Habsent; reflexivity.
Qed.

(** A registered email with a password that does not verify. *)
Lemma login_wrong_password (now : Time) (r : Request) (req : LoginRequest.t)
    (st : Redis) (v : doc) (user : User.t) :
  Method r = "POST" -> ContentLength r <= MaxRequestBodySize ->
  validateLoginRequest isEmail req = [] ->
  docAt (data st) (userKey (LoginRequest.Email req)) = Some v ->
  unmarshalUser v = Some user ->
  VerifyPassword (User.Password user) (LoginRequest.Password req) = false ->
  fst (loginHandler JWTSecret signingString hmac EncodeSegment isEmail
         VerifyPassword now r (Some req) st) = invalidCredentials.
Proof.
  intros Hmethod Hsize Hvalid Hdoc Huser Hwrong.
  unfold loginHandler. rewrite Hmethod. cbn.
  within_size.
  rewrite Hvalid. unfold bind, Get, command. unfold docAt in Hdoc.
  destruct (data st !! userKey (LoginRequest.Email req))
    as [[[v'|l] t]|]; try discriminate.
  injection Hdoc as ->.
  destruct (faults st) as [|[detail|] rest]; cbn; try reflexivity;
    rewrite Huser, Hwrong; reflexivity.
Qed.

(** C4: of two well-formed login requests against the same data, one for
    a registered email with a password that does not verify and one for
    an email that is not registered, both are answered with the same
    response: 401 and the one generic error object. *)
Theorem login_failures_are_indistinguishable
    (d : gmap string entry) (faultsA faultsB : list (option string))
    (nowA nowB : Time) (rA rB : Request) (reqA reqB : LoginRequest.t)
    (v : doc) (user : User.t) :
  Method rA = "POST" -> ContentLength rA <= MaxRequestBodySize ->
  Method rB = "POST" -> ContentLength rB <= MaxRequestBodySize ->
  validateLoginRequest isEmail reqA = [] ->
  validateLoginRequest isEmail reqB = [] ->
  docAt d (userKey (LoginRequest.Email reqA)) = Some v ->
  unmarshalUser v = Some user ->
  VerifyPassword (User.Password user) (LoginRequest.Password reqA) = false ->
  d !! userKey (LoginRequest.Email reqB) = None ->
  fst (loginHandler JWTSecret signingString hmac EncodeSegment isEmail
         VerifyPassword nowA rA (Some reqA) (mkRedis d faultsA))
  = fst (loginHandler JWTSecret signingString hmac EncodeSegment isEmail
         VerifyPassword nowB rB (Some reqB) (mkRedis d faultsB))
  /\ fst (loginHandler JWTSecret signingString hmac EncodeSegment isEmail
         VerifyPassword nowA rA (Some reqA) (mkRedis d faultsA))
     = jsonError 401 "Invalid email or password".
Proof.
  intros HmA HsA HmB HsB HvA HvB Hdoc Huser Hwrong Habsent.
  rewrite (login_wrong_password nowA rA reqA (mkRedis d faultsA) v user)
    by assumption.
  rewrite (login_unknown_email nowB rB reqB (mkRedis d faultsB))
    by assumption.
  split; reflexivity.
Qed.

End Login.

(** What registration leaves under the user key carries no password. *)
Lemma registered_document_has_no_password :
  docAt (data registeredStore) (userKey "alice@example.com")
  = Some (DUser (User.mk (uuidOfNat 7) "alice@example.com" "" "Alice" true
                   1761213600 1761213600)).
Proof. reflexivity. Qed.

Lemma login_failures_are_indistinguishable_witness :
  let login :=
    loginHandler "secret" toySigningString toyHmac toyEncode toyIsEmail
      toyVerifyPassword in
  fst (login 1000 loginPost
         (Some (LoginRequest.mk "alice@example.com" "wrong")) registeredStore)
  = fst (login 1000 loginPost
           (Some (LoginRequest.mk "bob@example.com" "wrong")) registeredStore)
  /\ fst (login 1000 loginPost
            (Some (LoginRequest.mk "alice@example.com" "wrong"))
            registeredStore)
     = jsonError 401 "Invalid email or password".
Proof.
  apply (login_failures_are_indistinguishable "secret" toySigningString
           toyHmac toyEncode toyIsEmail toyVerifyPassword
           (data registeredStore) [] [] 1000 1000 loginPost loginPost
           (LoginRequest.mk "alice@example.com" "wrong")
           (LoginRequest.mk "bob@example.com" "wrong")
           (DUser (User.mk (uuidOfNat 7) "alice@example.com" "" "Alice" true
                     1761213600 1761213600))
           (User.mk (uuidOfNat 7) "alice@example.com" "" "Alice" true
              1761213600 1761213600));
    try reflexivity; vm_compute; congruence.
Defined.

(** ** Keys do not collide *)

Lemma append_inv_head (p x y : string) : p +:+ x = p +:+ y -> x = y.
Proof.
  induction p as [|a p IH]; intros H; [exact H|].
  change (String a (p +:+ x) = String a (p +:+ y)) in H.
  injection H as H. auto.
Qed.

Lemma colon_split (a b x y : string) :
  noColon a = true -> noColon b = true ->
  a +:+ String ":" x = b +:+ String ":" y -> a = b /\ x = y.
Proof.
  revert b. induction a as [|c a IH]; intros [|c' b] Ha Hb H.
  - injection H as H. auto.
  - change (String ":" x = String c' (b +:+ String ":" y)) in H.
    injection H as <- _. cbn in Hb. discriminate.
  - change (String c (a +:+ String ":" x) = String ":" y) in H.
    injection H as -> _. cbn in Ha. discriminate.
  - change (String c (a +:+ String ":" x) = String c' (b +:+ String ":" y))
      in H.
    injection H as -> H.
    cbn [noColon] in Ha, Hb.
    apply andb_prop in Ha as [_ Ha]. apply andb_prop in Hb as [_ Hb].
    destruct (IH b Ha Hb H) as [-> ->]. auto.
Qed.

Lemma healthKey_inj (u u' x y : string) :
  noColon u = true -> noColon u' = true ->
  healthKey u x = healthKey u' y -> u = u' /\ x = y.
Proof.
  intros Hu Hu' H. unfold healthKey in H.
  apply append_inv_head in H.
  exact (colon_split u u' x y Hu Hu' H).
Qed.

Lemma uuid_not_list : is_uuid "list" = false.
Proof. reflexivity. Qed.

Lemma uuid_not_stats (T : string) : is_uuid ("stats:" +:+ T) = false.
Proof. reflexivity. Qed.

Lemma healthKey_same_user (u x y : string) :
  healthKey u x = healthKey u y -> x = y.
Proof.
  unfold healthKey. intros H.
  apply append_inv_head, append_inv_head, append_inv_head in H. exact H.
Qed.

Lemma recordKey_ne_listKey (u id : string) :
  is_uuid id = true -> recordKey u id <> listKey u.
Proof.
  intros Hid H. change (healthKey u id = healthKey u "list") in H.
  apply healthKey_same_user in H. subst id. discriminate.
Qed.

Lemma recordKey_ne_statsKey (u id T : string) :
  is_uuid id = true -> recordKey u id <> statsKey u T.
Proof.
  intros Hid H. change (healthKey u id = healthKey u ("stats:" +:+ T)) in H.
  apply healthKey_same_user in H. subst id.
  rewrite uuid_not_stats in Hid. discriminate.
Qed.

Lemma listKey_ne_statsKey (u T : string) : listKey u <> statsKey u T.
Proof.
  intros H. change (healthKey u "list" = healthKey u ("stats:" +:+ T)) in H.
  apply healthKey_same_user in H. discriminate.
Qed.

Lemma statsKey_inj (u T T' : string) : statsKey u T = statsKey u T' -> T = T'.
Proof.
  intros H.
  change (healthKey u ("stats:" +:+ T) = healthKey u ("stats:" +:+ T')) in H.
  apply healthKey_same_user, append_inv_head in H. exact H.
Qed.

Lemma recordKey_inj (u id id' : string) :
  recordKey u id = recordKey u id' -> id = id'.
Proof. apply healthKey_same_user. Qed.

Lemma hex_not_colon (c : ascii) : isHex c = true -> Ascii.eqb c ":" = false.
Proof.
  intros H. destruct (Ascii.eqb_spec c ":") as [->|]; [discriminate|reflexivity].
Qed.

Lemma matchesShape_noColon (shape : string) :
  forall s, matchesShape shape s = true -> noColon s = true.
Proof.
  induction shape as [|p shape IH]; intros [|c s] H; try discriminate;
    [reflexivity|].
  cbn [matchesShape] in H. apply andb_prop in H as [Hc Hs].
  cbn [noColon]. rewrite (IH s Hs), andb_true_r.
  destruct (Ascii.eqb p "-").
  - apply Ascii.eqb_eq in Hc. subst c. reflexivity.
  - rewrite (hex_not_colon c Hc). reflexivity.
Qed.

(** The identities the registration issues hold no colon. *)
Lemma uuid_noColon (s : string) : is_uuid s = true -> noColon s = true.
Proof. apply matchesShape_noColon. Qed.

(** ** What a well-formed store can hold under a stats key *)

Lemma wf_stats_key_type (d : gmap string entry) (u T : string) (v : doc) :
  store_wf d -> noColon u = true ->
  docAt d (statsKey u T) = Some v -> validType T = true.
Proof.
  intros Hwf Hu Hdoc. unfold docAt in Hdoc.
  destruct (d !! statsKey u T) as [[[v'|l] t]|] eqn:E; try discriminate.
  injection Hdoc as ->. specialize (Hwf _ _ E). unfold entry_ok in Hwf.
  cbn [val] in Hwf. destruct v as [usr|rec|s|raw].
  - unfold statsKey, userKey in Hwf. discriminate.
  - destruct Hwf as (Hk & Hu' & Hid & _).
    change (healthKey u ("stats:" +:+ T)
            = healthKey (HealthRecord.UserID rec) (HealthRecord.ID rec)) in Hk.
    apply healthKey_inj in Hk as [_ Hk]; try assumption.
    rewrite <- Hk in Hid. rewrite uuid_not_stats in Hid. discriminate.
  - destruct Hwf as (Hk & Hu' & Hty).
    change (healthKey u ("stats:" +:+ T)
            = healthKey (HealthStats.UserID s)
                ("stats:" +:+ HealthStats.Type_ s)) in Hk.
    apply healthKey_inj in Hk as [_ Hk]; try assumption.
    apply append_inv_head in Hk. rewrite Hk. exact Hty.
  - contradiction.
Qed.

Lemma wf_record_type (d : gmap string entry) (u id : string)
    (r : HealthRecord.t) :
  store_wf d -> recordAt d u id = Some r ->
  HealthRecord.Type_ r = "" \/ validType (HealthRecord.Type_ r) = true.
Proof.
  intros Hwf Hrec. unfold recordAt, docAt in Hrec.
  destruct (d !! recordKey u id) as [[[v|l] t]|] eqn:E; try discriminate.
  specialize (Hwf _ _ E). unfold entry_ok in Hwf. cbn [val] in Hwf.
  destruct v as [usr|rec|s|raw]; cbn in Hrec; try discriminate;
    injection Hrec as <-; cbn; tauto.
Qed.

Lemma wf_no_record_of_unknown_type (d : gmap string entry) (u T : string) :
  store_wf d -> T <> "" -> validType T = false ->
  forall id r, recordAt d u id = Some r -> hasType T r = false.
Proof.
  intros Hwf HT Hinv id r Hrec. unfold hasType.
  destruct (String.eqb_spec (HealthRecord.Type_ r) T) as [Heq|]; [|reflexivity].
  destruct (wf_record_type d u id r Hwf Hrec) as [H|H]; congruence.
Qed.

(** ** Commands under any fault schedule *)

Lemma Get_any (key : string) (st : Redis) :
  exists got st',
    Get key st = (got, st') /\ data st' = data st
    /\ forall v, got = Ok v -> docAt (data st) key = Some v.
Proof.
  unfold Get, command, docAt.
  destruct (faults st) as [|[detail|] rest];
    destruct (data st !! key) as [[[v|l] t]|];
    do 2 eexists; (split; [reflexivity|]); split; try reflexivity;
    intros v0 Hv; try discriminate; injection Hv as ->; reflexivity.
Qed.

Lemma LRange_any (key : string) (start stop : Z) (st : Redis) :
  exists got st', LRange key start stop st = (got, st') /\ data st' = data st.
Proof.
  unfold LRange, command.
  destruct (faults st) as [|[detail|] rest];
    destruct (data st !! key) as [[[v|l] t]|];
    do 2 eexists; split; reflexivity.
Qed.

(** The stats loop finds nothing when no record of the user has the type,
    whatever the store does. *)
Lemma scanRecords_no_match (d : gmap string entry) (u T : string) :
  (forall id r, recordAt d u id = Some r -> hasType T r = false) ->
  forall (ids : list string) (values : list float) (last : Time) (st : Redis),
    data st = d ->
    exists st',
      scanRecords u T ids values last st = ((values, last), st')
      /\ data st' = d.
Proof.
  intros Hnone. induction ids as [|id ids IH]; intros values last st Hd.
  - exists st. split; [reflexivity | exact Hd].
  - cbn [scanRecords]. unfold bind at 1.
    destruct (Get_any (recordKey u id) st) as (got & st1 & -> & Hd1 & Hgot).
    rewrite Hd in Hd1, Hgot.
    destruct got as [v|e]; [|apply IH; exact Hd1].
    specialize (Hgot v eq_refl).
    destruct (unmarshalRecord v) as [rec|] eqn:Eu; [|apply IH; exact Hd1].
    assert (Hrec : recordAt d u id = Some rec).
    { unfold recordAt. rewrite Hgot. exact Eu. }
    apply Hnone in Hrec. unfold hasType in Hrec. rewrite Hrec.
    apply IH; exact Hd1.
Qed.

(** ** The stats endpoint and types outside the closed set *)

(** Once the type parameter is there, every path of the stats handler ends
    in a 200. *)
Lemma stats_always_200 (r : Request) (st : Redis) (u : string) :
  Method r = "GET" -> ctxUser r = Some u -> Query r "type" <> "" ->
  Status (fst (getHealthStatsHandler r st)) = 200.
Proof.
  intros Hmethod Huser HT. unfold getHealthStatsHandler.
  rewrite Hmethod, Huser. cbn [String.eqb Ascii.eqb Bool.eqb negb].
  destruct (String.eqb_spec (Query r "type") ""); [contradiction|].
  unfold bind at 1.
  destruct (Get (statsKey u (Query r "type")) st) as [cached st1].
  destruct (match cached with Ok d => unmarshalStats d | Err _ => None end);
    [reflexivity|].
  unfold bind at 1.
  destruct (LRange (listKey u) 0 (-1) st1) as [ranged st2].
  unfold bind at 1.
  destruct (scanRecords u (Query r "type")
              match ranged with Ok ids => ids | Err _ => [] end [] zeroTime st2)
    as [[values last] st3].
  destruct values as [|v values]; [reflexivity|].
  unfold bind.
  destruct (Set_ _ _ _ st3) as [stored st4]. reflexivity.
Qed.

(** C10: a non-empty type outside the closed set is never answered with a
    validation error: the response is 200; and on a store of the shape the
    handlers write, asked by a user whose identity holds no colon, under
    any fault schedule, it is the zero stats object (count 0), with nothing
    written. *)
Theorem stats_of_unknown_type (r : Request) (st : Redis) (u T : string) :
  Method r = "GET" -> ctxUser r = Some u -> Query r "type" = T ->
  T <> "" -> validType T = false ->
  Status (fst (getHealthStatsHandler r st)) = 200
  /\ (noColon u = true -> store_wf (data st) ->
      fst (getHealthStatsHandler r st) = statsResponse "MISS" HealthStats.zero
      /\ HealthStats.Count HealthStats.zero = 0
      /\ data (snd (getHealthStatsHandler r st)) = data st).
Proof.
  intros Hmethod Huser Htype HT Hinv. split.
  { apply (stats_always_200 r st u); congruence. }
  intros Hu Hwf.
  assert (Hrun : exists st',
    getHealthStatsHandler r st = (statsResponse "MISS" HealthStats.zero, st')
    /\ data st' = data st).
  { unfold getHealthStatsHandler.
    rewrite Hmethod, Huser, Htype. cbn [String.eqb Ascii.eqb Bool.eqb negb].
    destruct (String.eqb_spec T ""); [contradiction|].
    unfold bind at 1.
    destruct (Get_any (statsKey u T) st) as (cached & st1 & -> & Hd1 & Hgot).
    assert (Hmiss :
      match cached with Ok d => unmarshalStats d | Err _ => None end = None).
    { destruct cached as [v|e]; [|reflexivity].
      pose proof (wf_stats_key_type _ u T v Hwf Hu (Hgot v eq_refl)).
      congruence. }
    rewrite Hmiss. unfold bind at 1.
    destruct (LRange_any (listKey u) 0 (-1) st1) as (ranged & st2 & -> & Hd2).
    unfold bind at 1.
    destruct (scanRecords_no_match (data st) u T
                (wf_no_record_of_unknown_type _ u T Hwf HT Hinv)
                match ranged with Ok ids => ids | Err _ => [] end [] zeroTime
                st2)
      as (st3 & -> & Hd3); [congruence|].
    exists st3. split; [reflexivity | exact Hd3]. }
  destruct Hrun as (st' & -> & Hd). repeat split. exact Hd.
Qed.

(** ** The shape of the store is kept by every handler *)

Lemma store_wf_empty : store_wf ∅.
Proof. apply map_Forall_empty. Qed.

(** A command either fails and leaves the data alone, or runs. *)
Lemma command_cases {A} (run : gmap string entry -> result A * gmap string entry)
    (st : Redis) :
  (exists detail, fst (command run st) = Err (Unavailable detail)
                  /\ data (snd (command run st)) = data st)
  \/ (fst (command run st) = fst (run (data st))
      /\ data (snd (command run st)) = snd (run (data st))).
Proof.
  unfold command. destruct (faults st) as [|[detail|] rest].
  - right. destruct (run (data st)); split; reflexivity.
  - left. exists detail. split; reflexivity.
  - right. destruct (run (data st)); split; reflexivity.
Qed.

Lemma Set_wf (key : string) (v : doc) (expiry : Z) (st : Redis) :
  entry_ok key (Entry (RString v) (Some expiry)) -> store_wf (data st) ->
  store_wf (data (snd (Set_ key v expiry st))).
Proof.
  intros Hok Hwf. unfold Set_.
  destruct (command_cases
              (fun d => (Ok tt, <[key := Entry (RString v) (Some expiry)]> d))
              st) as [(detail & _ & ->) | [_ ->]]; [exact Hwf|].
  cbn. apply map_Forall_insert_2; assumption.
Qed.

Lemma Del_wf (key : string) (st : Redis) :
  store_wf (data st) -> store_wf (data (snd (Del key st))).
Proof.
  intros Hwf. unfold Del.
  destruct (command_cases (fun d => (Ok tt, delete key d)) st)
    as [(detail & _ & ->) | [_ ->]]; [exact Hwf|].
  cbn. apply map_Forall_delete. exact Hwf.
Qed.

Lemma LPush_wf (u item : string) (st : Redis) :
  noColon u = true -> is_uuid item = true -> store_wf (data st) ->
  store_wf (data (snd (LPush (listKey u) item st))).
Proof.
  intros Hu Hitem Hwf. unfold LPush.
  match goal with |- context [command ?f st] =>
    destruct (command_cases f st) as [(detail & _ & ->) | [_ ->]]
  end; [exact Hwf|].
  destruct (data st !! listKey u) as [[[v|l] t]|] eqn:E; cbn.
  - exact Hwf.
  - apply map_Forall_insert_2; [|exact Hwf].
    pose proof (Hwf _ _ E) as [Hkey Hids]. split; [exact Hkey|].
    constructor; assumption.
  - apply map_Forall_insert_2; [|exact Hwf].
    split; [exists u; auto|]. constructor; [assumption|constructor].
Qed.

Lemma Expire_wf (key : string) (expiry : Z) (st : Redis) :
  store_wf (data st) -> store_wf (data (snd (Expire key expiry st))).
Proof.
  intros Hwf. unfold Expire.
  match goal with |- context [command ?f st] =>
    destruct (command_cases f st) as [(detail & _ & ->) | [_ ->]]
  end; [exact Hwf|].
  destruct (data st !! key) as [[v t]|] eqn:E; cbn; [|exact Hwf].
  apply map_Forall_insert_2; [|exact Hwf]. exact (Hwf _ _ E).
Qed.

Lemma remove_first_Forall (P : string -> Prop) (x : string) (l : list string) :
  Forall P l -> Forall P (remove_first x l).
Proof.
  induction 1 as [|y l Hy Hl IH]; cbn; [constructor|].
  destruct (String.eqb x y); [assumption | constructor; assumption].
Qed.

Lemma LRem1_wf (key item : string) (st : Redis) :
  store_wf (data st) -> store_wf (data (snd (LRem1 key item st))).
Proof.
  intros Hwf. unfold LRem1.
  match goal with |- context [command ?f st] =>
    destruct (command_cases f st) as [(detail & _ & ->) | [_ ->]]
  end; [exact Hwf|].
  destruct (data st !! key) as [[[v|l] t]|] eqn:E; cbn; try exact Hwf.
  pose proof (Hwf _ _ E) as [Hkey Hids].
  apply (remove_first_Forall _ item) in Hids.
  destruct (remove_first item l) as [|y l'] eqn:El; cbn.
  - apply map_Forall_delete. exact Hwf.
  - apply map_Forall_insert_2; [|exact Hwf]. split; assumption.
Qed.

Lemma validation_passed (input : HealthRecordInput.t) :
  validateHealthRecordInput input = [] ->
  validType (HealthRecordInput.Type_ input) = true
  /\ requiredFloat (HealthRecordInput.Value input) = true
  /\ minFloat 0 (HealthRecordInput.Value input) = true
  /\ maxFloat 500 (HealthRecordInput.Value input) = true
  /\ HealthRecordInput.Unit input <> "".
Proof.
  unfold validateHealthRecordInput, checkField, validType, requiredString.
  cbn [firstFailing].
  destruct (String.eqb_spec (HealthRecordInput.Type_ input) "");
    cbn [negb]; [discriminate|].
  destruct (oneof healthTypes (HealthRecordInput.Type_ input));
    [|discriminate].
  destruct (requiredFloat (HealthRecordInput.Value input)); [|discriminate].
  destruct (minFloat 0 (HealthRecordInput.Value input)); [|discriminate].
  destruct (maxFloat 500 (HealthRecordInput.Value input)); [|discriminate].
  destruct (String.eqb_spec (HealthRecordInput.Unit input) "");
    cbn [negb]; [discriminate|].
  intros _. repeat split. assumption.
Qed.

Section Invariant.

Variable time_Parse_RFC3339 : string -> option Time.

Theorem create_keeps_wf (env : Env) (r : Request)
    (body : option HealthRecordRequest.t) (st : Redis) (u : string) :
  ctxUser r = Some u -> noColon u = true -> is_uuid (uuid_New env) = true ->
  store_wf (data st) ->
  store_wf
    (data (snd (createHealthRecordHandler time_Parse_RFC3339 env r body st))).
Proof.
  intros Huser Hu Hid Hwf. unfold createHealthRecordHandler.
  destruct (negb (String.eqb (Method r) "POST")); [exact Hwf|].
  destruct (MaxRequestBodySize <? ContentLength r); [exact Hwf|].
  rewrite Huser. destruct body as [req|]; [|exact Hwf].
  destruct (validateHealthRecordInput _) as [|fe errs] eqn:Ev; [|exact Hwf].
  apply validation_passed in Ev as (Hty & _).
  cbn [HealthRecordInput.Type_] in Hty. cbn [HealthRecord.ID].
  unfold bind at 1.
  match goal with |- context [Set_ ?k ?v ?e st] =>
    pose proof (Set_wf k v e st) as Hset;
    destruct (Set_ k v e st) as [stored st1]
  end.
  cbn [snd] in Hset.
  destruct stored as [[]|e]; [|apply Hset; [|exact Hwf]].
  - unfold bind at 1.
    pose proof (LPush_wf u (uuid_New env) st1 Hu Hid) as Hpush.
    destruct (LPush (listKey u) (uuid_New env) st1) as [pushed st2].
    unfold bind at 1.
    pose proof (Expire_wf (listKey u) recordTTL st2) as Hexp.
    destruct (Expire (listKey u) recordTTL st2) as [expired st3].
    unfold bind at 1.
    pose proof (Del_wf (statsKey u (HealthRecordRequest.Type_ req)) st3) as Hdel.
    destruct (Del (statsKey u (HealthRecordRequest.Type_ req)) st3)
      as [deleted st4].
    cbn [snd ret] in *.
    apply Hdel, Hexp, Hpush, Hset; [|exact Hwf].
    unfold entry_ok, marshalRecord. cbn. auto.
  - unfold entry_ok, marshalRecord. cbn. auto.
Qed.

End Invariant.

(** The stats loop under any fault schedule: the data stays, and a value
    is only ever added for a stored record of the type. *)
Lemma scanRecords_any (d : gmap string entry) (u T : string) :
  forall (ids : list string) (values : list float) (last : Time) (st : Redis),
    data st = d ->
    exists values' last' st',
      scanRecords u T ids values last st = ((values', last'), st')
      /\ data st' = d
      /\ (values' = values
          \/ exists id r, recordAt d u id = Some r /\ hasType T r = true).
Proof.
  induction ids as [|id ids IH]; intros values last st Hd.
  - exists values, last, st. auto.
  - cbn [scanRecords]. unfold bind at 1.
    destruct (Get_any (recordKey u id) st) as (got & st1 & -> & Hd1 & Hgot).
    rewrite Hd in Hd1, Hgot.
    destruct got as [v|e]; [|apply IH; exact Hd1].
    specialize (Hgot v eq_refl).
    destruct (unmarshalRecord v) as [rec|] eqn:Eu; [|apply IH; exact Hd1].
    assert (Hrec : recordAt d u id = Some rec).
    { unfold recordAt. rewrite Hgot. exact Eu. }
    destruct (String.eqb (HealthRecord.Type_ rec) T) eqn:Et;
      [|apply IH; exact Hd1].
    destruct (IH (values ++ [HealthRecord.Value rec])%list
                (if After (HealthRecord.RecordedAt rec) last
                 then HealthRecord.RecordedAt rec else last) st1 Hd1)
      as (values' & last' & st' & -> & Hd' & _).
    exists values', last', st'. repeat split; try assumption.
    right. exists id, rec. auto.
Qed.

Theorem stats_keeps_wf (r : Request) (st : Redis) (u : string) :
  ctxUser r = Some u -> noColon u = true -> store_wf (data st) ->
  store_wf (data (snd (getHealthStatsHandler r st))).
Proof.
  intros Huser Hu Hwf. unfold getHealthStatsHandler.
  destruct (negb (String.eqb (Method r) "GET")); [exact Hwf|].
  rewrite Huser.
  destruct (String.eqb_spec (Query r "type") "") as [|HT]; [exact Hwf|].
  set (T := Query r "type") in *. clearbody T.
  unfold bind at 1.
  destruct (Get_any (statsKey u T) st) as (cached & st1 & -> & Hd1 & _).
  destruct (match cached with Ok d => unmarshalStats d | Err _ => None end);
    [cbn [snd ret]; rewrite Hd1; exact Hwf|].
  unfold bind at 1.
  destruct (LRange_any (listKey u) 0 (-1) st1) as (ranged & st2 & -> & Hd2).
  unfold bind at 1.
  destruct (scanRecords_any (data st) u T
              match ranged with Ok ids => ids | Err _ => [] end [] zeroTime st2)
    as (values & last & st3 & -> & Hd3 & Hsrc); [congruence|].
  destruct values as [|v values];
    [cbn [snd ret]; rewrite Hd3; exact Hwf|].
  unfold bind.
  pose proof (Set_wf (statsKey u T)
                (marshalStats (computeStats u T (v :: values) last))
                (1 * Hour) st3) as Hset.
  destruct (Set_ _ _ _ st3) as [stored st4]. cbn [snd ret] in *.
  apply Hset; [|rewrite Hd3; exact Hwf].
  destruct Hsrc as [Hnil | (id & rec & Hrec & Hty)]; [discriminate|].
  unfold entry_ok, marshalStats, computeStats.
  cbn [val HealthStats.UserID HealthStats.Type_].
  repeat split; try assumption.
  unfold hasType in Hty. apply String.eqb_eq in Hty.
  destruct (wf_record_type _ u id rec Hwf Hrec) as [H|H]; congruence.
Qed.

Theorem delete_keeps_wf (r : Request) (st : Redis) :
  store_wf (data st) ->
  store_wf (data (snd (deleteHealthRecordHandler r st))).
Proof.
  intros Hwf. unfold deleteHealthRecordHandler.
  destruct (negb (String.eqb (Method r) "DELETE")); [exact Hwf|].
  destruct (ctxUser r) as [u|]; [|exact Hwf].
  destruct (String.eqb (Query r "id") ""); [exact Hwf|].
  unfold bind at 1.
  pose proof (Del_wf (recordKey u (Query r "id")) st Hwf) as Hdel.
  destruct (Del (recordKey u (Query r "id")) st) as [deleted st1].
  cbn [snd] in Hdel. destruct deleted as [[]|e]; [|exact Hdel].
  unfold bind.
  pose proof (LRem1_wf (listKey u) (Query r "id") st1 Hdel) as Hrem.
  destruct (LRem1 (listKey u) (Query r "id") st1) as [removed st2].
  exact Hrem.
Qed.

Section Registration.

Variable JWTSecret : string.
Variable signingString : SigningMethod -> RegisteredClaims.t -> string.
Variable hmac : SigningMethod -> string -> string -> string.
Variable EncodeSegment : string -> string.
Variable isEmail : string -> bool.
Variable RuneCountInString : string -> Z.
Variable HashPassword : string -> option string.

Theorem register_keeps_wf (env : Env) (tokenNow : Time) (r : Request)
    (body : option RegisterRequest.t) (st : Redis) :
  store_wf (data st) ->
  store_wf
    (data (snd (registerHandler JWTSecret signingString hmac EncodeSegment
                  isEmail RuneCountInString HashPassword env tokenNow r body
                  st))).
Proof.
  intros Hwf. unfold registerHandler.
  destruct (negb (String.eqb (Method r) "POST")); [exact Hwf|].
  destruct (MaxRequestBodySize <? ContentLength r); [exact Hwf|].
  destruct body as [req|]; [|exact Hwf].
  destruct (validateRegisterRequest _ _ req) as [|fe errs]; [|exact Hwf].
  unfold bind at 1.
  destruct (Get_any (userKey (RegisterRequest.Email req)) st)
    as (found & st1 & -> & Hd1 & _).
  destruct found as [v|e]; [cbn [snd ret]; rewrite Hd1; exact Hwf|].
  destruct (HashPassword (RegisterRequest.Password req)) as [hashed|];
    [|cbn [snd ret]; rewrite Hd1; exact Hwf].
  unfold bind.
  match goal with |- context [Set_ ?k ?v ?e st1] =>
    pose proof (Set_wf k v e st1) as Hset;
    destruct (Set_ k v e st1) as [stored st2]
  end.
  cbn [snd] in Hset.
  assert (Hwf2 : store_wf (data st2)).
  { apply Hset; [|rewrite Hd1; exact Hwf]. reflexivity. }
  destruct stored as [[]|e']; [|exact Hwf2].
  destruct (generateJWT _ _ _ _ _ _); exact Hwf2.
Qed.

End Registration.

Lemma fetchRecords_data (u : string) :
  forall (ids : list string) (acc : list HealthRecord.t) (st : Redis),
    data (snd (fetchRecords u ids acc st)) = data st.
Proof.
  induction ids as [|id ids IH]; intros acc st; [reflexivity|].
  cbn [fetchRecords]. unfold bind at 1.
  destruct (Get_any (recordKey u id) st) as (got & st1 & -> & Hd1 & _).
  destruct got as [v|e]; [destruct (unmarshalRecord v)|];
    rewrite IH; exact Hd1.
Qed.

Theorem list_keeps_data (r : Request) (st : Redis) :
  data (snd (getHealthRecordsHandler r st)) = data st.
Proof.
  unfold getHealthRecordsHandler.
  destruct (negb (String.eqb (Method r) "GET")); [reflexivity|].
  destruct (ctxUser r) as [u|]; [|reflexivity].
  unfold bind at 1.
  destruct (LRange_any (listKey u) 0
              (wrap64 (pageLimit (Query r "limit") - 1)) st)
    as (ranged & st1 & -> & Hd1).
  destruct ranged as [ids|e]; [|exact Hd1].
  unfold bind.
  pose proof (fetchRecords_data u ids [] st1) as Hf.
  destruct (fetchRecords u ids [] st1) as [records st2].
  cbn [snd ret] in *. congruence.
Qed.

(** ** The create handler on a store that answers *)

Lemma wf_list_key (d : gmap string entry) (u : string) :
  store_wf d -> noColon u = true -> docAt d (listKey u) = None.
Proof.
  intros Hwf Hu. unfold docAt.
  destruct (d !! listKey u) as [[[v|l] t]|] eqn:E; try reflexivity.
  exfalso. specialize (Hwf _ _ E). unfold entry_ok in Hwf. cbn [val] in Hwf.
  destruct v as [usr|rec|s|raw].
  - unfold listKey, userKey in Hwf. discriminate.
  - destruct Hwf as (Hk & Hu' & Hid & _).
    change (healthKey u "list"
            = healthKey (HealthRecord.UserID rec) (HealthRecord.ID rec)) in Hk.
    apply healthKey_inj in Hk as [_ Hk]; try assumption.
    rewrite <- Hk in Hid. discriminate.
  - destruct Hwf as (Hk & Hu' & _).
    change (healthKey u "list"
            = healthKey (HealthStats.UserID s)
                ("stats:" +:+ HealthStats.Type_ s)) in Hk.
    apply healthKey_inj in Hk as [_ Hk]; try assumption. discriminate.
  - contradiction.
Qed.

Lemma wf_index_uuids (d : gmap string entry) (u : string) :
  store_wf d -> Forall (fun id => is_uuid id = true) (indexOf d u).
Proof.
  intros Hwf. unfold indexOf.
  destruct (d !! listKey u) as [[[v|l] t]|] eqn:E; try constructor.
  exact (proj2 (Hwf _ _ E)).
Qed.

Section Create.

Variable time_Parse_RFC3339 : string -> option Time.

Lemma create_reachable (env : Env) (r : Request) (req : HealthRecordRequest.t)
    (d : gmap string entry) (u : string) :
  Method r = "POST" -> ContentLength r <= MaxRequestBodySize ->
  ctxUser r = Some u ->
  validateHealthRecordInput (inputOf req) = [] ->
  is_uuid (uuid_New env) = true ->
  docAt d (listKey u) = None ->
  createHealthRecordHandler time_Parse_RFC3339 env r (Some req) (mkRedis d [])
  = (mkResponse StatusCreated [jsonHeader]
       (JRecord (newRecord time_Parse_RFC3339 env u req)),
     mkRedis (afterCreate d u (newRecord time_Parse_RFC3339 env u req)) []).
Proof.
  intros Hmethod Hsize Huser Hvalid Hid Hlist.
  unfold createHealthRecordHandler. rewrite Hmethod, Huser.
  cbn [String.eqb Ascii.eqb Bool.eqb negb].
  within_size.
  fold (inputOf req). rewrite Hvalid.
  fold (newRecord time_Parse_RFC3339 env u req).
  set (rec := newRecord time_Parse_RFC3339 env u req).
  change (HealthRecord.ID rec) with (uuid_New env).
  unfold bind, Set_, LPush, Expire, Del, command, ret. cbn [faults data].
  rewrite lookup_insert_ne by (apply recordKey_ne_listKey; exact Hid).
  unfold afterCreate, indexOf.
  change (HealthRecord.ID rec) with (uuid_New env).
  change (HealthRecord.Type_ rec) with (HealthRecordRequest.Type_ req).
  unfold docAt in Hlist.
  destruct (d !! listKey u) as [[[v|l] t]|]; try discriminate;
    cbn [faults data]; rewrite lookup_insert_eq; cbn [faults data];
    rewrite insert_insert_eq; reflexivity.
Qed.

End Create.

Lemma afterCreate_stats_gone (d : gmap string entry) (u : string)
    (rec : HealthRecord.t) :
  afterCreate d u rec !! statsKey u (HealthRecord.Type_ rec) = None.
Proof. unfold afterCreate. apply lookup_delete_eq. Qed.

Lemma afterCreate_other_stats (d : gmap string entry) (u T' : string)
    (rec : HealthRecord.t) :
  is_uuid (HealthRecord.ID rec) = true ->
  T' <> HealthRecord.Type_ rec ->
  afterCreate d u rec !! statsKey u T' = d !! statsKey u T'.
Proof.
  intros Hid HT. unfold afterCreate.
  rewrite lookup_delete_ne by (intros H; apply statsKey_inj in H; congruence).
  rewrite lookup_insert_ne by apply listKey_ne_statsKey.
  rewrite lookup_insert_ne by (apply recordKey_ne_statsKey; exact Hid).
  reflexivity.
Qed.

Lemma afterCreate_index (d : gmap string entry) (u : string)
    (rec : HealthRecord.t) :
  indexOf (afterCreate d u rec) u = HealthRecord.ID rec :: indexOf d u.
Proof.
  unfold afterCreate. unfold indexOf at 1.
  rewrite lookup_delete_ne
    by (intros H; symmetry in H; revert H; apply listKey_ne_statsKey).
  rewrite lookup_insert_eq. reflexivity.
Qed.

Lemma afterCreate_record (d : gmap string entry) (u : string)
    (rec : HealthRecord.t) :
  is_uuid (HealthRecord.ID rec) = true ->
  recordAt (afterCreate d u rec) u (HealthRecord.ID rec) = Some rec.
Proof.
  intros Hid. unfold recordAt, docAt, afterCreate.
  rewrite lookup_delete_ne
    by (intros H; symmetry in H; revert H; apply recordKey_ne_statsKey;
        exact Hid).
  rewrite lookup_insert_ne
    by (intros H; symmetry in H; revert H; apply recordKey_ne_listKey;
        exact Hid).
  rewrite lookup_insert_eq. reflexivity.
Qed.

Lemma afterCreate_old_record (d : gmap string entry) (u id : string)
    (rec : HealthRecord.t) :
  is_uuid id = true -> id <> HealthRecord.ID rec ->
  recordAt (afterCreate d u rec) u id = recordAt d u id.
Proof.
  intros Hid Hne. unfold recordAt, docAt, afterCreate.
  rewrite lookup_delete_ne
    by (intros H; symmetry in H; revert H; apply recordKey_ne_statsKey;
        exact Hid).
  rewrite lookup_insert_ne
    by (intros H; symmetry in H; revert H; apply recordKey_ne_listKey;
        exact Hid).
  rewrite lookup_insert_ne
    by (intros H; apply recordKey_inj in H; congruence).
  reflexivity.
Qed.

Lemma recordsOf_afterCreate (d : gmap string entry) (u T : string)
    (rec : HealthRecord.t) (ids : list string) :
  Forall (fun id => is_uuid id = true) ids ->
  HealthRecord.ID rec ∉ ids ->
  recordsOf (afterCreate d u rec) u T ids = recordsOf d u T ids.
Proof.
  induction 1 as [|id ids Hid Hids IH]; intros Hfresh; [reflexivity|].
  rewrite !recordsOf_cons.
  rewrite afterCreate_old_record;
    [| exact Hid | intros ->; apply Hfresh; left].
  rewrite IH by (intros Hin; apply Hfresh; right; exact Hin).
  reflexivity.
Qed.

(** After a create, the records of the new record's type are the new one
    followed by the old ones. *)
Lemma matchingRecords_afterCreate (d : gmap string entry) (u : string)
    (rec : HealthRecord.t) :
  store_wf d -> is_uuid (HealthRecord.ID rec) = true ->
  HealthRecord.ID rec ∉ indexOf d u ->
  matchingRecords (afterCreate d u rec) u (HealthRecord.Type_ rec)
  = rec :: matchingRecords d u (HealthRecord.Type_ rec).
Proof.
  intros Hwf Hid Hfresh. unfold matchingRecords.
  rewrite afterCreate_index, recordsOf_cons, afterCreate_record by exact Hid.
  unfold hasType at 1. rewrite String.eqb_refl.
  rewrite recordsOf_afterCreate; [reflexivity | | exact Hfresh].
  apply wf_index_uuids. exact Hwf.
Qed.

(** After a create, the stats of another type of the same user read as
    before. *)
Lemma other_type_stats_unaffected (d : gmap string entry) (u T' : string)
    (rec : HealthRecord.t) :
  store_wf d -> is_uuid (HealthRecord.ID rec) = true ->
  HealthRecord.ID rec ∉ indexOf d u ->
  T' <> HealthRecord.Type_ rec ->
  fst (getHealthStatsHandler (statsRequest u T')
         (mkRedis (afterCreate d u rec) []))
  = fst (getHealthStatsHandler (statsRequest u T') (mkRedis d [])).
Proof.
  intros Hwf Hid Hfresh HT.
  destruct (String.eqb_spec T' "") as [->|HT']; [reflexivity|].
  assert (Hcache : cachedStats (afterCreate d u rec) u T' = cachedStats d u T').
  { unfold cachedStats, docAt.
    rewrite afterCreate_other_stats by assumption. reflexivity. }
  assert (Hreq : Query (statsRequest u T') "type" = T') by reflexivity.
  destruct (cachedStats d u T') as [s|] eqn:Ec.
  - rewrite !(stats_hit_reachable (statsRequest u T') _ u T' s);
      try reflexivity; assumption.
  - rewrite !(stats_miss_reachable (statsRequest u T') _ u T');
      try reflexivity; try assumption.
    assert (Hsame : matchingRecords (afterCreate d u rec) u T'
                    = matchingRecords d u T').
    { unfold matchingRecords.
      rewrite afterCreate_index, recordsOf_cons, afterCreate_record
        by exact Hid.
      unfold hasType at 1.
      destruct (String.eqb_spec (HealthRecord.Type_ rec) T') as [E|_];
        [congruence|].
      apply recordsOf_afterCreate; [|exact Hfresh].
      apply wf_index_uuids. exact Hwf. }
    unfold recomputed. rewrite Hsame.
    destruct (matchingRecords d u T'); reflexivity.
Qed.

Section Invalidation.

Variable time_Parse_RFC3339 : string -> option Time.

(** C6: on a store that answers and has the shape the handlers keep, a
    create that passes validation leaves no stats entry under the key of
    the user and the new record's type; the entry of every other type of
    that user is as it was, and so is the answer to a stats read of it; the
    next stats read of the new record's type is a miss computed over the
    new record and the records that were there: it counts one record more
    than there were, its minimum and maximum are among the new value and
    the old ones, its last record is not before the new one; and it caches
    that result. *)
Theorem create_invalidates_stats_of_its_type (env : Env) (r : Request)
    (req : HealthRecordRequest.t) (st : Redis) (u : string) :
  Method r = "POST" -> ContentLength r <= MaxRequestBodySize ->
  ctxUser r = Some u ->
  validateHealthRecordInput (inputOf req) = [] ->
  faults st = [] -> store_wf (data st) -> noColon u = true ->
  is_uuid (uuid_New env) = true -> uuid_New env ∉ indexOf (data st) u ->
  let T := HealthRecordRequest.Type_ req in
  let rec := newRecord time_Parse_RFC3339 env u req in
  exists st1,
    createHealthRecordHandler time_Parse_RFC3339 env r (Some req) st
    = (mkResponse 201 [jsonHeader] (JRecord rec), st1)
    /\ data st1 !! statsKey u T = None
    /\ (forall T', T' <> T ->
          data st1 !! statsKey u T' = data st !! statsKey u T'
          /\ fst (getHealthStatsHandler (statsRequest u T') st1)
             = fst (getHealthStatsHandler (statsRequest u T') st))
    /\ exists st2,
         getHealthStatsHandler (statsRequest u T) st1
         = (statsResponse "MISS"
              (statsOf u T (rec :: matchingRecords (data st) u T)), st2)
         /\ cachedStats (data st2) u T
            = Some (statsOf u T (rec :: matchingRecords (data st) u T))
         /\ exists stats,
              Payload (fst (getHealthStatsHandler (statsRequest u T) st1))
              = JStats stats
              /\ HealthStats.UserID stats = u
              /\ HealthStats.Type_ stats = T
              /\ HealthStats.Count stats
                 = 1 + Z.of_nat (length (matchingRecords (data st) u T))
              /\ HealthStats.Min stats
                 ∈ HealthRecordRequest.Value req
                   :: map HealthRecord.Value (matchingRecords (data st) u T)
              /\ HealthStats.Max stats
                 ∈ HealthRecordRequest.Value req
                   :: map HealthRecord.Value (matchingRecords (data st) u T)
              /\ HealthRecord.RecordedAt rec <= HealthStats.LastRecord stats.
Proof.
  intros Hmethod Hsize Huser Hvalid Hf Hwf Hu Hid Hfresh T rec.
  destruct st as [d f]. cbn [data faults] in *. subst f.
  assert (HT : T <> "").
  { apply validation_passed in Hvalid as (Hty & _). cbn in Hty.
    intros E. subst T. rewrite E in Hty. discriminate. }
  exists (mkRedis (afterCreate d u rec) []). split.
  { apply create_reachable; try assumption. apply wf_list_key; assumption. }
  assert (HrT : HealthRecord.Type_ rec = T) by reflexivity.
  assert (HrI : HealthRecord.ID rec = uuid_New env) by reflexivity.
  assert (HrV : HealthRecord.Value rec = HealthRecordRequest.Value req)
    by reflexivity.
  clearbody rec T. subst T. rewrite <- HrI in Hid, Hfresh. rewrite <- HrV.
  cbn [data].
  split; [apply afterCreate_stats_gone|].
  split.
  { intros T' HT'. split.
    - apply afterCreate_other_stats; assumption.
    - apply other_type_stats_unaffected; assumption. }
  assert (Hrun :
    getHealthStatsHandler (statsRequest u (HealthRecord.Type_ rec))
      (mkRedis (afterCreate d u rec) [])
    = (statsResponse "MISS"
         (statsOf u (HealthRecord.Type_ rec)
            (rec :: matchingRecords d u (HealthRecord.Type_ rec))),
       mkRedis
         (<[statsKey u (HealthRecord.Type_ rec) :=
              cacheEntry
                (statsOf u (HealthRecord.Type_ rec)
                   (rec :: matchingRecords d u (HealthRecord.Type_ rec)))]>
            (afterCreate d u rec)) [])).
  { rewrite (stats_miss_reachable
               (statsRequest u (HealthRecord.Type_ rec)) _ u
               (HealthRecord.Type_ rec));
      try reflexivity; try assumption.
    + unfold recomputed.
      rewrite matchingRecords_afterCreate by assumption. reflexivity.
    + unfold cachedStats, docAt.
      rewrite afterCreate_stats_gone. reflexivity. }
  eexists. split; [exact Hrun|].
  split; [cbn [data]; apply cachedStats_insert|].
  rewrite Hrun. cbn [fst Payload statsResponse].
  eexists. split; [reflexivity|].
  unfold statsOf, computeStats.
  cbn [HealthStats.UserID HealthStats.Type_ HealthStats.Count HealthStats.Min
       HealthStats.Max HealthStats.LastRecord].
  split; [reflexivity|]. split; [reflexivity|].
  split; [rewrite length_map; cbn [length]; lia|].
  split; [apply (calculateMin_member (_ :: _)); discriminate|].
  split; [apply (calculateMax_member (_ :: _)); discriminate|].
  unfold latest.
  pose proof (fold_later_bounds
                (rec :: matchingRecords d u (HealthRecord.Type_ rec))
                zeroTime) as [_ Hall].
  inversion Hall; subst. assumption.
Qed.

End Invalidation.

(** ** Concrete stores are of the shape the handlers keep *)

Lemma threeHeartRates_wf : store_wf (data threeHeartRates).
Proof.
  unfold threeHeartRates. cbv zeta beta.
  repeat (apply create_keeps_wf with (u := "alice"); try reflexivity).
  apply store_wf_empty.
Qed.

Lemma cachedHeartRates_wf : store_wf (data cachedHeartRates).
Proof.
  unfold cachedHeartRates.
  apply stats_keeps_wf with (u := "alice"); try reflexivity.
  apply threeHeartRates_wf.
Qed.

Lemma fresh_in_cachedHeartRates :
  uuid_New fourthEnv ∉ indexOf (data cachedHeartRates) "alice".
Proof.
  vm_compute. intros H.
  repeat (apply elem_of_cons in H as [H|H]; [discriminate|]).
  inversion H.
Qed.

Lemma create_invalidates_stats_of_its_type_witness :
  let rec := newRecord exampleParse fourthEnv "alice" (heartRate 90) in
  exists st1,
    createHealthRecordHandler exampleParse fourthEnv (postRequest "alice")
      (Some (heartRate 90)) cachedHeartRates
    = (mkResponse 201 [jsonHeader] (JRecord rec), st1)
    /\ data st1 !! statsKey "alice" "heart_rate" = None
    /\ (forall T', T' <> "heart_rate" ->
          data st1 !! statsKey "alice" T'
          = data cachedHeartRates !! statsKey "alice" T'
          /\ fst (getHealthStatsHandler (statsRequest "alice" T') st1)
             = fst (getHealthStatsHandler (statsRequest "alice" T')
                      cachedHeartRates))
    /\ exists st2,
         getHealthStatsHandler (statsRequest "alice" "heart_rate") st1
         = (statsResponse "MISS"
              (statsOf "alice" "heart_rate"
                 (rec :: matchingRecords (data cachedHeartRates) "alice"
                           "heart_rate")), st2)
         /\ cachedStats (data st2) "alice" "heart_rate"
            = Some (statsOf "alice" "heart_rate"
                      (rec :: matchingRecords (data cachedHeartRates) "alice"
                                "heart_rate"))
         /\ exists stats,
              Payload (fst (getHealthStatsHandler
                              (statsRequest "alice" "heart_rate") st1))
              = JStats stats
              /\ HealthStats.UserID stats = "alice"
              /\ HealthStats.Type_ stats = "heart_rate"
              /\ HealthStats.Count stats
                 = 1 + Z.of_nat (length (matchingRecords
                                           (data cachedHeartRates) "alice"
                                           "heart_rate"))
              /\ HealthStats.Min stats
                 ∈ 90%float
                   :: map HealthRecord.Value
                        (matchingRecords (data cachedHeartRates) "alice"
                           "heart_rate")
              /\ HealthStats.Max stats
                 ∈ 90%float
                   :: map HealthRecord.Value
                        (matchingRecords (data cachedHeartRates) "alice"
                           "heart_rate")
              /\ HealthRecord.RecordedAt rec <= HealthStats.LastRecord stats.
Proof.
  apply (create_invalidates_stats_of_its_type exampleParse fourthEnv
           (postRequest "alice") (heartRate 90) cachedHeartRates "alice");
    try reflexivity.
  - discriminate.
  - apply cachedHeartRates_wf.
  - apply fresh_in_cachedHeartRates.
Defined.

Lemma stats_of_unknown_type_witness :
  Status (fst (getHealthStatsHandler (statsRequest "alice" "steps")
                 cachedHeartRates)) = 200
  /\ fst (getHealthStatsHandler (statsRequest "alice" "steps")
            cachedHeartRates)
     = statsResponse "MISS" HealthStats.zero
  /\ HealthStats.Count HealthStats.zero = 0
  /\ data (snd (getHealthStatsHandler (statsRequest "alice" "steps")
                  cachedHeartRates))
     = data cachedHeartRates.
Proof.
  destruct (stats_of_unknown_type (statsRequest "alice" "steps")
              cachedHeartRates "alice" "steps") as [H200 Hzero];
    try reflexivity; [discriminate|].
  split; [exact H200|].
  apply Hzero; [reflexivity | apply cachedHeartRates_wf].
Defined.

(** ** A timestamp that does not parse *)

Section RecordedAt.

Variable time_Parse_RFC3339 : string -> option Time.

(** C9: a create request that passes validation and whose [recorded_at] is
    a non-empty string that does not parse is not refused: on a store that
    answers, the response is 201 with a record whose [RecordedAt] is the
    server's clock reading, and that record is what is stored under the
    record key. *)
Theorem create_with_unparsable_recorded_at (env : Env) (r : Request)
    (req : HealthRecordRequest.t) (st : Redis) (u : string) :
  Method r = "POST" -> ContentLength r <= MaxRequestBodySize ->
  ctxUser r = Some u ->
  validateHealthRecordInput (inputOf req) = [] ->
  HealthRecordRequest.RecordedAt req <> "" ->
  time_Parse_RFC3339 (HealthRecordRequest.RecordedAt req) = None ->
  faults st = [] -> is_uuid (uuid_New env) = true ->
  let record :=
    HealthRecord.mk (uuid_New env) u (HealthRecordRequest.Type_ req)
      (HealthRecordRequest.Value req) (HealthRecordRequest.Unit req)
      (HealthRecordRequest.Notes req) (time_Now env) (time_Now' env) in
  exists st',
    createHealthRecordHandler time_Parse_RFC3339 env r (Some req) st
    = (mkResponse 201 [jsonHeader] (JRecord record), st')
    /\ data st' !! recordKey u (uuid_New env)
       = Some (Entry (RString (marshalRecord record)) (Some recordTTL)).
Proof.
  intros Hmethod Hsize Huser Hvalid Hne Hparse Hf Hid record.
  destruct st as [d f]. cbn [data faults] in *. subst f.
  assert (Hrec : newRecord time_Parse_RFC3339 env u req = record).
  { unfold newRecord, record. rewrite Hparse.
    destruct (String.eqb_spec (HealthRecordRequest.RecordedAt req) "");
      [contradiction|reflexivity]. }
  unfold createHealthRecordHandler. rewrite Hmethod, Huser.
  cbn [String.eqb Ascii.eqb Bool.eqb negb].
  within_size.
  fold (inputOf req). rewrite Hvalid.
  fold (newRecord time_Parse_RFC3339 env u req). rewrite Hrec.
  change (HealthRecord.ID record) with (uuid_New env).
  unfold bind, Set_, LPush, Expire, Del, command, ret. cbn [faults data].
  rewrite lookup_insert_ne by (apply recordKey_ne_listKey; exact Hid).
  assert (Hkeep : forall (m : gmap string entry) e,
    delete (statsKey u (HealthRecordRequest.Type_ req))
      (<[listKey u := e]> m) !! recordKey u (uuid_New env)
    = m !! recordKey u (uuid_New env)).
  { intros m e.
    rewrite lookup_delete_ne
      by (intros H; symmetry in H; revert H; apply recordKey_ne_statsKey;
          exact Hid).
    apply lookup_insert_ne. intros H; symmetry in H; revert H.
    apply recordKey_ne_listKey; exact Hid. }
  destruct (d !! listKey u) as [[[v|l] t]|] eqn:El; cbn [faults data].
  - rewrite lookup_insert_ne by (apply recordKey_ne_listKey; exact Hid).
    rewrite El. cbn [faults data]. eexists; split; [reflexivity|].
    cbn [data]. rewrite Hkeep. apply lookup_insert_eq.
  - rewrite lookup_insert_eq. cbn [faults data].
    eexists; split; [reflexivity|]. cbn [data].
    rewrite Hkeep, lookup_insert_ne, lookup_insert_eq; [reflexivity|].
    apply not_eq_sym, recordKey_ne_listKey; exact Hid.
  - rewrite lookup_insert_eq. cbn [faults data].
    eexists; split; [reflexivity|]. cbn [data].
    rewrite Hkeep, lookup_insert_ne, lookup_insert_eq; [reflexivity|].
    apply not_eq_sym, recordKey_ne_listKey; exact Hid.
Qed.

End RecordedAt.

Lemma create_with_unparsable_recorded_at_witness :
  let record :=
    HealthRecord.mk (uuidOfNat 3) "alice" "weight" 70.5 "kg" "" 1761213700
      1761213701 in
  exists st',
    createHealthRecordHandler exampleParse fourthEnv (postRequest "alice")
      (Some (HealthRecordRequest.mk "weight" 70.5 "kg" "" "yesterday"))
      threeHeartRates
    = (mkResponse 201 [jsonHeader] (JRecord record), st')
    /\ data st' !! recordKey "alice" (uuidOfNat 3)
       = Some (Entry (RString (marshalRecord record)) (Some recordTTL)).
Proof.
  apply (create_with_unparsable_recorded_at exampleParse fourthEnv
           (postRequest "alice")
           (HealthRecordRequest.mk "weight" 70.5 "kg" "" "yesterday")
           threeHeartRates "alice"); try reflexivity; discriminate.
Defined.

(** ** What a command can change *)

Lemma command_frame {A}
    (run : gmap string entry -> result A * gmap string entry)
    (key k : string) (st : Redis) :
  (forall d, snd (run d) !! k = d !! k) ->
  data (snd (command run st)) !! k = data st !! k.
Proof.
  intros Hrun.
  destruct (command_cases run st) as [(detail & _ & ->) | [_ ->]];
    [reflexivity | apply Hrun].
Qed.

Lemma Set_frame (key k : string) (v : doc) (expiry : Z) (st : Redis) :
  k <> key -> data (snd (Set_ key v expiry st)) !! k = data st !! k.
Proof.
  intros Hk. unfold Set_. apply (command_frame _ key). intros d. cbn.
  apply lookup_insert_ne. congruence.
Qed.

Lemma Del_frame (key k : string) (st : Redis) :
  k <> key -> data (snd (Del key st)) !! k = data st !! k.
Proof.
  intros Hk. unfold Del. apply (command_frame _ key). intros d. cbn.
  apply lookup_delete_ne. congruence.
Qed.

Lemma LPush_frame (key item k : string) (st : Redis) :
  k <> key -> data (snd (LPush key item st)) !! k = data st !! k.
Proof.
  intros Hk. unfold LPush. apply (command_frame _ key). intros d.
  destruct (d !! key) as [[[v|l] t]|]; cbn; try reflexivity;
    apply lookup_insert_ne; congruence.
Qed.

Lemma Expire_frame (key k : string) (expiry : Z) (st : Redis) :
  k <> key -> data (snd (Expire key expiry st)) !! k = data st !! k.
Proof.
  intros Hk. unfold Expire. apply (command_frame _ key). intros d.
  destruct (d !! key) as [[v t]|]; cbn; try reflexivity;
    apply lookup_insert_ne; congruence.
Qed.

Lemma LRem1_frame (key item k : string) (st : Redis) :
  k <> key -> data (snd (LRem1 key item st)) !! k = data st !! k.
Proof.
  intros Hk. unfold LRem1. apply (command_frame _ key). intros d.
  destruct (d !! key) as [[[v|l] t]|]; cbn; try reflexivity.
  destruct (remove_first item l); cbn;
    [apply lookup_delete_ne | apply lookup_insert_ne]; congruence.
Qed.

(** ** A store that does not answer *)

(** The stats handler whose cache lookup fails, against a store that
    answers afterwards: the stats are computed over the index, whatever the
    cache held. *)
Lemma stats_lookup_failure_recomputes (r : Request) (d : gmap string entry)
    (u T detail : string) :
  Method r = "GET" -> ctxUser r = Some u -> Query r "type" = T -> T <> "" ->
  getHealthStatsHandler r (mkRedis d [Some detail]) = recomputed d u T.
Proof.
  intros Hmethod Huser Htype HT.
  unfold getHealthStatsHandler. rewrite Hmethod, Huser, Htype.
  cbn [String.eqb Ascii.eqb Bool.eqb negb].
  destruct (String.eqb_spec T ""); [contradiction|].
  unfold bind at 1. unfold Get at 1, command at 1. cbn [faults data].
  unfold bind at 1.
  destruct (LRange_all_reachable d u) as (ranged & -> & Hids).
  rewrite Hids. unfold bind at 1.
  rewrite scanRecords_reachable. cbn [app].
  fold (matchingRecords d u T). unfold recomputed.
  destruct (matchingRecords d u T) as [|r0 rs]; reflexivity.
Qed.

(** The list handler against a store whose index read fails. *)
Lemma list_read_failure_is_empty_200 (r : Request) (d : gmap string entry)
    (u detail : string) (rest : list (option string)) :
  Method r = "GET" -> ctxUser r = Some u ->
  getHealthRecordsHandler r (mkRedis d (Some detail :: rest))
  = (mkResponse StatusOK [jsonHeader] (JRecords []), mkRedis d rest).
Proof.
  intros Hmethod Huser. unfold getHealthRecordsHandler.
  rewrite Hmethod, Huser. reflexivity.
Qed.

(** C8, as stated, fails on the list path: with the store unreachable the
    response is 200 with an empty list, not a 500. *)
Lemma list_with_store_unreachable_is_200 :
  getHealthRecordsHandler (listRequest "alice" "") unreachableStore
  = (mkResponse 200 [jsonHeader] (JRecords []),
     mkRedis (data threeHeartRates) [])
  /\ ~ (500 <= Status (fst (getHealthRecordsHandler (listRequest "alice" "")
                              unreachableStore)) < 600).
Proof.
  unfold unreachableStore.
  rewrite (list_read_failure_is_empty_200 (listRequest "alice" "") _ "alice")
    by reflexivity.
  split; [reflexivity|]. cbn [fst Status]. unfold StatusOK. lia.
Qed.

(** What LRANGE 0 -1 hands out under any fault schedule: the index, or
    nothing. *)
Lemma LRange_all_any (u : string) (st : Redis) :
  exists ranged st',
    LRange (listKey u) 0 (-1) st = (ranged, st') /\ data st' = data st
    /\ (match ranged with Ok ids => ids | Err _ => [] end
        = indexOf (data st) u
        \/ match ranged with Ok ids => ids | Err _ => [] end = []).
Proof.
  unfold LRange, command, indexOf.
  destruct (faults st) as [|[detail|] rest];
    destruct (data st !! listKey u) as [[[v|l] t]|];
    do 2 eexists; (split; [reflexivity|]); (split; [reflexivity|]);
    cbn [data]; rewrite ?lrange_all; auto.
Qed.

(** The stats loop under any fault schedule: the records it takes are some
    of the matching ones, in their order; a read that fails skips one. *)
Lemma scanRecords_some (d : gmap string entry) (u T : string) :
  forall (ids : list string) (values : list float) (last : Time) (st : Redis),
    data st = d ->
    exists (rs : list HealthRecord.t) (st' : Redis),
      sublist rs (recordsOf d u T ids)
      /\ scanRecords u T ids values last st
         = (((values ++ map HealthRecord.Value rs)%list,
             fold_left later rs last), st')
      /\ data st' = d.
Proof.
  induction ids as [|id ids IH]; intros values last st Hd.
  - exists [], st. cbn. rewrite app_nil_r. repeat split; [constructor|exact Hd].
  - cbn [scanRecords]. unfold bind at 1. rewrite recordsOf_cons.
    destruct (Get_any (recordKey u id) st) as (got & st1 & -> & Hd1 & Hgot).
    rewrite Hd in Hd1, Hgot.
    assert (Hskip : forall (rest : list HealthRecord.t),
              (rest = recordsOf d u T ids
               \/ exists r0, rest = r0 :: recordsOf d u T ids) ->
              exists (rs : list HealthRecord.t) (st' : Redis),
                sublist rs rest
                /\ scanRecords u T ids values last st1
                   = (((values ++ map HealthRecord.Value rs)%list,
                       fold_left later rs last), st')
                /\ data st' = d).
    { intros rest Hrest.
      destruct (IH values last st1 Hd1) as (rs & st' & Hsub & Hrun & Hd').
      exists rs, st'. repeat split; try assumption.
      destruct Hrest as [-> | (r0 & ->)];
        [exact Hsub | apply sublist_cons, Hsub]. }
    destruct got as [v|e].
    + specialize (Hgot v eq_refl). unfold recordAt at 1. rewrite Hgot.
      destruct (unmarshalRecord v) as [rec|] eqn:Eu; [|apply Hskip; auto].
      unfold hasType at 1.
      destruct (String.eqb (HealthRecord.Type_ rec) T) eqn:Et;
        [|apply Hskip; auto].
      destruct (IH (values ++ [HealthRecord.Value rec])%list
                  (if After (HealthRecord.RecordedAt rec) last
                   then HealthRecord.RecordedAt rec else last) st1 Hd1)
        as (rs & st' & Hsub & Hrun & Hd').
      exists (rec :: rs), st'. split; [apply sublist_skip, Hsub|].
      split; [|exact Hd'].
      rewrite Hrun. cbn [map fold_left]. rewrite <- app_assoc. reflexivity.
    + destruct (recordAt d u id) as [rec|]; [|apply Hskip; auto].
      destruct (hasType T rec); apply Hskip; eauto.
Qed.

(** The stats handler whose cache lookup fails, whatever the store does
    afterwards: the answer is a 200 miss over some of the matching
    records, all of them skipped included, and only the stats key can have
    been written. *)
Lemma stats_lookup_failure_any (r : Request) (d : gmap string entry)
    (u T detail : string) (rest : list (option string)) :
  Method r = "GET" -> ctxUser r = Some u -> Query r "type" = T -> T <> "" ->
  exists (rs : list HealthRecord.t) (st' : Redis),
    sublist rs (matchingRecords d u T)
    /\ getHealthStatsHandler r (mkRedis d (Some detail :: rest))
       = (statsResponse "MISS"
            match rs with
            | [] => HealthStats.zero
            | _ => statsOf u T rs
            end, st')
    /\ forall k, k <> statsKey u T -> data st' !! k = d !! k.
Proof.
  intros Hmethod Huser Htype HT.
  unfold getHealthStatsHandler. rewrite Hmethod, Huser, Htype.
  cbn [String.eqb Ascii.eqb Bool.eqb negb].
  destruct (String.eqb_spec T ""); [contradiction|].
  unfold bind at 1. unfold Get at 1, command at 1. cbn [faults data].
  unfold bind at 1.
  destruct (LRange_all_any u (mkRedis d rest))
    as (ranged & st2 & -> & Hd2 & Hids).
  cbn [data] in Hd2, Hids. unfold bind at 1.
  destruct (scanRecords_some d u T
              match ranged with Ok ids => ids | Err _ => [] end [] zeroTime
              st2 Hd2) as (rs & st3 & Hsub & -> & Hd3).
  cbn [app].
  assert (Hsub' : sublist rs (matchingRecords d u T)).
  { unfold matchingRecords. destruct Hids as [<- | E]; [exact Hsub|].
    rewrite E in Hsub. cbn in Hsub. apply sublist_nil_r in Hsub. subst rs.
    apply sublist_nil_l. }
  exists rs. destruct rs as [|r0 rs].
  - exists st3. cbn [map]. split; [exact Hsub'|]. split; [reflexivity|].
    intros k _. cbn [snd]. rewrite Hd3. reflexivity.
  - cbn [map]. unfold bind.
    pose proof (fun k Hk =>
                  Set_frame (statsKey u T) k
                    (marshalStats
                       (computeStats u T
                          (HealthRecord.Value r0
                           :: map HealthRecord.Value rs)
                          (fold_left later (r0 :: rs) zeroTime)))
                    (1 * Hour) st3 Hk) as Hframe.
    destruct (Set_ _ _ _ st3) as [stored st4]. cbn [snd] in Hframe.
    exists st4. split; [exact Hsub'|]. split; [reflexivity|].
    intros k Hk. rewrite Hframe by exact Hk. rewrite Hd3. reflexivity.
Qed.

(** The stats handler whose cache lookup and index read both fail. *)
Lemma stats_store_down_is_zero_200 (r : Request) (d : gmap string entry)
    (u T detail detail' : string) (rest : list (option string)) :
  Method r = "GET" -> ctxUser r = Some u -> Query r "type" = T -> T <> "" ->
  getHealthStatsHandler r (mkRedis d (Some detail :: Some detail' :: rest))
  = (statsResponse "MISS" HealthStats.zero, mkRedis d rest).
Proof.
  intros Hmethod Huser Htype HT.
  unfold getHealthStatsHandler. rewrite Hmethod, Huser, Htype.
  cbn [String.eqb Ascii.eqb Bool.eqb negb].
  destruct (String.eqb_spec T ""); [contradiction|].
  reflexivity.
Qed.

Section StoreFailure.

Variable time_Parse_RFC3339 : string -> option Time.

(** C8, amended: when the record write of a create or the record delete of
    a delete fails, the response is 500 with a fixed message, the same for
    every error text, and the data is untouched.  The read paths answer
    200.  A failed index read of the list handler is answered with an
    empty list.  A failed cache lookup of the stats handler is taken for a
    miss, whatever the store does afterwards: the answer is a 200 miss
    with the stats of those matching records that could be read, the zero
    object when none could, and nothing but the stats key is written; it
    is the stats of all matching records, cached, when the store answers
    again, and the zero object with nothing written when the index read
    fails as well. *)
Theorem store_failure_responses (env : Env) (d : gmap string entry)
    (detail : string) (rest : list (option string)) (u : string)
    (rCreate rDelete rStats rList : Request) (req : HealthRecordRequest.t) :
  Method rCreate = "POST" -> ContentLength rCreate <= MaxRequestBodySize ->
  ctxUser rCreate = Some u ->
  validateHealthRecordInput (inputOf req) = [] ->
  Method rDelete = "DELETE" -> ctxUser rDelete = Some u ->
  Query rDelete "id" <> "" ->
  Method rStats = "GET" -> ctxUser rStats = Some u ->
  Query rStats "type" <> "" ->
  Method rList = "GET" -> ctxUser rList = Some u ->
  createHealthRecordHandler time_Parse_RFC3339 env rCreate (Some req)
    (mkRedis d (Some detail :: rest))
  = (jsonError 500 "Failed to create record", mkRedis d rest)
  /\ deleteHealthRecordHandler rDelete (mkRedis d (Some detail :: rest))
     = (jsonError 500 "Failed to delete record", mkRedis d rest)
  /\ getHealthRecordsHandler rList (mkRedis d (Some detail :: rest))
     = (mkResponse 200 [jsonHeader] (JRecords []), mkRedis d rest)
  /\ (exists (rs : list HealthRecord.t) (st' : Redis),
        sublist rs (matchingRecords d u (Query rStats "type"))
        /\ getHealthStatsHandler rStats (mkRedis d (Some detail :: rest))
           = (mkResponse 200 [jsonHeader; ("X-Cache", "MISS")]
                (JStats match rs with
                        | [] => HealthStats.zero
                        | _ => statsOf u (Query rStats "type") rs
                        end), st')
        /\ forall k, k <> statsKey u (Query rStats "type") ->
                     data st' !! k = d !! k)
  /\ getHealthStatsHandler rStats (mkRedis d [Some detail])
     = recomputed d u (Query rStats "type")
  /\ (forall detail' rest',
        getHealthStatsHandler rStats
          (mkRedis d (Some detail :: Some detail' :: rest'))
        = (mkResponse 200 [jsonHeader; ("X-Cache", "MISS")]
             (JStats HealthStats.zero), mkRedis d rest')).
Proof.
  intros HmC HsC HuC Hvalid HmD HuD HidD HmS HuS HtS HmL HuL.
  split; [|split; [|split; [|split; [|split]]]].
  - unfold createHealthRecordHandler. rewrite HmC, HuC.
    cbn [String.eqb Ascii.eqb Bool.eqb negb].
    within_size.
    fold (inputOf req). rewrite Hvalid. reflexivity.
  - unfold deleteHealthRecordHandler. rewrite HmD, HuD.
    cbn [String.eqb Ascii.eqb Bool.eqb negb].
    destruct (String.eqb_spec (Query rDelete "id") ""); [contradiction|].
    reflexivity.
  - apply list_read_failure_is_empty_200 with (u := u); assumption.
  - apply stats_lookup_failure_any; auto.
  - apply stats_lookup_failure_recomputes; auto.
  - intros detail' rest'.
    apply (stats_store_down_is_zero_200 rStats d u (Query rStats "type"));
      auto.
Qed.

End StoreFailure.

Lemma store_failure_responses_witness :
  createHealthRecordHandler exampleParse fourthEnv (postRequest "alice")
    (Some (heartRate 90)) stillUnreachable
  = (jsonError 500 "Failed to create record",
     mkRedis (data threeHeartRates) [Some connectionRefused])
  /\ deleteHealthRecordHandler (deleteRequest "alice" (uuidOfNat 0))
       stillUnreachable
     = (jsonError 500 "Failed to delete record",
        mkRedis (data threeHeartRates) [Some connectionRefused])
  /\ getHealthRecordsHandler (listRequest "alice" "") stillUnreachable
     = (mkResponse 200 [jsonHeader] (JRecords []),
        mkRedis (data threeHeartRates) [Some connectionRefused])
  /\ (exists (rs : list HealthRecord.t) (st' : Redis),
        sublist rs (matchingRecords (data threeHeartRates) "alice"
                      "heart_rate")
        /\ getHealthStatsHandler (statsRequest "alice" "heart_rate")
             stillUnreachable
           = (mkResponse 200 [jsonHeader; ("X-Cache", "MISS")]
                (JStats match rs with
                        | [] => HealthStats.zero
                        | _ => statsOf "alice" "heart_rate" rs
                        end), st')
        /\ forall k, k <> statsKey "alice" "heart_rate" ->
                     data st' !! k = data threeHeartRates !! k)
  /\ getHealthStatsHandler (statsRequest "alice" "heart_rate")
       unreachableStore
     = recomputed (data threeHeartRates) "alice" "heart_rate"
  /\ (forall detail' rest',
        getHealthStatsHandler (statsRequest "alice" "heart_rate")
          (mkRedis (data threeHeartRates)
             (Some connectionRefused :: Some detail' :: rest'))
        = (mkResponse 200 [jsonHeader; ("X-Cache", "MISS")]
             (JStats HealthStats.zero),
           mkRedis (data threeHeartRates) rest')).
Proof.
  apply (store_failure_responses exampleParse fourthEnv (data threeHeartRates)
           connectionRefused [Some connectionRefused] "alice"
           (postRequest "alice") (deleteRequest "alice" (uuidOfNat 0))
           (statsRequest "alice" "heart_rate") (listRequest "alice" "")
           (heartRate 90)); try reflexivity; discriminate.
Defined.

(** * Further properties of the handlers *)

(** ** The page of the record list *)

Lemma lrange_take (l : list string) (stop : Z) :
  0 <= stop -> lrange l 0 stop = take (Z.to_nat (stop + 1)) l.
Proof.
  intros Hstop. unfold lrange. cbn [Z.ltb Z.compare].
  destruct (stop <? 0) eqn:E; [apply Z.ltb_lt in E; lia|].
  cbv beta iota zeta. rewrite E. cbn [orb].
  destruct (Z.of_nat (length l) <=? 0) eqn:E0.
  - apply Z.leb_le in E0. destruct l; [|cbn [length] in E0; lia].
    rewrite take_nil. reflexivity.
  - change (Z.to_nat 0) with 0%nat. rewrite drop_0.
    destruct (Z.of_nat (length l) <=? stop) eqn:E1.
    + apply Z.leb_le in E1.
      rewrite !take_ge by lia. reflexivity.
    + f_equal. lia.
Qed.

Lemma LRange_reachable (d : gmap string entry) (u : string) (start stop : Z) :
  docAt d (listKey u) = None ->
  LRange (listKey u) start stop (mkRedis d [])
  = (Ok (lrange (indexOf d u) start stop), mkRedis d []).
Proof.
  unfold LRange, command, indexOf, docAt; cbn.
  destruct (d !! listKey u) as [[[v|l] t]|]; intros H; try discriminate;
    try reflexivity.
  unfold lrange. cbn [length Z.of_nat].
  destruct (start <? 0), (stop <? 0); cbn;
    repeat match goal with
           | |- context [if ?b then _ else _] => destruct b
           end; try reflexivity; rewrite ?drop_nil, ?take_nil; reflexivity.
Qed.

(** The list handler on a store that answers, for a limit of at least
    1. *)
Lemma list_page_reachable (r : Request) (d : gmap string entry) (u : string) :
  Method r = "GET" -> ctxUser r = Some u ->
  docAt d (listKey u) = None ->
  1 <= pageLimit (Query r "limit") ->
  getHealthRecordsHandler r (mkRedis d [])
  = (mkResponse StatusOK
       [jsonHeader;
        ("X-Total-Count",
         pretty (Z.of_nat (length
           (omap (recordAt d u)
              (take (Z.to_nat (pageLimit (Query r "limit")))
                 (indexOf d u))))))]
       (JRecords
          (omap (recordAt d u)
             (take (Z.to_nat (pageLimit (Query r "limit"))) (indexOf d u)))),
     mkRedis d []).
Proof.
  intros Hmethod Huser Hlist Hpos.
  unfold getHealthRecordsHandler. rewrite Hmethod, Huser.
  cbn [String.eqb Ascii.eqb Bool.eqb negb].
  pose proof (pageLimit_le_100 (Query r "limit")) as Hle.
  rewrite wrap64_small by (unfold minInt64, maxInt64; lia).
  unfold bind at 1. rewrite (LRange_reachable d u) by exact Hlist.
  unfold bind. rewrite fetchRecords_reachable.
  rewrite lrange_take by lia.
  replace (pageLimit (Query r "limit") - 1 + 1)
    with (pageLimit (Query r "limit")) by lia.
  reflexivity.
Qed.

(** X1: with a limit of at least 1, on a store that answers, the list
    handler returns the records behind the first [limit] identifiers of the
    index, newest first, identifiers without a record skipped; the
    [X-Total-Count] header is the size of that page, and the store is left
    as it was. *)
Theorem list_returns_the_head_of_the_index (r : Request) (st : Redis)
    (u : string) :
  Method r = "GET" -> ctxUser r = Some u -> faults st = [] ->
  docAt (data st) (listKey u) = None ->
  1 <= pageLimit (Query r "limit") ->
  let page :=
    omap (recordAt (data st) u)
      (take (Z.to_nat (pageLimit (Query r "limit"))) (indexOf (data st) u)) in
  getHealthRecordsHandler r st
  = (mkResponse 200
       [jsonHeader; ("X-Total-Count", pretty (Z.of_nat (length page)))]
       (JRecords page), st).
Proof.
  intros Hmethod Huser Hfaults Hlist Hpos page.
  destruct st as [d f]; cbn [data faults] in *; subst f.
  apply list_page_reachable; assumption.
Qed.

Lemma list_returns_the_head_of_the_index_witness :
  getHealthRecordsHandler (listRequest "alice" "2") threeHeartRates
  = (mkResponse 200 [jsonHeader; ("X-Total-Count", "2")]
       (JRecords
          [HealthRecord.mk (uuidOfNat 2) "alice" "heart_rate" 85.5 "bpm" ""
             1761213602 1761213603;
           HealthRecord.mk (uuidOfNat 1) "alice" "heart_rate" 72 "bpm" ""
             1761213601 1761213602]), threeHeartRates).
Proof.
  exact (list_returns_the_head_of_the_index (listRequest "alice" "2")
           threeHeartRates "alice" eq_refl eq_refl eq_refl eq_refl
           ltac:(vm_compute; discriminate)).
Defined.

(** ** Whose records the list handler returns *)

Lemma lrange_subseteq (l : list string) (start stop : Z) :
  lrange l start stop ⊆ l.
Proof.
  unfold lrange.
  match goal with |- (if ?b then _ else _) ⊆ _ => destruct b end;
    [apply list_subseteq_nil|].
  etransitivity; [apply subseteq_take | apply subseteq_drop].
Qed.

(** What LRANGE hands out comes from the index, whatever the store does. *)
Lemma LRange_index (u : string) (start stop : Z) (st : Redis)
    (ids : list string) :
  fst (LRange (listKey u) start stop st) = Ok ids ->
  ids ⊆ indexOf (data st) u.
Proof.
  unfold LRange, command, indexOf.
  destruct (faults st) as [|[detail|] rest];
    destruct (data st !! listKey u) as [[[v|l] t]|]; cbn;
    intros H; try discriminate; injection H as <-;
    try apply lrange_subseteq; apply list_subseteq_nil.
Qed.

(** In a well-formed store, what decodes as a record under the key of a
    user and a generated identifier is a record of that user, stored under
    its own identifier. *)
Lemma wf_record_owner (d : gmap string entry) (u id : string)
    (r : HealthRecord.t) :
  store_wf d -> noColon u = true -> is_uuid id = true ->
  recordAt d u id = Some r ->
  HealthRecord.UserID r = u /\ HealthRecord.ID r = id
  /\ validType (HealthRecord.Type_ r) = true.
Proof.
  intros Hwf Hu Hid Hrec. unfold recordAt, docAt in Hrec.
  destruct (d !! recordKey u id) as [[[v|l] t]|] eqn:E; try discriminate.
  specialize (Hwf _ _ E). unfold entry_ok in Hwf. cbn [val] in Hwf.
  destruct v as [usr|rec|s|raw]; cbn in Hrec;
    [unfold recordKey, userKey in Hwf; discriminate | | | discriminate].
  - injection Hrec as <-. destruct Hwf as (Hk & Hu' & _ & Hty).
    change (healthKey u id
            = healthKey (HealthRecord.UserID rec) (HealthRecord.ID rec)) in Hk.
    apply healthKey_inj in Hk as [-> ->]; auto.
  - destruct Hwf as (Hk & Hu' & _).
    change (healthKey u id
            = healthKey (HealthStats.UserID s)
                ("stats:" +:+ HealthStats.Type_ s)) in Hk.
    apply healthKey_inj in Hk as [_ ->]; try assumption.
    rewrite uuid_not_stats in Hid. discriminate.
Qed.

(** Every record the list loop adds was read from the store under the key
    of the user and one of the identifiers, whatever the store does. *)
Lemma fetchRecords_from_store (u : string) :
  forall (ids : list string) (acc : list HealthRecord.t) (st : Redis)
         (rec : HealthRecord.t),
    rec ∈ fst (fetchRecords u ids acc st) ->
    rec ∈ acc \/ exists id, id ∈ ids /\ recordAt (data st) u id = Some rec.
Proof.
  induction ids as [|id ids IH]; intros acc st rec Hin.
  - left. exact Hin.
  - cbn [fetchRecords] in Hin. unfold bind at 1 in Hin.
    destruct (Get_any (recordKey u id) st) as (got & st1 & Hget & Hd1 & Hgot).
    rewrite Hget in Hin.
    assert (Hrest : forall acc',
              rec ∈ fst (fetchRecords u ids acc' st1) ->
              rec ∈ acc'
              \/ exists id', id' ∈ id :: ids
                             /\ recordAt (data st) u id' = Some rec).
    { intros acc' H. apply IH in H as [H | (id' & Hid' & H)]; [auto|].
      right. exists id'. rewrite <- Hd1. split; [right|]; assumption. }
    destruct got as [v|e]; [|apply Hrest, Hin].
    specialize (Hgot v eq_refl).
    destruct (unmarshalRecord v) as [rec'|] eqn:Eu; [|apply Hrest, Hin].
    apply Hrest in Hin as [Hin | Hin]; [|auto].
    apply elem_of_app in Hin as [Hin | Hin]; [auto|].
    apply list_elem_of_singleton in Hin. subst rec'.
    right. exists id. split; [left|].
    unfold recordAt. rewrite Hgot. exact Eu.
Qed.

(** X2: in a store of the shape the handlers keep, every record the list
    handler returns to a user belongs to that user, is stored under the
    user's key for its own identifier, which the user's index holds, and
    has a type of the closed set; this on every fault schedule. *)
Theorem list_returns_only_own_records (r : Request) (st : Redis) (u : string)
    (rs : list HealthRecord.t) :
  ctxUser r = Some u -> noColon u = true -> store_wf (data st) ->
  Payload (fst (getHealthRecordsHandler r st)) = JRecords rs ->
  Forall (fun rec =>
            HealthRecord.UserID rec = u
            /\ HealthRecord.ID rec ∈ indexOf (data st) u
            /\ recordAt (data st) u (HealthRecord.ID rec) = Some rec
            /\ validType (HealthRecord.Type_ rec) = true) rs.
Proof.
  intros Huser Hu Hwf. unfold getHealthRecordsHandler.
  destruct (negb (String.eqb (Method r) "GET")); [discriminate|].
  rewrite Huser. unfold bind at 1.
  pose proof (LRange_index u 0 (wrap64 (pageLimit (Query r "limit") - 1)) st)
    as Hidx.
  destruct (LRange_any (listKey u) 0
              (wrap64 (pageLimit (Query r "limit") - 1)) st)
    as (ranged & st1 & Hrange & Hd1).
  rewrite Hrange in Hidx |- *. cbn [fst] in Hidx.
  destruct ranged as [ids|e].
  - specialize (Hidx ids eq_refl). unfold bind.
    pose proof (fetchRecords_from_store u ids [] st1) as Hfrom.
    destruct (fetchRecords u ids [] st1) as [records st2]. cbn.
    intros H. injection H as <-. apply Forall_forall. intros rec Hin.
    destruct (Hfrom rec Hin) as [Hnil | (id & Hid & Hrec)];
      [inversion Hnil|].
    rewrite Hd1 in Hrec. apply Hidx in Hid.
    pose proof (wf_index_uuids (data st) u Hwf) as Huuids.
    rewrite Forall_forall in Huuids.
    destruct (wf_record_owner (data st) u id rec Hwf Hu (Huuids id Hid) Hrec)
      as (Ho & Hi & Hty).
    rewrite Hi. auto.
  - cbn. intros H. injection H as <-. constructor.
Qed.

Lemma list_returns_only_own_records_witness :
  Forall (fun rec =>
            HealthRecord.UserID rec = "alice"
            /\ HealthRecord.ID rec ∈ indexOf (data threeHeartRates) "alice"
            /\ recordAt (data threeHeartRates) "alice" (HealthRecord.ID rec)
               = Some rec
            /\ validType (HealthRecord.Type_ rec) = true)
    [HealthRecord.mk (uuidOfNat 2) "alice" "heart_rate" 85.5 "bpm" ""
       1761213602 1761213603;
     HealthRecord.mk (uuidOfNat 1) "alice" "heart_rate" 72 "bpm" ""
       1761213601 1761213602;
     HealthRecord.mk (uuidOfNat 0) "alice" "heart_rate" 60 "bpm" ""
       1761213600 1761213601].
Proof.
  apply (list_returns_only_own_records (listRequest "alice" "")
           threeHeartRates "alice").
  - reflexivity.
  - reflexivity.
  - apply threeHeartRates_wf.
  - vm_compute. reflexivity.
Defined.

(** ** Create, then list *)

Lemma afterCreate_list_key (d : gmap string entry) (u : string)
    (rec : HealthRecord.t) :
  docAt (afterCreate d u rec) (listKey u) = None.
Proof.
  unfold docAt, afterCreate.
  rewrite lookup_delete_ne by (apply not_eq_sym, listKey_ne_statsKey).
  rewrite lookup_insert_eq. reflexivity.
Qed.

Section CreateThenList.

Variable time_Parse_RFC3339 : string -> option Time.

(** X3: after a create that went through on a store that answers, the
    list handler, asked for at least one record, returns the new record
    first. *)
Theorem created_record_heads_the_list (env : Env) (r rl : Request)
    (req : HealthRecordRequest.t) (st : Redis) (u : string) :
  Method r = "POST" -> ContentLength r <= MaxRequestBodySize ->
  ctxUser r = Some u ->
  validateHealthRecordInput (inputOf req) = [] ->
  faults st = [] -> docAt (data st) (listKey u) = None ->
  is_uuid (uuid_New env) = true ->
  Method rl = "GET" -> ctxUser rl = Some u ->
  1 <= pageLimit (Query rl "limit") ->
  let created :=
    createHealthRecordHandler time_Parse_RFC3339 env r (Some req) st in
  exists rest,
    Payload (fst created)
    = JRecord (newRecord time_Parse_RFC3339 env u req)
    /\ Payload (fst (getHealthRecordsHandler rl (snd created)))
       = JRecords (newRecord time_Parse_RFC3339 env u req :: rest).
Proof.
  intros Hmethod Hsize Huser Hvalid Hfaults Hlist Hid Hmethod' Huser' Hpos
    created.
  destruct st as [d f]; cbn [data faults] in *; subst f. subst created.
  rewrite (create_reachable time_Parse_RFC3339 env r req d u) by assumption.
  cbn [fst snd Payload].
  set (rec := newRecord time_Parse_RFC3339 env u req).
  rewrite (list_page_reachable rl (afterCreate d u rec) u)
    by (try assumption; apply afterCreate_list_key).
  cbn [fst Payload]. rewrite afterCreate_index.
  destruct (Z.to_nat (pageLimit (Query rl "limit"))) as [|n] eqn:En; [lia|].
  cbn [take]. simpl omap.
  pose proof (afterCreate_record d u rec Hid) as Hrec.
  change (HealthRecord.ID rec) with (uuid_New env) in Hrec |- *.
  rewrite Hrec. eexists. split; reflexivity.
Qed.

End CreateThenList.

Lemma created_record_heads_the_list_witness :
  exists rest,
    Payload (fst (createHealthRecordHandler exampleParse fourthEnv
                    (postRequest "alice") (Some (heartRate 90))
                    threeHeartRates))
    = JRecord (newRecord exampleParse fourthEnv "alice" (heartRate 90))
    /\ Payload (fst (getHealthRecordsHandler (listRequest "alice" "1")
                       (snd (createHealthRecordHandler exampleParse fourthEnv
                               (postRequest "alice") (Some (heartRate 90))
                               threeHeartRates))))
       = JRecords (newRecord exampleParse fourthEnv "alice" (heartRate 90)
                   :: rest).
Proof.
  apply (created_record_heads_the_list exampleParse fourthEnv
           (postRequest "alice") (listRequest "alice" "1") (heartRate 90)
           threeHeartRates "alice");
    try reflexivity; vm_compute; discriminate.
Defined.

(** ** Failures while a record is created *)

Lemma Set_failed (key : string) (v : doc) (expiry : Z) (st : Redis)
    (e : redis_error) :
  fst (Set_ key v expiry st) = Err e ->
  data (snd (Set_ key v expiry st)) = data st.
Proof.
  unfold Set_, command.
  destruct (faults st) as [|[detail|] rest]; cbn;
    intros H; try discriminate; reflexivity.
Qed.

Lemma validType_not_empty (T : string) : validType T = true -> T <> "".
Proof. intros H ->. discriminate. Qed.

Lemma Expire_index (key : string) (expiry : Z) (st : Redis) (u : string) :
  indexOf (data (snd (Expire key expiry st))) u = indexOf (data st) u.
Proof.
  destruct (decide (listKey u = key)) as [<-|Hne].
  - unfold Expire, command, indexOf.
    destruct (faults st) as [|[detail|] rest]; cbn; try reflexivity;
      destruct (data st !! listKey u) as [[[v|l] t]|] eqn:E; cbn;
      rewrite ?lookup_insert_eq, ?E; reflexivity.
  - unfold indexOf. rewrite Expire_frame by exact Hne. reflexivity.
Qed.

Section CreateFailures.

Variable time_Parse_RFC3339 : string -> option Time.

(** X4: a create that does not answer 201 has written nothing: the data
    of the store is what it was, on every request and fault schedule. *)
Theorem create_writes_only_with_201 (env : Env) (r : Request)
    (body : option HealthRecordRequest.t) (st : Redis) :
  Status (fst (createHealthRecordHandler time_Parse_RFC3339 env r body st))
    <> 201 ->
  data (snd (createHealthRecordHandler time_Parse_RFC3339 env r body st))
  = data st.
Proof.
  unfold createHealthRecordHandler.
  destruct (negb (String.eqb (Method r) "POST")); [reflexivity|].
  destruct (MaxRequestBodySize <? ContentLength r); [reflexivity|].
  destruct (ctxUser r) as [u|]; [|reflexivity].
  destruct body as [req|]; [|reflexivity].
  destruct (validateHealthRecordInput _) as [|fe errs]; [|reflexivity].
  cbn [HealthRecord.ID]. unfold bind, ret.
  match goal with |- context [Set_ ?k ?v ?e st] =>
    pose proof (Set_failed k v e st) as Hset;
    destruct (Set_ k v e st) as [stored st1]
  end.
  cbn [fst snd] in Hset.
  destruct stored as [[]|e]; [|intros _; exact (Hset e eq_refl)].
  destruct (LPush _ _ st1) as [pushed st2].
  destruct (Expire _ _ st2) as [expired st3].
  destruct (Del _ st3) as [deleted st4].
  cbn. intros H. exfalso. apply H. reflexivity.
Qed.

(** X5: the result of LPUSH is not looked at.  When the store takes the
    record and then fails on the index command, the handler still answers
    201 with the record, the record is stored, and the index of the user
    is what it was: the record is in no list. *)
Theorem create_answers_201_without_indexing (env : Env) (r : Request)
    (req : HealthRecordRequest.t) (d : gmap string entry) (u detail : string)
    (rest : list (option string)) :
  Method r = "POST" -> ContentLength r <= MaxRequestBodySize ->
  ctxUser r = Some u ->
  validateHealthRecordInput (inputOf req) = [] ->
  is_uuid (uuid_New env) = true ->
  exists st',
    createHealthRecordHandler time_Parse_RFC3339 env r (Some req)
      (mkRedis d (None :: Some detail :: rest))
    = (mkResponse 201 [jsonHeader]
         (JRecord (newRecord time_Parse_RFC3339 env u req)), st')
    /\ recordAt (data st') u (uuid_New env)
       = Some (newRecord time_Parse_RFC3339 env u req)
    /\ indexOf (data st') u = indexOf d u.
Proof.
  intros Hmethod Hsize Huser Hvalid Hid.
  unfold createHealthRecordHandler. rewrite Hmethod, Huser.
  cbn [String.eqb Ascii.eqb Bool.eqb negb].
  within_size.
  fold (inputOf req). rewrite Hvalid.
  fold (newRecord time_Parse_RFC3339 env u req).
  set (rec := newRecord time_Parse_RFC3339 env u req).
  change (HealthRecord.ID rec) with (uuid_New env).
  unfold bind at 1. unfold Set_ at 1, command at 1. cbn [faults data].
  unfold bind at 1. unfold LPush at 1, command at 1. cbn [faults data].
  set (d1 := <[recordKey u (uuid_New env) :=
                 Entry (RString (marshalRecord rec)) (Some recordTTL)]> d).
  unfold bind at 1.
  pose proof (Expire_index (listKey u) recordTTL (mkRedis d1 rest) u) as Hei.
  pose proof (Expire_frame (listKey u) (recordKey u (uuid_New env)) recordTTL
                (mkRedis d1 rest) (recordKey_ne_listKey u _ Hid)) as Hef.
  destruct (Expire (listKey u) recordTTL (mkRedis d1 rest))
    as [expired st3].
  unfold bind at 1.
  pose proof (Del_frame (statsKey u (HealthRecordRequest.Type_ req))
                (recordKey u (uuid_New env)) st3
                (recordKey_ne_statsKey u _ _ Hid)) as Hdr.
  pose proof (Del_frame (statsKey u (HealthRecordRequest.Type_ req))
                (listKey u) st3 (listKey_ne_statsKey u _)) as Hdl.
  destruct (Del (statsKey u (HealthRecordRequest.Type_ req)) st3)
    as [deleted st4].
  cbn [fst snd ret data] in *.
  exists st4. split; [reflexivity|]. split.
  - unfold recordAt, docAt. rewrite Hdr, Hef. subst d1.
    rewrite lookup_insert_eq. reflexivity.
  - unfold indexOf in *. rewrite Hdl, Hei. subst d1.
    rewrite lookup_insert_ne by (apply recordKey_ne_listKey; exact Hid).
    reflexivity.
Qed.

(** X6: the result of DEL is not looked at either.  When the store fails
    on the command that drops the cached stats, the handler answers 201 and
    the next stats request of that type is a cache hit on the stats of
    before the create. *)
Theorem create_answers_201_with_stale_stats (env : Env) (r : Request)
    (req : HealthRecordRequest.t) (d : gmap string entry) (u detail : string)
    (s : HealthStats.t) :
  Method r = "POST" -> ContentLength r <= MaxRequestBodySize ->
  ctxUser r = Some u ->
  validateHealthRecordInput (inputOf req) = [] ->
  is_uuid (uuid_New env) = true ->
  cachedStats d u (HealthRecordRequest.Type_ req) = Some s ->
  exists st',
    createHealthRecordHandler time_Parse_RFC3339 env r (Some req)
      (mkRedis d [None; None; None; Some detail])
    = (mkResponse 201 [jsonHeader]
         (JRecord (newRecord time_Parse_RFC3339 env u req)), st')
    /\ getHealthStatsHandler
         (statsRequest u (HealthRecordRequest.Type_ req)) st'
       = (statsResponse "HIT" s, st').
Proof.
  intros Hmethod Hsize Huser Hvalid Hid Hcached.
  pose proof (validation_passed _ Hvalid) as (Hty & _).
  cbn [inputOf HealthRecordInput.Type_] in Hty.
  apply validType_not_empty in Hty.
  set (T := HealthRecordRequest.Type_ req) in *.
  unfold createHealthRecordHandler. rewrite Hmethod, Huser.
  cbn [String.eqb Ascii.eqb Bool.eqb negb].
  within_size.
  fold (inputOf req). rewrite Hvalid.
  fold (newRecord time_Parse_RFC3339 env u req).
  set (rec := newRecord time_Parse_RFC3339 env u req).
  change (HealthRecord.ID rec) with (uuid_New env).
  unfold bind at 1. unfold Set_ at 1, command at 1. cbn [faults data].
  set (st1 := mkRedis _ [None; None; Some detail]).
  unfold bind at 1.
  assert (H1 : data st1 !! statsKey u T = d !! statsKey u T).
  { subst st1. cbn [data]. apply lookup_insert_ne.
    apply recordKey_ne_statsKey. exact Hid. }
  assert (F1 : faults st1 = [None; None; Some detail]) by reflexivity.
  clearbody st1.
  pose proof (LPush_frame (listKey u) (uuid_New env) (statsKey u T) st1
                (not_eq_sym (listKey_ne_statsKey u T))) as H2.
  assert (F2 : faults (snd (LPush (listKey u) (uuid_New env) st1))
               = [None; Some detail]).
  { unfold LPush, command. rewrite F1.
    destruct (data st1 !! listKey u) as [[[v|l] t]|]; reflexivity. }
  destruct (LPush (listKey u) (uuid_New env) st1) as [pushed st2].
  cbn [snd] in H2, F2. unfold bind at 1.
  pose proof (Expire_frame (listKey u) (statsKey u T) recordTTL st2
                (not_eq_sym (listKey_ne_statsKey u T))) as H3.
  assert (F3 : faults (snd (Expire (listKey u) recordTTL st2))
               = [Some detail]).
  { unfold Expire, command. rewrite F2.
    destruct (data st2 !! listKey u) as [[v t]|]; reflexivity. }
  destruct (Expire (listKey u) recordTTL st2) as [expired st3].
  cbn [snd] in H3, F3. unfold bind at 1.
  unfold Del, command. rewrite F3. cbn [fst snd ret].
  eexists. split; [reflexivity|].
  apply stats_hit_reachable with (u := u) (T := T);
    try reflexivity; try assumption.
  unfold cachedStats, docAt in *. cbn [data]. rewrite H3, H2, H1.
  exact Hcached.
Qed.

End CreateFailures.

Lemma create_writes_only_with_201_witness :
  data (snd (createHealthRecordHandler exampleParse fourthEnv
               (postRequest "alice") (Some (heartRate 90)) unreachableStore))
  = data unreachableStore.
Proof.
  apply (create_writes_only_with_201 exampleParse fourthEnv
           (postRequest "alice") (Some (heartRate 90)) unreachableStore).
  vm_compute. discriminate.
Defined.

Lemma create_answers_201_without_indexing_witness :
  exists st',
    createHealthRecordHandler exampleParse fourthEnv (postRequest "alice")
      (Some (heartRate 90)) secondCommandFails
    = (mkResponse 201 [jsonHeader]
         (JRecord (newRecord exampleParse fourthEnv "alice" (heartRate 90))),
       st')
    /\ recordAt (data st') "alice" (uuidOfNat 3)
       = Some (newRecord exampleParse fourthEnv "alice" (heartRate 90))
    /\ indexOf (data st') "alice" = indexOf (data threeHeartRates) "alice".
Proof.
  apply (create_answers_201_without_indexing exampleParse fourthEnv
           (postRequest "alice") (heartRate 90) (data threeHeartRates)
           "alice" connectionRefused []);
    try reflexivity; vm_compute; discriminate.
Defined.

Lemma create_answers_201_with_stale_stats_witness :
  exists st',
    createHealthRecordHandler exampleParse fourthEnv (postRequest "alice")
      (Some (heartRate 90)) fourthCommandFails
    = (mkResponse 201 [jsonHeader]
         (JRecord (newRecord exampleParse fourthEnv "alice" (heartRate 90))),
       st')
    /\ getHealthStatsHandler (statsRequest "alice" "heart_rate") st'
       = (statsResponse "HIT"
            (statsOf "alice" "heart_rate"
               (matchingRecords (data threeHeartRates) "alice" "heart_rate")),
          st').
Proof.
  apply (create_answers_201_with_stale_stats exampleParse fourthEnv
           (postRequest "alice") (heartRate 90) (data cachedHeartRates)
           "alice" connectionRefused);
    try reflexivity; vm_compute; discriminate.
Defined.

(** ** Deleting a record *)

Lemma remove_first_absent (x : string) (l : list string) :
  x ∉ l -> remove_first x l = l.
Proof.
  induction l as [|y l IH]; intros Hx; [reflexivity|].
  cbn. apply not_elem_of_cons in Hx as [Hne Hx].
  destruct (String.eqb_spec x y); [contradiction|].
  rewrite IH by exact Hx. reflexivity.
Qed.

Lemma LRem1_index (d : gmap string entry) (u item : string) :
  indexOf (data (snd (LRem1 (listKey u) item (mkRedis d [])))) u
  = remove_first item (indexOf d u).
Proof.
  unfold LRem1, command, indexOf. cbn [faults data].
  destruct (d !! listKey u) as [[[v|l] t]|] eqn:E; cbn [snd data];
    rewrite ?E; try reflexivity.
  destruct (remove_first item l) as [|y l']; cbn [snd data].
  - rewrite lookup_delete_eq. reflexivity.
  - rewrite lookup_insert_eq. reflexivity.
Qed.

Lemma LRem1_faults (d : gmap string entry) (key item : string) :
  faults (snd (LRem1 key item (mkRedis d []))) = [].
Proof.
  unfold LRem1, command. cbn [faults data].
  destruct (d !! key) as [[[v|l] t]|]; try reflexivity.
  destruct (remove_first item l); reflexivity.
Qed.

(** The delete handler on a store that answers. *)
Lemma delete_reachable (r : Request) (d : gmap string entry) (u id : string) :
  Method r = "DELETE" -> ctxUser r = Some u -> Query r "id" = id ->
  id <> "" ->
  deleteHealthRecordHandler r (mkRedis d [])
  = (mkResponse StatusOK [jsonHeader] (JMessage "Record deleted successfully"),
     snd (LRem1 (listKey u) id (mkRedis (delete (recordKey u id) d) []))).
Proof.
  intros Hmethod Huser Hid Hne. unfold deleteHealthRecordHandler.
  rewrite Hmethod, Huser, Hid.
  cbn [String.eqb Ascii.eqb Bool.eqb negb].
  destruct (String.eqb_spec id "") as [|_]; [contradiction|].
  unfold bind, Del, command. cbn [faults data].
  destruct (LRem1 _ _ _). reflexivity.
Qed.

(** X7: on a store that answers, the delete handler answers 200; the key
    of the record is gone, the first occurrence of the identifier has left
    the index of the user, and every other key holds what it held. *)
Theorem delete_removes_record_and_index_entry (r : Request) (st : Redis)
    (u id : string) :
  Method r = "DELETE" -> ctxUser r = Some u -> Query r "id" = id ->
  id <> "" -> id <> "list" -> faults st = [] ->
  exists st',
    deleteHealthRecordHandler r st
    = (mkResponse 200 [jsonHeader] (JMessage "Record deleted successfully"),
       st')
    /\ data st' !! recordKey u id = None
    /\ indexOf (data st') u = remove_first id (indexOf (data st) u)
    /\ forall k, k <> recordKey u id -> k <> listKey u ->
                 data st' !! k = data st !! k.
Proof.
  intros Hmethod Huser Hid Hne Hlist Hfaults.
  destruct st as [d f]; cbn [data faults] in *; subst f.
  assert (Hkeys : listKey u <> recordKey u id).
  { intros H. change (healthKey u "list" = healthKey u id) in H.
    apply healthKey_same_user in H. congruence. }
  eexists. split; [apply delete_reachable; eassumption|].
  split; [|split].
  - rewrite LRem1_frame by congruence. apply lookup_delete_eq.
  - rewrite LRem1_index. unfold indexOf.
    rewrite lookup_delete_ne by congruence. reflexivity.
  - intros k Hk1 Hk2. rewrite LRem1_frame by exact Hk2.
    apply lookup_delete_ne. congruence.
Qed.

Lemma delete_removes_record_and_index_entry_witness :
  exists st',
    deleteHealthRecordHandler (deleteRequest "alice" (uuidOfNat 1))
      threeHeartRates
    = (mkResponse 200 [jsonHeader] (JMessage "Record deleted successfully"),
       st')
    /\ data st' !! recordKey "alice" (uuidOfNat 1) = None
    /\ indexOf (data st') "alice"
       = remove_first (uuidOfNat 1) (indexOf (data threeHeartRates) "alice")
    /\ forall k, k <> recordKey "alice" (uuidOfNat 1) ->
                 k <> listKey "alice" ->
                 data st' !! k = data threeHeartRates !! k.
Proof.
  apply (delete_removes_record_and_index_entry
           (deleteRequest "alice" (uuidOfNat 1)) threeHeartRates "alice"
           (uuidOfNat 1)); try reflexivity; vm_compute; discriminate.
Defined.

(** X8: the delete handler does not touch the cached stats.  What is
    cached for a type before a delete is served as a hit after it, the
    deleted record still counted. *)
Theorem delete_leaves_cached_stats (r : Request) (st : Redis)
    (u id T : string) (s : HealthStats.t) :
  Method r = "DELETE" -> ctxUser r = Some u -> Query r "id" = id ->
  id <> "" -> id <> "stats:" +:+ T -> T <> "" -> faults st = [] ->
  cachedStats (data st) u T = Some s ->
  exists st',
    deleteHealthRecordHandler r st
    = (mkResponse 200 [jsonHeader] (JMessage "Record deleted successfully"),
       st')
    /\ getHealthStatsHandler (statsRequest u T) st'
       = (statsResponse "HIT" s, st').
Proof.
  intros Hmethod Huser Hid Hne Hstats HT Hfaults Hcached.
  destruct st as [d f]; cbn [data faults] in *; subst f.
  eexists. split; [apply delete_reachable; eassumption|].
  set (st' := snd (LRem1 _ _ _)).
  assert (Hf : faults st' = []) by apply LRem1_faults.
  assert (Hd : data st' !! statsKey u T = d !! statsKey u T).
  { subst st'. rewrite LRem1_frame
      by (apply not_eq_sym, listKey_ne_statsKey).
    apply lookup_delete_ne. intros H.
    change (healthKey u id = healthKey u ("stats:" +:+ T)) in H.
    apply healthKey_same_user in H. congruence. }
  clearbody st'. destruct st' as [d' f']; cbn [data faults] in *; subst f'.
  apply stats_hit_reachable with (u := u) (T := T);
    try reflexivity; try assumption.
  unfold cachedStats, docAt in *. rewrite Hd. exact Hcached.
Qed.

Lemma delete_leaves_cached_stats_witness :
  exists st',
    deleteHealthRecordHandler (deleteRequest "alice" (uuidOfNat 2))
      cachedHeartRates
    = (mkResponse 200 [jsonHeader] (JMessage "Record deleted successfully"),
       st')
    /\ getHealthStatsHandler (statsRequest "alice" "heart_rate") st'
       = (statsResponse "HIT"
            (statsOf "alice" "heart_rate"
               (matchingRecords (data threeHeartRates) "alice" "heart_rate")),
          st').
Proof.
  apply (delete_leaves_cached_stats (deleteRequest "alice" (uuidOfNat 2))
           cachedHeartRates "alice" (uuidOfNat 2) "heart_rate");
    try reflexivity; vm_compute; discriminate.
Defined.

(** X9: the identifier of a delete is not checked.  With [id=list] the key
    the handler deletes is the index of the user: the index is gone, every
    other key holds what it held, the stored records among them, and the
    list handler returns no record. *)
Theorem delete_of_id_list_drops_the_index (r rl : Request) (st : Redis)
    (u : string) :
  Method r = "DELETE" -> ctxUser r = Some u -> Query r "id" = "list" ->
  faults st = [] ->
  Method rl = "GET" -> ctxUser rl = Some u ->
  exists st',
    deleteHealthRecordHandler r st
    = (mkResponse 200 [jsonHeader] (JMessage "Record deleted successfully"),
       st')
    /\ data st' !! listKey u = None
    /\ (forall k, k <> listKey u -> data st' !! k = data st !! k)
    /\ fst (getHealthRecordsHandler rl st')
       = mkResponse 200 [jsonHeader; ("X-Total-Count", "0")] (JRecords []).
Proof.
  intros Hmethod Huser Hid Hfaults Hmethod' Huser'.
  destruct st as [d f]; cbn [data faults] in *; subst f.
  eexists. split; [apply delete_reachable; try eassumption; discriminate|].
  change (recordKey u "list") with (listKey u).
  assert (Hst : snd (LRem1 (listKey u) "list"
                       (mkRedis (delete (listKey u) d) []))
                = mkRedis (delete (listKey u) d) []).
  { unfold LRem1, command. cbn [faults data].
    rewrite lookup_delete_eq. reflexivity. }
  rewrite Hst. cbn [data]. split; [apply lookup_delete_eq|].
  split; [intros k Hk; apply lookup_delete_ne; congruence|].
  unfold getHealthRecordsHandler. rewrite Hmethod', Huser'.
  cbn [String.eqb Ascii.eqb Bool.eqb negb].
  unfold bind, LRange, command. cbn [faults data].
  rewrite lookup_delete_eq. reflexivity.
Qed.

Lemma delete_of_id_list_drops_the_index_witness :
  exists st',
    deleteHealthRecordHandler (deleteRequest "alice" "list") threeHeartRates
    = (mkResponse 200 [jsonHeader] (JMessage "Record deleted successfully"),
       st')
    /\ data st' !! listKey "alice" = None
    /\ (forall k, k <> listKey "alice" ->
                  data st' !! k = data threeHeartRates !! k)
    /\ fst (getHealthRecordsHandler (listRequest "alice" "") st')
       = mkResponse 200 [jsonHeader; ("X-Total-Count", "0")] (JRecords []).
Proof.
  apply (delete_of_id_list_drops_the_index (deleteRequest "alice" "list")
           (listRequest "alice" "") threeHeartRates "alice");
    reflexivity.
Defined.

(** X10: there is no 404.  Deleting an identifier that is neither stored
    nor indexed answers the same 200, and leaves the index and every
    other key as they were. *)
Theorem delete_of_absent_record_is_200 (r : Request) (st : Redis)
    (u id : string) :
  Method r = "DELETE" -> ctxUser r = Some u -> Query r "id" = id ->
  id <> "" -> faults st = [] ->
  data st !! recordKey u id = None -> id ∉ indexOf (data st) u ->
  exists st',
    deleteHealthRecordHandler r st
    = (mkResponse 200 [jsonHeader] (JMessage "Record deleted successfully"),
       st')
    /\ indexOf (data st') u = indexOf (data st) u
    /\ forall k, k <> listKey u -> data st' !! k = data st !! k.
Proof.
  intros Hmethod Huser Hid Hne Hfaults Habsent Hindex.
  destruct st as [d f]; cbn [data faults] in *; subst f.
  eexists. split; [apply delete_reachable; eassumption|].
  rewrite (delete_id d (recordKey u id)) by exact Habsent.
  split.
  - rewrite LRem1_index. apply remove_first_absent. exact Hindex.
  - intros k Hk. apply LRem1_frame. exact Hk.
Qed.

Lemma delete_of_absent_record_is_200_witness :
  exists st',
    deleteHealthRecordHandler (deleteRequest "alice" (uuidOfNat 9))
      threeHeartRates
    = (mkResponse 200 [jsonHeader] (JMessage "Record deleted successfully"),
       st')
    /\ indexOf (data st') "alice" = indexOf (data threeHeartRates) "alice"
    /\ forall k, k <> listKey "alice" ->
                 data st' !! k = data threeHeartRates !! k.
Proof.
  apply (delete_of_absent_record_is_200
           (deleteRequest "alice" (uuidOfNat 9)) threeHeartRates "alice"
           (uuidOfNat 9)); try reflexivity.
  - vm_compute. discriminate.
  - vm_compute. intros H.
    repeat (apply elem_of_cons in H as [H|H]; [discriminate|]).
    inversion H.
Defined.

(** ** Isolation of users: what a handler writes *)

Lemma keeps_ret {A} (k : string) (a : A) : keeps k (ret a).
Proof. intros st. reflexivity. Qed.

Lemma keeps_bind {A B} (k : string) (m : M A) (f : A -> M B) :
  keeps k m -> (forall a, keeps k (f a)) -> keeps k (bind m f).
Proof.
  intros Hm Hf st. unfold bind. specialize (Hm st).
  destruct (m st) as [a st1]. cbn [snd] in Hm.
  rewrite (Hf a st1). exact Hm.
Qed.

Lemma keeps_Get (k key : string) : keeps k (Get key).
Proof.
  intros st. destruct (Get_any key st) as (got & st' & -> & Hd & _).
  cbn [snd]. rewrite Hd. reflexivity.
Qed.

Lemma keeps_LRange (k key : string) (start stop : Z) :
  keeps k (LRange key start stop).
Proof.
  intros st.
  destruct (LRange_any key start stop st) as (got & st' & -> & Hd).
  cbn [snd]. rewrite Hd. reflexivity.
Qed.

Lemma keeps_fetchRecords (k u : string) :
  forall (ids : list string) (acc : list HealthRecord.t),
    keeps k (fetchRecords u ids acc).
Proof.
  intros ids acc st. rewrite fetchRecords_data. reflexivity.
Qed.

Lemma keeps_scanRecords (k u T : string) :
  forall (ids : list string) (values : list float) (last : Time),
    keeps k (scanRecords u T ids values last).
Proof.
  intros ids values last st.
  destruct (scanRecords_any (data st) u T ids values last st eq_refl)
    as (values' & last' & st' & -> & Hd & _).
  cbn [snd]. rewrite Hd. reflexivity.
Qed.

Create HintDb keeps.

#[local] Hint Resolve keeps_ret keeps_Get keeps_LRange keeps_fetchRecords
  keeps_scanRecords : keeps.

Section Frame.

Variable time_Parse_RFC3339 : string -> option Time.

Lemma create_keeps (env : Env) (r : Request)
    (body : option HealthRecordRequest.t) (u k : string) :
  ctxUser r = Some u -> (forall x, k <> healthKey u x) ->
  keeps k (createHealthRecordHandler time_Parse_RFC3339 env r body).
Proof.
  intros Huser Hk. unfold createHealthRecordHandler.
  destruct (negb (String.eqb (Method r) "POST")); [auto with keeps|].
  destruct (MaxRequestBodySize <? ContentLength r); [auto with keeps|].
  rewrite Huser. destruct body as [req|]; [|auto with keeps].
  destruct (validateHealthRecordInput _) as [|fe errs]; [|auto with keeps].
  apply keeps_bind; [intros st; apply Set_frame, Hk|].
  intros [[]|e]; [|auto with keeps].
  apply keeps_bind;
    [intros st; apply LPush_frame, (Hk "list") | intros _].
  apply keeps_bind;
    [intros st; apply Expire_frame, (Hk "list") | intros _].
  apply keeps_bind; [intros st; apply Del_frame, Hk | intros _].
  auto with keeps.
Qed.

End Frame.

Lemma stats_keeps (r : Request) (u k : string) :
  ctxUser r = Some u -> (forall x, k <> healthKey u x) ->
  keeps k (getHealthStatsHandler r).
Proof.
  intros Huser Hk. unfold getHealthStatsHandler.
  destruct (negb (String.eqb (Method r) "GET")); [auto with keeps|].
  rewrite Huser.
  destruct (String.eqb (Query r "type") ""); [auto with keeps|].
  apply keeps_bind; [auto with keeps | intros cached].
  destruct (match cached with Ok d => unmarshalStats d | Err _ => None end);
    [auto with keeps|].
  apply keeps_bind; [auto with keeps | intros ranged].
  apply keeps_bind; [auto with keeps | intros [values last]].
  destruct values as [|v values]; [auto with keeps|].
  apply keeps_bind; [intros st; apply Set_frame, Hk | intros _].
  auto with keeps.
Qed.

Lemma delete_keeps (r : Request) (u k : string) :
  ctxUser r = Some u -> (forall x, k <> healthKey u x) ->
  keeps k (deleteHealthRecordHandler r).
Proof.
  intros Huser Hk. unfold deleteHealthRecordHandler.
  destruct (negb (String.eqb (Method r) "DELETE")); [auto with keeps|].
  rewrite Huser.
  destruct (String.eqb (Query r "id") ""); [auto with keeps|].
  apply keeps_bind; [intros st; apply Del_frame, Hk|].
  intros [[]|e]; [|auto with keeps].
  apply keeps_bind;
    [intros st; apply LRem1_frame, (Hk "list") | intros _].
  auto with keeps.
Qed.

Lemma userKey_not_health (u email x : string) : userKey email <> healthKey u x.
Proof. unfold userKey, healthKey. discriminate. Qed.

Lemma other_user_not_health (u u' x y : string) :
  noColon u = true -> noColon u' = true -> u <> u' ->
  healthKey u' y <> healthKey u x.
Proof.
  intros Hu Hu' Hne H. apply healthKey_inj in H as [-> _]; auto.
Qed.

Section Isolation.

Variable time_Parse_RFC3339 : string -> option Time.

(** X11: the create, stats and delete handlers write under keys of the
    requesting user only.  What the store holds under a key of another
    user, the index, a record or cached stats, and under the key of any
    registered account, is what it held before, on every request and
    every fault schedule, provided neither identity holds a colon. *)
Theorem handlers_write_only_the_requesters_keys (env : Env) (r : Request)
    (body : option HealthRecordRequest.t) (st : Redis) (u u' : string) :
  ctxUser r = Some u -> noColon u = true -> noColon u' = true -> u <> u' ->
  forall st',
    st' = snd (createHealthRecordHandler time_Parse_RFC3339 env r body st)
    \/ st' = snd (getHealthStatsHandler r st)
    \/ st' = snd (deleteHealthRecordHandler r st)
    \/ st' = snd (getHealthRecordsHandler r st) ->
    (forall id, data st' !! recordKey u' id = data st !! recordKey u' id)
    /\ data st' !! listKey u' = data st !! listKey u'
    /\ (forall T, data st' !! statsKey u' T = data st !! statsKey u' T)
    /\ (forall email, data st' !! userKey email = data st !! userKey email).
Proof.
  intros Huser Hu Hu' Hne st' Hst'.
  assert (Hkeeps : forall k, (forall x, k <> healthKey u x) ->
                             data st' !! k = data st !! k).
  { intros k Hk. destruct Hst' as [-> | [-> | [-> | ->]]].
    - apply create_keeps with (u := u); assumption.
    - apply stats_keeps with (u := u); assumption.
    - apply delete_keeps with (u := u); assumption.
    - exact (f_equal (fun d => d !! k) (list_keeps_data r st)). }
  repeat split; intros; apply Hkeeps; intros x;
    try apply userKey_not_health;
    try (apply (other_user_not_health u u' x); assumption).
Qed.

End Isolation.

Lemma handlers_write_only_the_requesters_keys_witness :
  (forall id,
     data (snd (deleteHealthRecordHandler (deleteRequest "bob" (uuidOfNat 1))
                  threeHeartRates)) !! recordKey "alice" id
     = data threeHeartRates !! recordKey "alice" id)
  /\ data (snd (deleteHealthRecordHandler
                  (deleteRequest "bob" (uuidOfNat 1)) threeHeartRates))
       !! listKey "alice"
     = data threeHeartRates !! listKey "alice"
  /\ (forall T,
        data (snd (deleteHealthRecordHandler
                     (deleteRequest "bob" (uuidOfNat 1)) threeHeartRates))
          !! statsKey "alice" T
        = data threeHeartRates !! statsKey "alice" T)
  /\ (forall email,
        data (snd (deleteHealthRecordHandler
                     (deleteRequest "bob" (uuidOfNat 1)) threeHeartRates))
          !! userKey email
        = data threeHeartRates !! userKey email).
Proof.
  apply (handlers_write_only_the_requesters_keys exampleParse fourthEnv
           (deleteRequest "bob" (uuidOfNat 1)) None threeHeartRates
           "bob" "alice"); try reflexivity; [discriminate | auto].
Defined.

(** ** Isolation of users: what an answer depends on *)

Lemma runAlike_ret {A} (u : string) (a : A) : runAlike u (ret a) (ret a).
Proof. intros st1 st2 H. split; [reflexivity | exact H]. Qed.

Lemma runAlike_bind {A B} (u : string) (m1 m2 : M A) (f1 f2 : A -> M B) :
  runAlike u m1 m2 -> (forall a, runAlike u (f1 a) (f2 a)) ->
  runAlike u (bind m1 f1) (bind m2 f2).
Proof.
  intros Hm Hf st1 st2 H. unfold bind. specialize (Hm st1 st2 H).
  destruct (m1 st1) as [a1 st1'], (m2 st2) as [a2 st2'].
  cbn [fst snd] in Hm. destruct Hm as [-> Hm]. apply Hf, Hm.
Qed.

Lemma agreeFor_insert (u k : string) (e : entry) (d1 d2 : gmap string entry) :
  agreeFor u d1 d2 -> agreeFor u (<[k := e]> d1) (<[k := e]> d2).
Proof.
  intros H x. destruct (decide (k = healthKey u x)) as [->|Hne].
  - rewrite !lookup_insert_eq. reflexivity.
  - rewrite !lookup_insert_ne by exact Hne. apply H.
Qed.

Lemma agreeFor_delete (u k : string) (d1 d2 : gmap string entry) :
  agreeFor u d1 d2 -> agreeFor u (delete k d1) (delete k d2).
Proof.
  intros H x. destruct (decide (k = healthKey u x)) as [->|Hne].
  - rewrite !lookup_delete_eq. reflexivity.
  - rewrite !lookup_delete_ne by exact Hne. apply H.
Qed.

(** A command whose result and whose writes are decided by what one key
    of the user holds. *)
Lemma runAlike_command {A} (u : string)
    (run : gmap string entry -> result A * gmap string entry) :
  (forall d1 d2,
     agreeFor u d1 d2 ->
     fst (run d1) = fst (run d2)
     /\ agreeFor u (snd (run d1)) (snd (run d2))) ->
  runAlike u (command run) (command run).
Proof.
  intros Hrun st1 st2 [Hf Hd]. unfold command. rewrite Hf.
  specialize (Hrun _ _ Hd).
  destruct (faults st2) as [|[detail|] rest];
    (destruct (run (data st1)), (run (data st2)); cbn in *;
         destruct Hrun as [-> Hrun]; repeat split; assumption).
Qed.

Lemma runAlike_Get (u x : string) :
  runAlike u (Get (healthKey u x)) (Get (healthKey u x)).
Proof.
  apply (runAlike_command u). intros d1 d2 H. rewrite (H x).
  destruct (d2 !! healthKey u x) as [[[v|l] t]|]; cbn; auto.
Qed.

Lemma runAlike_LRange (u x : string) (start stop : Z) :
  runAlike u (LRange (healthKey u x) start stop)
    (LRange (healthKey u x) start stop).
Proof.
  apply (runAlike_command u). intros d1 d2 H. rewrite (H x).
  destruct (d2 !! healthKey u x) as [[[v|l] t]|]; cbn; auto.
Qed.

Lemma runAlike_Set (u key : string) (v : doc) (expiry : Z) :
  runAlike u (Set_ key v expiry) (Set_ key v expiry).
Proof.
  apply (runAlike_command u). intros d1 d2 H. cbn.
  split; [reflexivity | apply agreeFor_insert, H].
Qed.

Lemma runAlike_Del (u key : string) : runAlike u (Del key) (Del key).
Proof.
  apply (runAlike_command u). intros d1 d2 H. cbn.
  split; [reflexivity | apply agreeFor_delete, H].
Qed.

Lemma runAlike_LPush (u x item : string) :
  runAlike u (LPush (healthKey u x) item) (LPush (healthKey u x) item).
Proof.
  apply (runAlike_command u). intros d1 d2 H. rewrite (H x).
  destruct (d2 !! healthKey u x) as [[[v|l] t]|]; cbn;
    (split; [reflexivity|]); try apply agreeFor_insert; exact H.
Qed.

Lemma runAlike_Expire (u x : string) (expiry : Z) :
  runAlike u (Expire (healthKey u x) expiry) (Expire (healthKey u x) expiry).
Proof.
  apply (runAlike_command u). intros d1 d2 H. rewrite (H x).
  destruct (d2 !! healthKey u x) as [[v t]|]; cbn;
    (split; [reflexivity|]); try apply agreeFor_insert; exact H.
Qed.

Lemma runAlike_LRem1 (u x item : string) :
  runAlike u (LRem1 (healthKey u x) item) (LRem1 (healthKey u x) item).
Proof.
  apply (runAlike_command u). intros d1 d2 H. rewrite (H x).
  destruct (d2 !! healthKey u x) as [[[v|l] t]|]; cbn; auto.
  destruct (remove_first item l); cbn;
    (split; [reflexivity|]);
    [apply agreeFor_delete | apply agreeFor_insert]; exact H.
Qed.

Lemma runAlike_fetchRecords (u : string) :
  forall (ids : list string) (acc : list HealthRecord.t),
    runAlike u (fetchRecords u ids acc) (fetchRecords u ids acc).
Proof.
  induction ids as [|id ids IH]; intros acc; [apply runAlike_ret|].
  cbn [fetchRecords]. apply runAlike_bind; [apply (runAlike_Get u id)|].
  intros [v|e]; [destruct (unmarshalRecord v)|]; apply IH.
Qed.

Lemma runAlike_scanRecords (u T : string) :
  forall (ids : list string) (values : list float) (last : Time),
    runAlike u (scanRecords u T ids values last)
      (scanRecords u T ids values last).
Proof.
  induction ids as [|id ids IH]; intros values last; [apply runAlike_ret|].
  cbn [scanRecords]. apply runAlike_bind; [apply (runAlike_Get u id)|].
  intros [v|e]; [destruct (unmarshalRecord v) as [rec|]|]; try apply IH.
  destruct (String.eqb (HealthRecord.Type_ rec) T); apply IH.
Qed.

Lemma list_runAlike (r : Request) (u : string) :
  ctxUser r = Some u ->
  runAlike u (getHealthRecordsHandler r) (getHealthRecordsHandler r).
Proof.
  intros Huser. unfold getHealthRecordsHandler.
  destruct (negb (String.eqb (Method r) "GET")); [apply runAlike_ret|].
  rewrite Huser.
  apply runAlike_bind; [apply (runAlike_LRange u "list")|].
  intros [ids|e]; [|apply runAlike_ret].
  apply runAlike_bind; [apply runAlike_fetchRecords|].
  intros records. apply runAlike_ret.
Qed.

Lemma stats_runAlike (r : Request) (u : string) :
  ctxUser r = Some u ->
  runAlike u (getHealthStatsHandler r) (getHealthStatsHandler r).
Proof.
  intros Huser. unfold getHealthStatsHandler.
  destruct (negb (String.eqb (Method r) "GET")); [apply runAlike_ret|].
  rewrite Huser.
  destruct (String.eqb (Query r "type") ""); [apply runAlike_ret|].
  apply runAlike_bind;
    [apply (runAlike_Get u ("stats:" +:+ Query r "type"))|].
  intros cached.
  destruct (match cached with Ok d => unmarshalStats d | Err _ => None end);
    [apply runAlike_ret|].
  apply runAlike_bind; [apply (runAlike_LRange u "list")|].
  intros ranged.
  apply runAlike_bind; [apply runAlike_scanRecords|].
  intros [values last]. destruct values as [|v values]; [apply runAlike_ret|].
  apply runAlike_bind; [apply runAlike_Set|].
  intros _. apply runAlike_ret.
Qed.

Lemma delete_runAlike (r : Request) (u : string) :
  ctxUser r = Some u ->
  runAlike u (deleteHealthRecordHandler r) (deleteHealthRecordHandler r).
Proof.
  intros Huser. unfold deleteHealthRecordHandler.
  destruct (negb (String.eqb (Method r) "DELETE")); [apply runAlike_ret|].
  rewrite Huser.
  destruct (String.eqb (Query r "id") ""); [apply runAlike_ret|].
  apply runAlike_bind; [apply runAlike_Del|].
  intros [[]|e]; [|apply runAlike_ret].
  apply runAlike_bind; [apply (runAlike_LRem1 u "list")|].
  intros _. apply runAlike_ret.
Qed.

Section NonInterference.

Variable time_Parse_RFC3339 : string -> option Time.

Lemma create_runAlike (env : Env) (r : Request)
    (body : option HealthRecordRequest.t) (u : string) :
  ctxUser r = Some u ->
  runAlike u (createHealthRecordHandler time_Parse_RFC3339 env r body)
    (createHealthRecordHandler time_Parse_RFC3339 env r body).
Proof.
  intros Huser. unfold createHealthRecordHandler.
  destruct (negb (String.eqb (Method r) "POST")); [apply runAlike_ret|].
  destruct (MaxRequestBodySize <? ContentLength r); [apply runAlike_ret|].
  rewrite Huser. destruct body as [req|]; [|apply runAlike_ret].
  destruct (validateHealthRecordInput _) as [|fe errs];
    [|apply runAlike_ret].
  apply runAlike_bind; [apply runAlike_Set|].
  intros [[]|e]; [|apply runAlike_ret].
  apply runAlike_bind; [apply (runAlike_LPush u "list")|]. intros _.
  apply runAlike_bind; [apply (runAlike_Expire u "list")|]. intros _.
  apply runAlike_bind; [apply runAlike_Del|]. intros _.
  apply runAlike_ret.
Qed.

(** X12: what a handler answers to a user is decided by the request, by
    what the store holds under the keys of that user, and by which
    commands fail.  On two stores that agree on those keys and fail alike,
    each of the four health handlers gives the same answer, and leaves
    stores that agree again. *)
Theorem answers_depend_on_own_keys_only (env : Env) (r : Request)
    (body : option HealthRecordRequest.t) (st1 st2 : Redis) (u : string) :
  ctxUser r = Some u -> sameFor u st1 st2 ->
  (fst (createHealthRecordHandler time_Parse_RFC3339 env r body st1)
   = fst (createHealthRecordHandler time_Parse_RFC3339 env r body st2)
   /\ sameFor u
        (snd (createHealthRecordHandler time_Parse_RFC3339 env r body st1))
        (snd (createHealthRecordHandler time_Parse_RFC3339 env r body st2)))
  /\ (fst (getHealthRecordsHandler r st1) = fst (getHealthRecordsHandler r st2)
      /\ sameFor u (snd (getHealthRecordsHandler r st1))
           (snd (getHealthRecordsHandler r st2)))
  /\ (fst (getHealthStatsHandler r st1) = fst (getHealthStatsHandler r st2)
      /\ sameFor u (snd (getHealthStatsHandler r st1))
           (snd (getHealthStatsHandler r st2)))
  /\ (fst (deleteHealthRecordHandler r st1)
      = fst (deleteHealthRecordHandler r st2)
      /\ sameFor u (snd (deleteHealthRecordHandler r st1))
           (snd (deleteHealthRecordHandler r st2))).
Proof.
  intros Huser Hsame. repeat apply conj.
  - apply (create_runAlike env r body u Huser st1 st2 Hsame).
  - apply (create_runAlike env r body u Huser st1 st2 Hsame).
  - apply (create_runAlike env r body u Huser st1 st2 Hsame).
  - apply (list_runAlike r u Huser st1 st2 Hsame).
  - apply (list_runAlike r u Huser st1 st2 Hsame).
  - apply (list_runAlike r u Huser st1 st2 Hsame).
  - apply (stats_runAlike r u Huser st1 st2 Hsame).
  - apply (stats_runAlike r u Huser st1 st2 Hsame).
  - apply (stats_runAlike r u Huser st1 st2 Hsame).
  - apply (delete_runAlike r u Huser st1 st2 Hsame).
  - apply (delete_runAlike r u Huser st1 st2 Hsame).
  - apply (delete_runAlike r u Huser st1 st2 Hsame).
Qed.

End NonInterference.

Lemma besideAnAccount_same : sameFor "alice" threeHeartRates besideAnAccount.
Proof.
  split; [reflexivity|]. intros x. unfold besideAnAccount. cbn [data].
  symmetry. apply lookup_insert_ne. apply userKey_not_health.
Qed.

Lemma answers_depend_on_own_keys_only_witness :
  let r := statsRequest "alice" "heart_rate" in
  (fst (createHealthRecordHandler exampleParse fourthEnv r None
          threeHeartRates)
   = fst (createHealthRecordHandler exampleParse fourthEnv r None
            besideAnAccount)
   /\ sameFor "alice"
        (snd (createHealthRecordHandler exampleParse fourthEnv r None
                threeHeartRates))
        (snd (createHealthRecordHandler exampleParse fourthEnv r None
                besideAnAccount)))
  /\ (fst (getHealthRecordsHandler r threeHeartRates)
      = fst (getHealthRecordsHandler r besideAnAccount)
      /\ sameFor "alice" (snd (getHealthRecordsHandler r threeHeartRates))
           (snd (getHealthRecordsHandler r besideAnAccount)))
  /\ (fst (getHealthStatsHandler r threeHeartRates)
      = fst (getHealthStatsHandler r besideAnAccount)
      /\ sameFor "alice" (snd (getHealthStatsHandler r threeHeartRates))
           (snd (getHealthStatsHandler r besideAnAccount)))
  /\ (fst (deleteHealthRecordHandler r threeHeartRates)
      = fst (deleteHealthRecordHandler r besideAnAccount)
      /\ sameFor "alice" (snd (deleteHealthRecordHandler r threeHeartRates))
           (snd (deleteHealthRecordHandler r besideAnAccount))).
Proof.
  exact (answers_depend_on_own_keys_only exampleParse fourthEnv
           (statsRequest "alice" "heart_rate") None threeHeartRates
           besideAnAccount "alice" eq_refl besideAnAccount_same).
Defined.

Section Isolated.

Variable time_Parse_RFC3339 : string -> option Time.

(** X13: no request of one user changes what another user is answered.
    Whatever a user [u'] has the create, stats, delete or list handler do,
    on any fault schedule, the list and the stats handler answer a user
    [u] on the store that is left as they would have on the store of
    before, the schedule of failures being equal; both identities without
    a colon. *)
Theorem requests_of_others_change_no_answer (env : Env) (r' r : Request)
    (body : option HealthRecordRequest.t) (st : Redis) (u u' : string)
    (f : list (option string)) :
  ctxUser r' = Some u' -> ctxUser r = Some u ->
  noColon u = true -> noColon u' = true -> u <> u' ->
  forall st',
    st' = snd (createHealthRecordHandler time_Parse_RFC3339 env r' body st)
    \/ st' = snd (getHealthStatsHandler r' st)
    \/ st' = snd (deleteHealthRecordHandler r' st)
    \/ st' = snd (getHealthRecordsHandler r' st) ->
    fst (getHealthRecordsHandler r (mkRedis (data st') f))
    = fst (getHealthRecordsHandler r (mkRedis (data st) f))
    /\ fst (getHealthStatsHandler r (mkRedis (data st') f))
       = fst (getHealthStatsHandler r (mkRedis (data st) f)).
Proof.
  intros Huser' Huser Hu Hu' Hne st' Hst'.
  assert (Hsame : sameFor u (mkRedis (data st') f) (mkRedis (data st) f)).
  { split; [reflexivity|]. cbn [data]. intros x.
    assert (Hk : forall y, healthKey u x <> healthKey u' y)
      by (intros y; apply other_user_not_health; auto).
    destruct Hst' as [-> | [-> | [-> | ->]]].
    - apply create_keeps with (u := u'); assumption.
    - apply stats_keeps with (u := u'); assumption.
    - apply delete_keeps with (u := u'); assumption.
    - exact (f_equal (fun d => d !! healthKey u x) (list_keeps_data r' st)). }
  split.
  - apply (list_runAlike r u Huser _ _ Hsame).
  - apply (stats_runAlike r u Huser _ _ Hsame).
Qed.

End Isolated.

Lemma requests_of_others_change_no_answer_witness :
  fst (getHealthRecordsHandler (listRequest "alice" "")
         (mkRedis
            (data (snd (createHealthRecordHandler exampleParse fourthEnv
                          (postRequest "bob") (Some (heartRate 90))
                          cachedHeartRates))) []))
  = fst (getHealthRecordsHandler (listRequest "alice" "")
           (mkRedis (data cachedHeartRates) []))
  /\ fst (getHealthStatsHandler (listRequest "alice" "")
            (mkRedis
               (data (snd (createHealthRecordHandler exampleParse fourthEnv
                             (postRequest "bob") (Some (heartRate 90))
                             cachedHeartRates))) []))
     = fst (getHealthStatsHandler (listRequest "alice" "")
              (mkRedis (data cachedHeartRates) [])).
Proof.
  apply (requests_of_others_change_no_answer exampleParse fourthEnv
           (postRequest "bob") (listRequest "alice" "") (Some (heartRate 90))
           cachedHeartRates "alice" "bob" []);
    try reflexivity; [discriminate | auto].
Defined.

(** ** Requests without an identity *)

Section NoIdentity.

Variable time_Parse_RFC3339 : string -> option Time.

(** X14: a request that reaches a health handler without an identity in
    its context is answered 401, or 405 or 413 when its method or its size
    is refused first; no command is sent and the store, data and fault
    schedule, is what it was. *)
Theorem no_identity_no_command (env : Env) (r : Request)
    (body : option HealthRecordRequest.t) (st : Redis) :
  ctxUser r = None ->
  forall out,
    out = createHealthRecordHandler time_Parse_RFC3339 env r body st
    \/ out = getHealthRecordsHandler r st
    \/ out = getHealthStatsHandler r st
    \/ out = deleteHealthRecordHandler r st ->
    snd out = st
    /\ (fst out = jsonError 401 "Unauthorized"
        \/ fst out = httpError "Method not allowed" 405
        \/ fst out = httpError "Request body too large" 413).
Proof.
  intros Huser out Hout.
  destruct Hout as [-> | [-> | [-> | ->]]];
    unfold createHealthRecordHandler, getHealthRecordsHandler,
      getHealthStatsHandler, deleteHealthRecordHandler;
    rewrite Huser;
    repeat match goal with
           | |- context [if ?b then _ else _] => destruct b
           end; cbn; auto.
Qed.

End NoIdentity.

Lemma no_identity_no_command_witness :
  snd (deleteHealthRecordHandler
         (mkRequest "DELETE" 0 None (fun _ => uuidOfNat 0)) threeHeartRates)
  = threeHeartRates
  /\ (fst (deleteHealthRecordHandler
             (mkRequest "DELETE" 0 None (fun _ => uuidOfNat 0))
             threeHeartRates)
      = jsonError 401 "Unauthorized"
      \/ fst (deleteHealthRecordHandler
                (mkRequest "DELETE" 0 None (fun _ => uuidOfNat 0))
                threeHeartRates)
         = httpError "Method not allowed" 405
      \/ fst (deleteHealthRecordHandler
                (mkRequest "DELETE" 0 None (fun _ => uuidOfNat 0))
                threeHeartRates)
         = httpError "Request body too large" 413).
Proof.
  apply (no_identity_no_command exampleParse fourthEnv
           (mkRequest "DELETE" 0 None (fun _ => uuidOfNat 0)) None
           threeHeartRates); [reflexivity | auto].
Defined.

(** ** The shape of the store, over all health handlers *)

Section Shape.

Variable time_Parse_RFC3339 : string -> option Time.

(** X15: the four health handlers keep the shape of the store: records
    under the key of their owner and their generated identifier with a
    type of the closed set, stats under the key of their user and type,
    accounts under the key of their email, lists of generated identifiers
    under index keys.  This on every request of a user whose identity
    holds no colon, every body and every fault schedule, given that the
    identifier drawn is a UUID. *)
Theorem health_handlers_keep_the_store_shape (env : Env) (r : Request)
    (body : option HealthRecordRequest.t) (st : Redis) (u : string) :
  ctxUser r = Some u -> noColon u = true -> is_uuid (uuid_New env) = true ->
  store_wf (data st) ->
  store_wf
    (data (snd (createHealthRecordHandler time_Parse_RFC3339 env r body st)))
  /\ store_wf (data (snd (getHealthRecordsHandler r st)))
  /\ store_wf (data (snd (getHealthStatsHandler r st)))
  /\ store_wf (data (snd (deleteHealthRecordHandler r st))).
Proof.
  intros Huser Hu Hid Hwf. repeat split.
  - apply create_keeps_wf with (u := u); assumption.
  - rewrite list_keeps_data. exact Hwf.
  - apply stats_keeps_wf with (u := u); assumption.
  - apply delete_keeps_wf. exact Hwf.
Qed.

End Shape.

Lemma health_handlers_keep_the_store_shape_witness :
  store_wf
    (data (snd (createHealthRecordHandler exampleParse fourthEnv
                  (postRequest "alice") (Some (heartRate 90))
                  cachedHeartRates)))
  /\ store_wf (data (snd (getHealthRecordsHandler (postRequest "alice")
                            cachedHeartRates)))
  /\ store_wf (data (snd (getHealthStatsHandler (postRequest "alice")
                            cachedHeartRates)))
  /\ store_wf (data (snd (deleteHealthRecordHandler (postRequest "alice")
                            cachedHeartRates))).
Proof.
  apply (health_handlers_keep_the_store_shape exampleParse fourthEnv
           (postRequest "alice") (Some (heartRate 90)) cachedHeartRates
           "alice"); try reflexivity.
  apply cachedHeartRates_wf.
Defined.

(** ** Identities that hold a colon *)

Lemma append_assoc (a b c : string) : (a +:+ b) +:+ c = a +:+ (b +:+ c).
Proof.
  induction a as [|x a IH]; [reflexivity|].
  change (String x ((a +:+ b) +:+ c) = String x (a +:+ (b +:+ c))).
  rewrite IH. reflexivity.
Qed.

Lemma recordKey_of_stats_identity (u T : string) :
  recordKey (u +:+ ":stats") T = statsKey u T.
Proof.
  unfold recordKey, statsKey.
  change ("health:" +:+ ((u +:+ ":stats") +:+ ":" +:+ T)
          = "health:" +:+ (u +:+ ":stats:" +:+ T)).
  rewrite append_assoc. reflexivity.
Qed.

Lemma delete_key_gone (r : Request) (d : gmap string entry) (u id : string) :
  Method r = "DELETE" -> ctxUser r = Some u -> Query r "id" = id ->
  id <> "" ->
  data (snd (deleteHealthRecordHandler r (mkRedis d []))) !! recordKey u id
  = None.
Proof.
  intros Hmethod Huser Hid Hne.
  rewrite (delete_reachable r d u id) by assumption. cbn [snd].
  destruct (decide (recordKey u id = listKey u)) as [He|He].
  - rewrite He. unfold LRem1, command. cbn [faults data].
    rewrite lookup_delete_eq. cbn. apply lookup_delete_eq.
  - rewrite LRem1_frame by exact He. apply lookup_delete_eq.
Qed.

(** X16: the keys of two users can coincide when an identity holds a
    colon.  The record key of the identity [u:stats] for the identifier
    [T] is the stats key of [u] for the type [T]: a delete by [u:stats]
    with [id=T] removes the cached stats of [u]. *)
Theorem colon_identity_deletes_stats_of_another (r : Request) (st : Redis)
    (u T : string) :
  Method r = "DELETE" -> ctxUser r = Some (u +:+ ":stats") ->
  Query r "id" = T -> T <> "" -> faults st = [] ->
  exists st',
    deleteHealthRecordHandler r st
    = (mkResponse 200 [jsonHeader] (JMessage "Record deleted successfully"),
       st')
    /\ data st' !! statsKey u T = None
    /\ cachedStats (data st') u T = None.
Proof.
  intros Hmethod Huser Hid Hne Hfaults.
  destruct st as [d f]; cbn [data faults] in *; subst f.
  pose proof (delete_key_gone r d _ T Hmethod Huser Hid Hne) as Hgone.
  rewrite recordKey_of_stats_identity in Hgone.
  rewrite (delete_reachable r d _ T Hmethod Huser Hid Hne) in Hgone |- *.
  eexists. split; [reflexivity|]. split; [exact Hgone|].
  unfold cachedStats, docAt. cbn [snd] in Hgone. rewrite Hgone. reflexivity.
Qed.

Lemma colon_identity_deletes_stats_of_another_witness :
  exists st',
    deleteHealthRecordHandler (deleteRequest "alice:stats" "heart_rate")
      cachedHeartRates
    = (mkResponse 200 [jsonHeader] (JMessage "Record deleted successfully"),
       st')
    /\ data st' !! statsKey "alice" "heart_rate" = None
    /\ cachedStats (data st') "alice" "heart_rate" = None.
Proof.
  apply (colon_identity_deletes_stats_of_another
           (deleteRequest "alice:stats" "heart_rate") cachedHeartRates
           "alice" "heart_rate"); try reflexivity. discriminate.
Defined.

(** ** What the recomputed stats are made of *)

(** X17: the stats a miss computes are made of the records that match.
    The count is their number; the minimum and the maximum are each the
    value of one of them; the last record is the instant of one of them,
    or the zero instant, and no matching record is later. *)
Theorem recomputed_stats_come_from_the_records (r : Request) (st : Redis)
    (u T : string) :
  Method r = "GET" -> ctxUser r = Some u -> Query r "type" = T -> T <> "" ->
  faults st = [] -> cachedStats (data st) u T = None ->
  matchingRecords (data st) u T <> [] ->
  exists (stats : HealthStats.t) (st' : Redis),
    getHealthStatsHandler r st = (statsResponse "MISS" stats, st')
    /\ HealthStats.Count stats
       = Z.of_nat (length (matchingRecords (data st) u T))
    /\ HealthStats.Min stats
       ∈ map HealthRecord.Value (matchingRecords (data st) u T)
    /\ HealthStats.Max stats
       ∈ map HealthRecord.Value (matchingRecords (data st) u T)
    /\ Forall (fun rec =>
                 HealthRecord.RecordedAt rec <= HealthStats.LastRecord stats)
         (matchingRecords (data st) u T)
    /\ (HealthStats.LastRecord stats = zeroTime
        \/ HealthStats.LastRecord stats
           ∈ map HealthRecord.RecordedAt (matchingRecords (data st) u T)).
Proof.
  intros Hmethod Huser Htype HT Hfaults Hmiss Hsome.
  destruct st as [d f]; cbn [data faults] in *; subst f.
  rewrite (stats_miss_reachable r d u T) by assumption.
  unfold recomputed.
  destruct (matchingRecords d u T) as [|rec rs] eqn:Em; [congruence|].
  do 2 eexists. split; [reflexivity|].
  unfold statsOf, computeStats.
  cbn [HealthStats.Count HealthStats.Min HealthStats.Max
       HealthStats.LastRecord].
  split; [rewrite length_map; reflexivity|].
  split; [apply calculateMin_member; discriminate|].
  split; [apply calculateMax_member; discriminate|].
  split; [apply fold_later_bounds | apply fold_later_member].
Qed.

Lemma recomputed_stats_come_from_the_records_witness :
  exists (stats : HealthStats.t) (st' : Redis),
    getHealthStatsHandler (statsRequest "alice" "heart_rate") threeHeartRates
    = (statsResponse "MISS" stats, st')
    /\ HealthStats.Count stats
       = Z.of_nat (length (matchingRecords (data threeHeartRates) "alice"
                             "heart_rate"))
    /\ HealthStats.Min stats
       ∈ map HealthRecord.Value
           (matchingRecords (data threeHeartRates) "alice" "heart_rate")
    /\ HealthStats.Max stats
       ∈ map HealthRecord.Value
           (matchingRecords (data threeHeartRates) "alice" "heart_rate")
    /\ Forall (fun rec =>
                 HealthRecord.RecordedAt rec <= HealthStats.LastRecord stats)
         (matchingRecords (data threeHeartRates) "alice" "heart_rate")
    /\ (HealthStats.LastRecord stats = zeroTime
        \/ HealthStats.LastRecord stats
           ∈ map HealthRecord.RecordedAt
               (matchingRecords (data threeHeartRates) "alice" "heart_rate")).
Proof.
  apply (recomputed_stats_come_from_the_records
           (statsRequest "alice" "heart_rate") threeHeartRates "alice"
           "heart_rate"); try reflexivity; vm_compute; discriminate.
Defined.

(** ** The middleware *)

Lemma stripPrefix_inv (p : string) :
  forall s rest, stripPrefix p s = Some rest -> s = p +:+ rest.
Proof.
  induction p as [|a p IH]; intros s rest H.
  - cbn in H. injection H as ->. reflexivity.
  - destruct s as [|b s]; [discriminate|]. cbn [stripPrefix] in H.
    destruct (Ascii.eqb_spec a b) as [->|]; [|discriminate].
    change (String b s = String b (p +:+ rest)). f_equal. apply IH, H.
Qed.

Section Middleware.

Variable JWTSecret : string.
Variable signingString : SigningMethod -> RegisteredClaims.t -> string.
Variable hmac : SigningMethod -> string -> string -> string.
Variable EncodeSegment : string -> string.
Variable DecodeSegment : string -> option string.
Variable ParseUnverified : string -> option Token.

(** The token [generateJWT] issues passes the middleware until it
    expires, when the library reads back what it wrote. *)
Lemma issued_token_passes (userID : string) (now t : Time) :
  let claims :=
    RegisteredClaims.mk "" userID [] (Some (now + 1 * Hour)) None None "" in
  let sstr := signingString HS256 claims in
  let mac := hmac HS256 JWTSecret sstr in
  let tok := sstr +:+ "." +:+ EncodeSegment mac in
  DecodeSegment (EncodeSegment mac) = Some mac ->
  ParseUnverified tok = Some (mkToken HS256 claims sstr (EncodeSegment mac)) ->
  now <= t < now + 1 * Hour ->
  generateJWT JWTSecret signingString hmac EncodeSegment now userID = Some tok
  /\ jwtMiddleware JWTSecret hmac DecodeSegment ParseUnverified t
       ("Bearer " +:+ tok) = Next userID.
Proof.
  intros claims sstr mac tok Hdec Hparse Ht.
  split; [reflexivity|].
  unfold jwtMiddleware, HasPrefix, TrimPrefix.
  rewrite (stripPrefix_app "Bearer " tok). cbn [negb].
  unfold ParseWithClaims. rewrite Hparse.
  cbn [Claims TokenMethod SigningInput Signature].
  unfold claimsValid, methodVerify. subst claims. cbn.
  rewrite Hdec. fold sstr. fold mac. rewrite String.eqb_refl.
  unfold Before. destruct (t <? now + 1 * Hour) eqn:E; [reflexivity|].
  apply Z.ltb_ge in E. lia.
Qed.

(** X18: the middleware lets a request through under a user only on a
    header that is [Bearer ] and a token string that parses, whose subject
    is that user, whose expiry, when it has one, lies ahead, whose
    not-before and issued-at, when it has them, do not, whose method is one
    of the HMAC family, and whose signature decodes to the MAC of its
    first two segments under the secret. *)
Theorem middleware_passes_only_valid_tokens (now : Time) (header u : string) :
  jwtMiddleware JWTSecret hmac DecodeSegment ParseUnverified now header
  = Next u ->
  exists (tok : string) (token : Token),
    header = "Bearer " +:+ tok
    /\ ParseUnverified tok = Some token
    /\ RegisteredClaims.Subject (Claims token) = u
    /\ (forall exp,
          RegisteredClaims.ExpiresAt (Claims token) = Some exp -> now < exp)
    /\ (forall nbf,
          RegisteredClaims.NotBefore (Claims token) = Some nbf -> nbf <= now)
    /\ (forall iat,
          RegisteredClaims.IssuedAt (Claims token) = Some iat -> iat <= now)
    /\ (forall alg, TokenMethod token <> OtherMethod alg)
    /\ DecodeSegment (Signature token)
       = Some (hmac (TokenMethod token) JWTSecret (SigningInput token)).
Proof.
  unfold jwtMiddleware, HasPrefix, TrimPrefix.
  destruct (stripPrefix "Bearer " header) as [tok|] eqn:Ep;
    cbn [negb]; [|discriminate].
  apply stripPrefix_inv in Ep.
  unfold ParseWithClaims.
  destruct (ParseUnverified tok) as [token|] eqn:Eparse; [|discriminate].
  destruct (claimsValid now (Claims token)) eqn:Ec; [|discriminate].
  destruct (methodVerify _ _ _ _) eqn:Em; cbn [andb]; [|discriminate].
  intros H. injection H as <-.
  exists tok, token. split; [exact Ep|]. split; [exact Eparse|].
  split; [reflexivity|].
  unfold claimsValid, Before, After in Ec.
  apply andb_prop in Ec as [Ec Hnbf]. apply andb_prop in Ec as [Hexp Hiat].
  split; [|split; [|split; [|split]]].
  - intros exp E. rewrite E in Hexp. apply Z.ltb_lt in Hexp. exact Hexp.
  - intros nbf E. rewrite E in Hnbf.
    apply orb_prop in Hnbf as [H|H];
      [apply Z.ltb_lt in H | apply Z.eqb_eq in H]; lia.
  - intros iat E. rewrite E in Hiat.
    apply orb_prop in Hiat as [H|H];
      [apply Z.ltb_lt in H | apply Z.eqb_eq in H]; lia.
  - intros alg E. unfold methodVerify in Em. rewrite E in Em. discriminate.
  - unfold methodVerify in Em.
    destruct (DecodeSegment (Signature token)) as [sig|];
      [|destruct (TokenMethod token); discriminate].
    destruct (TokenMethod token); try discriminate;
      apply String.eqb_eq in Em; rewrite Em; reflexivity.
Qed.

(** X19: the legacy login asks for a name and nothing else.  For every
    non-empty name it answers 200 with a token of that subject, which the
    middleware lets through under that name until the hour is over: no
    account is looked up and no password is asked for. *)
Theorem legacy_login_issues_a_token_for_any_name (user : string)
    (now t : Time) :
  let claims :=
    RegisteredClaims.mk "" user [] (Some (now + 1 * Hour)) None None "" in
  let sstr := signingString HS256 claims in
  let mac := hmac HS256 JWTSecret sstr in
  let tok := sstr +:+ "." +:+ EncodeSegment mac in
  user <> "" ->
  DecodeSegment (EncodeSegment mac) = Some mac ->
  ParseUnverified tok = Some (mkToken HS256 claims sstr (EncodeSegment mac)) ->
  now <= t < now + 1 * Hour ->
  legacyLoginHandler JWTSecret signingString hmac EncodeSegment now
    (Some user)
  = mkReply 200 [] (JObject [("token", tok)])
  /\ jwtMiddleware JWTSecret hmac DecodeSegment ParseUnverified t
       ("Bearer " +:+ tok) = Next user.
Proof.
  intros claims sstr mac tok Huser Hdec Hparse Ht.
  destruct (issued_token_passes user now t Hdec Hparse Ht) as [Hgen Hpass].
  split; [|exact Hpass].
  unfold legacyLoginHandler.
  destruct (String.eqb_spec user "") as [|_]; [contradiction|].
  rewrite Hgen. reflexivity.
Qed.

End Middleware.

Lemma middleware_passes_only_valid_tokens_witness :
  exists (tok : string) (token : Token),
    "Bearer " +:+ aliceToken = "Bearer " +:+ tok
    /\ toyParse tok = Some token
    /\ RegisteredClaims.Subject (Claims token) = "alice"
    /\ (forall exp,
          RegisteredClaims.ExpiresAt (Claims token) = Some exp -> 1000 < exp)
    /\ (forall nbf,
          RegisteredClaims.NotBefore (Claims token) = Some nbf -> nbf <= 1000)
    /\ (forall iat,
          RegisteredClaims.IssuedAt (Claims token) = Some iat -> iat <= 1000)
    /\ (forall alg, TokenMethod token <> OtherMethod alg)
    /\ toyDecode (Signature token)
       = Some (toyHmac (TokenMethod token) "secret" (SigningInput token)).
Proof.
  apply (middleware_passes_only_valid_tokens "secret" toyHmac toyDecode
           toyParse 1000 ("Bearer " +:+ aliceToken) "alice").
  reflexivity.
Defined.

Lemma legacy_login_issues_a_token_for_any_name_witness :
  legacyLoginHandler "secret" toySigningString toyHmac toyEncode 1000
    (Some "alice")
  = mkReply 200 [] (JObject [("token", aliceToken)])
  /\ jwtMiddleware "secret" toyHmac toyDecode toyParse 4599
       ("Bearer " +:+ aliceToken) = Next "alice".
Proof.
  apply (legacy_login_issues_a_token_for_any_name "secret" toySigningString
           toyHmac toyEncode toyDecode toyParse "alice" 1000 4599).
  - discriminate.
  - reflexivity.
  - reflexivity.
  - unfold Hour. lia.
Defined.

(** ** Registration *)

Lemma Get_absent (d : gmap string entry) (key : string) :
  docAt d key = None ->
  exists e, Get key (mkRedis d []) = (Err e, mkRedis d []).
Proof.
  intros H. rewrite Get_reachable. unfold docAt in H.
  destruct (d !! key) as [[[v|l] t]|]; try discriminate; eexists;
    reflexivity.
Qed.

Lemma unmarshalUser_no_password (v : doc) (user : User.t) :
  unmarshalUser v = Some user -> User.Password user = "".
Proof.
  destruct v as [usr|rec|s|raw]; cbn; intros H; try discriminate;
    injection H as <-; reflexivity.
Qed.

Section RegisterAndLogin.

Variable JWTSecret : string.
Variable signingString : SigningMethod -> RegisteredClaims.t -> string.
Variable hmac : SigningMethod -> string -> string -> string.
Variable EncodeSegment : string -> string.
Variable DecodeSegment : string -> option string.
Variable ParseUnverified : string -> option Token.
Variable isEmail : string -> bool.
Variable RuneCountInString : string -> Z.
Variable HashPassword : string -> option string.
Variable VerifyPassword : string -> string -> bool.

(** The registration handler on a store that answers and holds no
    document under the key of the email. *)
Lemma register_reachable (env : Env) (tokenNow : Time) (r : Request)
    (req : RegisterRequest.t) (d : gmap string entry) (hashed : string) :
  Method r = "POST" -> ContentLength r <= MaxRequestBodySize ->
  validateRegisterRequest isEmail RuneCountInString req = [] ->
  docAt d (userKey (RegisterRequest.Email req)) = None ->
  HashPassword (RegisterRequest.Password req) = Some hashed ->
  exists tok,
    generateJWT JWTSecret signingString hmac EncodeSegment tokenNow
      (uuid_New env) = Some tok
    /\ registerHandler JWTSecret signingString hmac EncodeSegment isEmail
         RuneCountInString HashPassword env tokenNow r (Some req)
         (mkRedis d [])
       = (mkResponse StatusCreated [jsonHeader]
            (JAuth (AuthResponse.mk tok 3600
                      (User.mk (uuid_New env) (RegisterRequest.Email req) ""
                         (RegisterRequest.FullName req) true zeroTime
                         zeroTime))),
          mkRedis
            (<[userKey (RegisterRequest.Email req) :=
                 Entry (RString (DUser
                          (User.mk (uuid_New env) (RegisterRequest.Email req)
                             "" (RegisterRequest.FullName req) true
                             (time_Now env) (time_Now' env))))
                       (Some (24 * Hour))]> d) []).
Proof.
  intros Hmethod Hsize Hvalid Hfree Hhash.
  eexists. split; [reflexivity|].
  unfold registerHandler. rewrite Hmethod.
  cbn [String.eqb Ascii.eqb Bool.eqb negb].
  within_size.
  rewrite Hvalid. unfold bind at 1.
  destruct (Get_absent d _ Hfree) as (e & ->).
  rewrite Hhash. reflexivity.
Qed.

(** X20: a registration that goes through answers 201 with a token and
    the public fields of the account.  The token is one the middleware
    lets through under the identifier of the new account, until the hour
    is over; the document stored under the key of the email holds the
    account with an empty password field: the hash is not stored. *)
Theorem registration_issues_a_token_and_stores_no_hash (env : Env)
    (tokenNow t : Time) (r : Request) (req : RegisterRequest.t) (st : Redis)
    (hashed : string) :
  let claims :=
    RegisteredClaims.mk "" (uuid_New env) [] (Some (tokenNow + 1 * Hour))
      None None "" in
  let sstr := signingString HS256 claims in
  let mac := hmac HS256 JWTSecret sstr in
  let tok := sstr +:+ "." +:+ EncodeSegment mac in
  Method r = "POST" -> ContentLength r <= MaxRequestBodySize ->
  validateRegisterRequest isEmail RuneCountInString req = [] ->
  faults st = [] ->
  docAt (data st) (userKey (RegisterRequest.Email req)) = None ->
  HashPassword (RegisterRequest.Password req) = Some hashed ->
  DecodeSegment (EncodeSegment mac) = Some mac ->
  ParseUnverified tok = Some (mkToken HS256 claims sstr (EncodeSegment mac)) ->
  tokenNow <= t < tokenNow + 1 * Hour ->
  exists st',
    registerHandler JWTSecret signingString hmac EncodeSegment isEmail
      RuneCountInString HashPassword env tokenNow r (Some req) st
    = (mkResponse 201 [jsonHeader]
         (JAuth (AuthResponse.mk tok 3600
                   (User.mk (uuid_New env) (RegisterRequest.Email req) ""
                      (RegisterRequest.FullName req) true zeroTime
                      zeroTime))), st')
    /\ docAt (data st') (userKey (RegisterRequest.Email req))
       = Some (DUser (User.mk (uuid_New env) (RegisterRequest.Email req) ""
                        (RegisterRequest.FullName req) true (time_Now env)
                        (time_Now' env)))
    /\ jwtMiddleware JWTSecret hmac DecodeSegment ParseUnverified t
         ("Bearer " +:+ tok) = Next (uuid_New env).
Proof.
  intros claims sstr mac tok Hmethod Hsize Hvalid Hfaults Hfree Hhash Hdec
    Hparse Ht.
  destruct st as [d f]; cbn [data faults] in *; subst f.
  destruct (register_reachable env tokenNow r req d hashed)
    as (tok' & Hgen & ->); try assumption.
  destruct (issued_token_passes JWTSecret signingString hmac EncodeSegment
              DecodeSegment ParseUnverified (uuid_New env) tokenNow t
              Hdec Hparse Ht) as [Hgen' Hpass].
  rewrite Hgen' in Hgen. injection Hgen as <-.
  eexists. split; [reflexivity|]. split; [|exact Hpass].
  unfold docAt. cbn [data]. rewrite lookup_insert_eq. reflexivity.
Qed.

(** X21: who has registered cannot log in.  The registration stores the
    account without the hash, so the login handler verifies the password
    against an empty hash, which bcrypt takes for no password at all: the
    login of the same email is answered 401, with the password of the
    registration as with any other. *)
Theorem registered_user_cannot_log_in (env : Env) (tokenNow now : Time)
    (r rl : Request) (req : RegisterRequest.t) (password : string)
    (st : Redis) (hashed : string) :
  (forall p, VerifyPassword "" p = false) ->
  Method r = "POST" -> ContentLength r <= MaxRequestBodySize ->
  validateRegisterRequest isEmail RuneCountInString req = [] ->
  faults st = [] ->
  docAt (data st) (userKey (RegisterRequest.Email req)) = None ->
  HashPassword (RegisterRequest.Password req) = Some hashed ->
  Method rl = "POST" -> ContentLength rl <= MaxRequestBodySize ->
  password <> "" ->
  let registered :=
    registerHandler JWTSecret signingString hmac EncodeSegment isEmail
      RuneCountInString HashPassword env tokenNow r (Some req) st in
  Status (fst registered) = 201
  /\ fst (loginHandler JWTSecret signingString hmac EncodeSegment isEmail
            VerifyPassword now rl
            (Some (LoginRequest.mk (RegisterRequest.Email req) password))
            (snd registered))
     = jsonError 401 "Invalid email or password".
Proof.
  intros Hbcrypt Hmethod Hsize Hvalid Hfaults Hfree Hhash Hmethod' Hsize'
    Hpw registered.
  destruct st as [d f]; cbn [data faults] in *; subst f. subst registered.
  destruct (register_reachable env tokenNow r req d hashed)
    as (tok & _ & ->); try assumption.
  cbn [fst snd Status]. split; [reflexivity|].
  eapply (login_wrong_password JWTSecret signingString hmac EncodeSegment
            isEmail VerifyPassword now rl _ _ _ _ Hmethod' Hsize').
  - unfold validateLoginRequest, checkField, requiredString.
    cbn [LoginRequest.Email LoginRequest.Password firstFailing].
    unfold validateRegisterRequest, checkField, requiredString in Hvalid.
    cbn [firstFailing] in Hvalid.
    destruct (negb (String.eqb (RegisterRequest.Email req) ""));
      [|discriminate].
    destruct (isEmail (RegisterRequest.Email req)); [|discriminate].
    destruct (String.eqb_spec password "") as [|_]; [contradiction|].
    reflexivity.
  - unfold docAt. cbn [data LoginRequest.Email].
    rewrite lookup_insert_eq. reflexivity.
  - reflexivity.
  - cbn [User.Password]. apply Hbcrypt.
Qed.

(** X22: an email that is registered is refused with 409 and the store is
    left as it was, when the lookup is answered. *)
Theorem registered_email_is_refused (env : Env) (tokenNow : Time)
    (r : Request) (req : RegisterRequest.t) (st : Redis) (v : doc) :
  Method r = "POST" -> ContentLength r <= MaxRequestBodySize ->
  validateRegisterRequest isEmail RuneCountInString req = [] ->
  faults st = [] ->
  docAt (data st) (userKey (RegisterRequest.Email req)) = Some v ->
  registerHandler JWTSecret signingString hmac EncodeSegment isEmail
    RuneCountInString HashPassword env tokenNow r (Some req) st
  = (jsonError 409 "Email already registered", st).
Proof.
  intros Hmethod Hsize Hvalid Hfaults Hthere.
  destruct st as [d f]; cbn [data faults] in *; subst f.
  unfold registerHandler. rewrite Hmethod.
  cbn [String.eqb Ascii.eqb Bool.eqb negb].
  within_size.
  rewrite Hvalid. unfold bind at 1. rewrite Get_reachable.
  unfold docAt in Hthere.
  destruct (d !! userKey (RegisterRequest.Email req)) as [[[v'|l] t]|];
    try discriminate. reflexivity.
Qed.

(** X23: a lookup that fails is taken for an email that is free.  When
    the store fails on the lookup and answers afterwards, the registration
    goes through with 201 and what was stored under the key of the email,
    an account among it, is replaced by the new account. *)
Theorem failed_lookup_lets_an_account_be_replaced (env : Env)
    (tokenNow : Time) (r : Request) (req : RegisterRequest.t)
    (d : gmap string entry) (detail hashed : string) :
  Method r = "POST" -> ContentLength r <= MaxRequestBodySize ->
  validateRegisterRequest isEmail RuneCountInString req = [] ->
  HashPassword (RegisterRequest.Password req) = Some hashed ->
  exists tok,
    registerHandler JWTSecret signingString hmac EncodeSegment isEmail
      RuneCountInString HashPassword env tokenNow r (Some req)
      (mkRedis d [Some detail])
    = (mkResponse 201 [jsonHeader]
         (JAuth (AuthResponse.mk tok 3600
                   (User.mk (uuid_New env) (RegisterRequest.Email req) ""
                      (RegisterRequest.FullName req) true zeroTime
                      zeroTime))),
       mkRedis
         (<[userKey (RegisterRequest.Email req) :=
              Entry (RString (DUser
                       (User.mk (uuid_New env) (RegisterRequest.Email req)
                          "" (RegisterRequest.FullName req) true
                          (time_Now env) (time_Now' env))))
                    (Some (24 * Hour))]> d) []).
Proof.
  intros Hmethod Hsize Hvalid Hhash.
  eexists. unfold registerHandler. rewrite Hmethod.
  cbn [String.eqb Ascii.eqb Bool.eqb negb].
  within_size.
  rewrite Hvalid. unfold bind at 1. unfold Get, command. cbn [faults data].
  rewrite Hhash. reflexivity.
Qed.

(** X24: the login handler reads and never writes: the data of the store
    is what it was, on every request and fault schedule. *)
Theorem login_writes_nothing (now : Time) (r : Request)
    (body : option LoginRequest.t) (st : Redis) :
  data (snd (loginHandler JWTSecret signingString hmac EncodeSegment isEmail
               VerifyPassword now r body st)) = data st.
Proof.
  unfold loginHandler.
  destruct (negb (String.eqb (Method r) "POST")); [reflexivity|].
  destruct (MaxRequestBodySize <? ContentLength r); [reflexivity|].
  destruct body as [req|]; [|reflexivity].
  destruct (validateLoginRequest isEmail req) as [|fe errs];
    [|reflexivity].
  unfold bind.
  destruct (Get_any (userKey (LoginRequest.Email req)) st)
    as (found & st1 & -> & Hd1 & _).
  destruct found as [v|e]; [|exact Hd1].
  destruct (unmarshalUser v) as [user|]; [|exact Hd1].
  destruct (negb (VerifyPassword _ _)); [exact Hd1|].
  destruct (negb (User.Active user)); [exact Hd1|].
  destruct (generateJWT _ _ _ _ _ _); exact Hd1.
Qed.

(** X25: a store that fails on the lookup of the account is answered to
    the client as wrong credentials: 401 with the generic error object,
    not a 5xx, whatever the store holds. *)
Theorem login_with_store_unreachable_is_401 (now : Time) (r : Request)
    (req : LoginRequest.t) (d : gmap string entry) (detail : string)
    (rest : list (option string)) :
  Method r = "POST" -> ContentLength r <= MaxRequestBodySize ->
  validateLoginRequest isEmail req = [] ->
  loginHandler JWTSecret signingString hmac EncodeSegment isEmail
    VerifyPassword now r (Some req) (mkRedis d (Some detail :: rest))
  = (jsonError 401 "Invalid email or password", mkRedis d rest).
Proof.
  intros Hmethod Hsize Hvalid.
  unfold loginHandler. rewrite Hmethod.
  cbn [String.eqb Ascii.eqb Bool.eqb negb].
  within_size.
  rewrite Hvalid. reflexivity.
Qed.

(** X26: the login handler lets nobody in.  The password of an account
    is filled from no stored document, so the hash handed to
    [VerifyPassword] is the empty one on every path; bcrypt verifying no
    password against an empty hash, the handler answers 200 or 403 to no
    request, on no store and no fault schedule, and no answer carries a
    token: every answer is a 405, 413, 400, 401 or 500. *)
Theorem login_never_issues_a_token (now : Time) (r : Request)
    (body : option LoginRequest.t) (st : Redis) :
  (forall p, VerifyPassword "" p = false) ->
  let out :=
    fst (loginHandler JWTSecret signingString hmac EncodeSegment isEmail
           VerifyPassword now r body st) in
  Status out <> 200 /\ Status out <> 403
  /\ (forall a, Payload out <> JAuth a)
  /\ (Status out = 405 \/ Status out = 413 \/ Status out = 400
      \/ Status out = 401 \/ Status out = 500).
Proof.
  intros Hbcrypt out. subst out. unfold loginHandler.
  destruct (negb (String.eqb (Method r) "POST"));
    [cbn; repeat split; try discriminate; auto|].
  destruct (MaxRequestBodySize <? ContentLength r);
    [cbn; repeat split; try discriminate; auto|].
  destruct body as [req|]; [|cbn; repeat split; try discriminate; auto 6].
  destruct (validateLoginRequest isEmail req) as [|fe errs];
    [|cbn; repeat split; try discriminate; auto 6].
  unfold bind.
  destruct (Get (userKey (LoginRequest.Email req)) st) as [found st1].
  destruct found as [v|e]; [|cbn; repeat split; try discriminate; auto 6].
  destruct (unmarshalUser v) as [user|] eqn:Eu;
    [|cbn; repeat split; try discriminate; auto 6].
  rewrite (unmarshalUser_no_password v user Eu), Hbcrypt.
  cbn; repeat split; try discriminate; auto 6.
Qed.

End RegisterAndLogin.

Lemma registration_issues_a_token_and_stores_no_hash_witness :
  exists st',
    registerHandler "secret" toySigningString toyHmac toyEncode toyIsEmail
      toyRuneCount toyHashPassword registerEnv 1761213600 loginPost
      (Some aliceRegistration) emptyStore
    = (mkResponse 201 [jsonHeader]
         (JAuth (AuthResponse.mk registeredToken 3600
                   (User.mk (uuidOfNat 7) "alice@example.com" "" "Alice" true
                      zeroTime zeroTime))), st')
    /\ docAt (data st') (userKey "alice@example.com")
       = Some (DUser (User.mk (uuidOfNat 7) "alice@example.com" "" "Alice"
                        true 1761213600 1761213600))
    /\ jwtMiddleware "secret" toyHmac toyDecode registeredParse 1761213700
         ("Bearer " +:+ registeredToken) = Next (uuidOfNat 7).
Proof.
  apply (registration_issues_a_token_and_stores_no_hash "secret"
           toySigningString toyHmac toyEncode toyDecode registeredParse
           toyIsEmail toyRuneCount toyHashPassword registerEnv 1761213600
           1761213700 loginPost aliceRegistration emptyStore
           "bcrypt:correct horse"); try reflexivity.
  - vm_compute. discriminate.
  - unfold Hour. lia.
Defined.

Lemma registered_user_cannot_log_in_witness :
  Status (fst (registerHandler "secret" toySigningString toyHmac toyEncode
                 toyIsEmail toyRuneCount toyHashPassword registerEnv
                 1761213600 loginPost (Some aliceRegistration) emptyStore))
  = 201
  /\ fst (loginHandler "secret" toySigningString toyHmac toyEncode toyIsEmail
            toyVerifyPassword 1761213700 loginPost
            (Some (LoginRequest.mk "alice@example.com" "correct horse"))
            (snd (registerHandler "secret" toySigningString toyHmac toyEncode
                    toyIsEmail toyRuneCount toyHashPassword registerEnv
                    1761213600 loginPost (Some aliceRegistration)
                    emptyStore)))
     = jsonError 401 "Invalid email or password".
Proof.
  apply (registered_user_cannot_log_in "secret" toySigningString toyHmac
           toyEncode toyIsEmail toyRuneCount toyHashPassword
           toyVerifyPassword registerEnv 1761213600 1761213700 loginPost
           loginPost aliceRegistration "correct horse" emptyStore
           "bcrypt:correct horse"); try reflexivity;
    vm_compute; discriminate.
Defined.

Lemma registered_email_is_refused_witness :
  registerHandler "secret" toySigningString toyHmac toyEncode toyIsEmail
    toyRuneCount toyHashPassword registerEnv 1761213600 loginPost
    (Some aliceRegistration) registeredStore
  = (jsonError 409 "Email already registered", registeredStore).
Proof.
  apply (registered_email_is_refused "secret" toySigningString toyHmac
           toyEncode toyIsEmail toyRuneCount toyHashPassword registerEnv
           1761213600 loginPost aliceRegistration registeredStore
           (DUser (User.mk (uuidOfNat 7) "alice@example.com" "" "Alice" true
                     1761213600 1761213600)));
    try reflexivity. vm_compute. discriminate.
Defined.

Lemma failed_lookup_lets_an_account_be_replaced_witness :
  exists tok,
    registerHandler "secret" toySigningString toyHmac toyEncode toyIsEmail
      toyRuneCount toyHashPassword
      (mkEnv (uuidOfNat 9) 1761217200 1761217200) 1761217200 loginPost
      (Some (RegisterRequest.mk "alice@example.com" "another one" "Mallory"))
      (mkRedis (data registeredStore) [Some connectionRefused])
    = (mkResponse 201 [jsonHeader]
         (JAuth (AuthResponse.mk tok 3600
                   (User.mk (uuidOfNat 9) "alice@example.com" "" "Mallory"
                      true zeroTime zeroTime))),
       mkRedis
         (<[userKey "alice@example.com" :=
              Entry (RString (DUser
                       (User.mk (uuidOfNat 9) "alice@example.com" ""
                          "Mallory" true 1761217200 1761217200)))
                    (Some (24 * Hour))]> (data registeredStore)) []).
Proof.
  apply (failed_lookup_lets_an_account_be_replaced "secret" toySigningString
           toyHmac toyEncode toyIsEmail toyRuneCount toyHashPassword
           (mkEnv (uuidOfNat 9) 1761217200 1761217200) 1761217200 loginPost
           (RegisterRequest.mk "alice@example.com" "another one" "Mallory")
           (data registeredStore) connectionRefused "bcrypt:another one");
    try reflexivity. vm_compute. discriminate.
Defined.

Lemma login_with_store_unreachable_is_401_witness :
  loginHandler "secret" toySigningString toyHmac toyEncode toyIsEmail
    toyVerifyPassword 1761213700 loginPost
    (Some (LoginRequest.mk "alice@example.com" "correct horse"))
    (mkRedis (data registeredStore) [Some connectionRefused])
  = (jsonError 401 "Invalid email or password", registeredStore).
Proof.
  apply (login_with_store_unreachable_is_401 "secret" toySigningString
           toyHmac toyEncode toyIsEmail toyVerifyPassword 1761213700
           loginPost
           (LoginRequest.mk "alice@example.com" "correct horse")
           (data registeredStore) connectionRefused []);
    try reflexivity. vm_compute. discriminate.
Defined.

Lemma login_never_issues_a_token_witness :
  let out :=
    fst (loginHandler "secret" toySigningString toyHmac toyEncode toyIsEmail
           toyVerifyPassword 1761213700 loginPost
           (Some (LoginRequest.mk "alice@example.com" "correct horse"))
           registeredStore) in
  Status out <> 200 /\ Status out <> 403
  /\ (forall a, Payload out <> JAuth a)
  /\ (Status out = 405 \/ Status out = 413 \/ Status out = 400
      \/ Status out = 401 \/ Status out = 500).
Proof.
  apply (login_never_issues_a_token "secret" toySigningString toyHmac
           toyEncode toyIsEmail toyVerifyPassword 1761213700 loginPost
           (Some (LoginRequest.mk "alice@example.com" "correct horse"))
           registeredStore).
  intros p. reflexivity.
Defined.

(** ** Notes *)

Section Notes.

Variable time_Parse_RFC3339 : string -> option Time.

(** X27: the notes of a record are not validated.  The [max=500] of the
    request struct is never consulted, the handler validating a struct
    without the field: a request that is accepted is accepted with any
    notes in place of its own, of whatever length, and the record is
    stored and returned with them. *)
Theorem notes_are_not_validated (env : Env) (r : Request)
    (req : HealthRecordRequest.t) (notes : string) (st : Redis) (u : string) :
  Method r = "POST" -> ContentLength r <= MaxRequestBodySize ->
  ctxUser r = Some u ->
  validateHealthRecordInput (inputOf req) = [] ->
  faults st = [] -> docAt (data st) (listKey u) = None ->
  is_uuid (uuid_New env) = true ->
  let req' :=
    HealthRecordRequest.mk (HealthRecordRequest.Type_ req)
      (HealthRecordRequest.Value req) (HealthRecordRequest.Unit req) notes
      (HealthRecordRequest.RecordedAt req) in
  exists (rec : HealthRecord.t) (st' : Redis),
    createHealthRecordHandler time_Parse_RFC3339 env r (Some req') st
    = (mkResponse 201 [jsonHeader] (JRecord rec), st')
    /\ HealthRecord.Notes rec = notes
    /\ recordAt (data st') u (uuid_New env) = Some rec.
Proof.
  intros Hmethod Hsize Huser Hvalid Hfaults Hlist Hid req'.
  destruct st as [d f]; cbn [data faults] in *; subst f.
  rewrite (create_reachable time_Parse_RFC3339 env r req' d u)
    by assumption.
  do 2 eexists. split; [reflexivity|]. split; [reflexivity|].
  cbn [data].
  exact (afterCreate_record d u (newRecord time_Parse_RFC3339 env u req')
           Hid).
Qed.

End Notes.

Lemma notes_are_not_validated_witness :
  exists (rec : HealthRecord.t) (st' : Redis),
    createHealthRecordHandler exampleParse fourthEnv (postRequest "alice")
      (Some (HealthRecordRequest.mk "heart_rate" 90 "bpm"
               (String.concat "" (repeat "0123456789" 51)) ""))
      threeHeartRates
    = (mkResponse 201 [jsonHeader] (JRecord rec), st')
    /\ HealthRecord.Notes rec = String.concat "" (repeat "0123456789" 51)
    /\ recordAt (data st') "alice" (uuidOfNat 3) = Some rec.
Proof.
  apply (notes_are_not_validated exampleParse fourthEnv (postRequest "alice")
           (heartRate 90) (String.concat "" (repeat "0123456789" 51))
           threeHeartRates "alice"); try reflexivity.
  vm_compute. discriminate.
Defined.

(** ** CSRF tokens *)

Section CSRFTokens.

Variable EncodeToString : string -> string.

(** X28: a token that was generated validates once, and only before its
    expiry of 15 minutes.  A validation before the expiry succeeds, one at
    the expiry or later fails; either removes the token, so that every
    later validation of it fails. *)
Theorem csrf_token_validates_once_before_expiry (bytes : string)
    (now t t' : Time) (store : gmap string Time) :
  let token := EncodeToString bytes in
  let issued := GenerateCSRFToken EncodeToString (Some bytes) now store in
  fst issued = Some token
  /\ snd issued !! token = Some (now + 900)
  /\ ValidateCSRFToken token t (snd issued)
     = (t <? now + 900, delete token store)
  /\ fst (ValidateCSRFToken token t'
            (snd (ValidateCSRFToken token t (snd issued)))) = false.
Proof.
  intros token issued. subst issued. unfold GenerateCSRFToken.
  cbn [fst snd]. fold token.
  change (now + CSRFTokenExpiry) with (now + 900).
  split; [reflexivity|]. split; [apply lookup_insert_eq|].
  assert (Hv : ValidateCSRFToken token t (<[token := now + 900]> store)
               = (t <? now + 900, delete token store)).
  { unfold ValidateCSRFToken. rewrite lookup_insert_eq. unfold Before.
    rewrite delete_insert_eq. destruct (t <? now + 900); reflexivity. }
  split; [exact Hv|]. rewrite Hv. cbn [snd].
  unfold ValidateCSRFToken. rewrite lookup_delete_eq. reflexivity.
Qed.

End CSRFTokens.

(** X29: a validation succeeds exactly on a token the store holds with an
    expiry that lies ahead.  It never adds a token; the token presented is
    not in the store afterwards, and every other token is held as
    before. *)
Theorem csrf_validation_consumes_only_the_token (token : string) (t : Time)
    (store : gmap string Time) :
  (fst (ValidateCSRFToken token t store) = true
   <-> exists expiry, store !! token = Some expiry /\ t < expiry)
  /\ snd (ValidateCSRFToken token t store) !! token = None
  /\ forall other, other <> token ->
       snd (ValidateCSRFToken token t store) !! other = store !! other.
Proof.
  unfold ValidateCSRFToken, Before.
  destruct (store !! token) as [expiry|] eqn:E.
  - destruct (t <? expiry) eqn:Et; cbn [fst snd].
    + apply Z.ltb_lt in Et. split; [|split].
      * split; [intros _; exists expiry; auto | reflexivity].
      * apply lookup_delete_eq.
      * intros other Hne. apply lookup_delete_ne. congruence.
    + apply Z.ltb_ge in Et. split; [|split].
      * split; [discriminate|].
        intros (expiry' & He & Hlt). injection He as <-. lia.
      * apply lookup_delete_eq.
      * intros other Hne. apply lookup_delete_ne. congruence.
  - cbn [fst snd]. split; [|split].
    + split; [discriminate | intros (expiry & He & _); discriminate].
    + exact E.
    + reflexivity.
Qed.

(** ** From the legacy login to the records of a user *)

Section LegacyToRecords.

Variable JWTSecret : string.
Variable signingString : SigningMethod -> RegisteredClaims.t -> string.
Variable hmac : SigningMethod -> string -> string -> string.
Variable EncodeSegment : string -> string.
Variable DecodeSegment : string -> option string.
Variable ParseUnverified : string -> option Token.

(** X30: the token of the legacy login opens the records of the user it
    names.  For every non-empty name the legacy login hands out a token
    with which, until the hour is over, the list handler behind the
    middleware returns the page of the index of that user, on a store that
    answers: the identity of the protected routes is what the caller of
    the legacy login said it was. *)
Theorem legacy_token_opens_the_records_of_any_user (user : string)
    (now t : Time) (r : Request) (st : Redis) :
  let claims :=
    RegisteredClaims.mk "" user [] (Some (now + 1 * Hour)) None None "" in
  let sstr := signingString HS256 claims in
  let mac := hmac HS256 JWTSecret sstr in
  let tok := sstr +:+ "." +:+ EncodeSegment mac in
  user <> "" ->
  DecodeSegment (EncodeSegment mac) = Some mac ->
  ParseUnverified tok = Some (mkToken HS256 claims sstr (EncodeSegment mac)) ->
  now <= t < now + 1 * Hour ->
  Method r = "GET" -> faults st = [] ->
  docAt (data st) (listKey user) = None ->
  1 <= pageLimit (Query r "limit") ->
  legacyLoginHandler JWTSecret signingString hmac EncodeSegment now
    (Some user)
  = mkReply 200 [] (JObject [("token", tok)])
  /\ Payload
       (fst (protectedRoute JWTSecret hmac DecodeSegment ParseUnverified
               getHealthRecordsHandler t ("Bearer " +:+ tok) r st))
     = JRecords
         (omap (recordAt (data st) user)
            (take (Z.to_nat (pageLimit (Query r "limit")))
               (indexOf (data st) user))).
Proof.
  intros claims sstr mac tok Huser Hdec Hparse Ht Hmethod Hfaults Hlist Hpos.
  destruct (issued_token_passes JWTSecret signingString hmac EncodeSegment
              DecodeSegment ParseUnverified user now t Hdec Hparse Ht)
    as [Hgen Hpass].
  split.
  - unfold legacyLoginHandler.
    destruct (String.eqb_spec user "") as [|_]; [contradiction|].
    rewrite Hgen. reflexivity.
  - unfold protectedRoute. fold claims sstr mac tok in Hpass. rewrite Hpass.
    destruct st as [d f]; cbn [data faults] in *; subst f.
    rewrite (list_page_reachable (withUser user r) d user);
      try assumption; reflexivity.
Qed.

End LegacyToRecords.

Lemma legacy_token_opens_the_records_of_any_user_witness :
  legacyLoginHandler "secret" toySigningString toyHmac toyEncode 1000
    (Some "alice")
  = mkReply 200 [] (JObject [("token", aliceToken)])
  /\ Payload
       (fst (protectedRoute "secret" toyHmac toyDecode toyParse
               getHealthRecordsHandler 1000 ("Bearer " +:+ aliceToken)
               (mkRequest "GET" 0 None (fun _ => "")) threeHeartRates))
     = JRecords
         (omap (recordAt (data threeHeartRates) "alice")
            (take (Z.to_nat (pageLimit ""))
               (indexOf (data threeHeartRates) "alice"))).
Proof.
  apply (legacy_token_opens_the_records_of_any_user "secret" toySigningString
           toyHmac toyEncode toyDecode toyParse "alice" 1000 1000
           (mkRequest "GET" 0 None (fun _ => "")) threeHeartRates);
    try reflexivity.
  - discriminate.
  - unfold Hour. lia.
  - vm_compute. discriminate.
Defined.
